(** * Icon creation plug-in: build, export and validation pipeline

    A shallow embedding of [src/maya/icon_creation] ([core.py], [utils.py],
    [view.py], [mldb.py], [constants.py]) and the properties of its pipeline.

    The plug-in is Python 2 code running inside Maya.  Python values that
    travel through [json.loads]/[json.dumps] are modelled by the type
    [json]; exceptions by the error monad [result]; the Maya session (the
    DAG below the Icon Template, the [iconSettings] plug and the commands
    sent to Maya) by the record [maya] threaded through a state monad. *)

From Stdlib Require Import ZArith Ascii String DecimalString DecimalPos DecimalFacts.
From stdpp Require Import base list strings gmap.

Local Open Scope Z_scope.
Local Open Scope string_scope.
Local Open Scope list_scope.

(** ** Python values and exceptions *)

Module Py.

(** The exception classes the pipeline raises or catches. *)
Inductive exn : Type :=
  | ValueError
  | TypeError
  | KeyError
  | AttributeError
  | RuntimeError
  | OSError
  | CalledProcessError.

Definition exn_eqb (a b : exn) : bool :=
  match a, b with
  | ValueError, ValueError | TypeError, TypeError | KeyError, KeyError
  | AttributeError, AttributeError | RuntimeError, RuntimeError
  | OSError, OSError | CalledProcessError, CalledProcessError => true
  | _, _ => false
  end.

Inductive result (A : Type) : Type :=
  | Ok (a : A)
  | Raise (e : exn).
Arguments Ok {A} a.
Arguments Raise {A} e.

#[export] Instance result_ret : MRet result := fun A a => Ok a.
#[export] Instance result_bind : MBind result := fun A B f m =>
  match m with
  | Ok a => f a
  | Raise e => Raise e
  end.

Definition is_ok {A} (r : result A) : bool :=
  match r with Ok _ => true | Raise _ => false end.

(** A value as [json.loads] builds it.  A number written with a fraction or
    an exponent is a Python float; it is kept as its literal. *)
#[warnings="-register-all"]
Inductive json : Type :=
  | JNull
  | JBool (b : bool)
  | JInt (z : Z)
  | JFloat (lit : string)
  | JStr (s : string)
  | JArr (items : list json)
  | JObj (fields : list (string * json)).

(** The text [s] with a double quote for each apostrophe: JSON and MEL
    texts are written with apostrophes below. *)
Fixpoint with_quotes (s : string) : string :=
  match s with
  | EmptyString => EmptyString
  | String c s' => String (if Ascii.eqb c "'" then "034"%char else c) (with_quotes s')
  end.

(** *** Dictionaries: association lists with one binding per key *)

Fixpoint dict_lookup (k : string) (d : list (string * json)) : option json :=
  match d with
  | [] => None
  | (k', v) :: d' => if String.eqb k k' then Some v else dict_lookup k d'
  end.

(** [d[k] = v]: an existing key keeps its place, a new one is added. *)
Fixpoint dict_set (k : string) (v : json) (d : list (string * json))
  : list (string * json) :=
  match d with
  | [] => [(k, v)]
  | (k', v') :: d' =>
      if String.eqb k k' then (k', v) :: d' else (k', v') :: dict_set k v d'
  end.

(** *** Operators *)

Fixpoint is_substring (p s : string) : bool :=
  String.prefix p s ||
  match s with
  | EmptyString => false
  | String _ s' => is_substring p s'
  end.

Definition is_zero_digit (c : ascii) : bool :=
  match c with
  | "0"%char | "."%char | "-"%char => true
  | _ => false
  end.

(** The mantissa of a float literal: what precedes [e] or [E]. *)
Fixpoint mantissa (s : string) : string :=
  match s with
  | EmptyString => EmptyString
  | String c s' =>
      if (Ascii.eqb c "e" || Ascii.eqb c "E")%bool then EmptyString
      else String c (mantissa s')
  end.

Fixpoint string_forallb (f : ascii -> bool) (s : string) : bool :=
  match s with
  | EmptyString => true
  | String c s' => f c && string_forallb f s'
  end.

(** [bool(v)] *)
Definition truthy (v : json) : bool :=
  match v with
  | JNull => false
  | JBool b => b
  | JInt z => negb (Z.eqb z 0)
  | JFloat lit => negb (string_forallb is_zero_digit (mantissa lit))
  | JStr s => negb (String.eqb s "")
  | JArr l => match l with [] => false | _ => true end
  | JObj d => match d with [] => false | _ => true end
  end.

(** [v[k]] for a string [k] *)
Definition getitem (v : json) (k : string) : result json :=
  match v with
  | JObj d => match dict_lookup k d with Some x => Ok x | None => Raise KeyError end
  | _ => Raise TypeError
  end.

(** [v.get(k, default)] *)
Definition get (v : json) (k : string) (dflt : json) : result json :=
  match v with
  | JObj d => Ok (default dflt (dict_lookup k d))
  | _ => Raise AttributeError
  end.

Definition is_str (k : string) (v : json) : bool :=
  match v with JStr s => String.eqb s k | _ => false end.

(** [k in v] for a string [k] *)
Definition contains (k : string) (v : json) : result bool :=
  match v with
  | JObj d => Ok (match dict_lookup k d with Some _ => true | None => false end)
  | JArr l => Ok (existsb (is_str k) l)
  | JStr s => Ok (is_substring k s)
  | _ => Raise TypeError
  end.

Fixpoint chars (s : string) : list json :=
  match s with
  | EmptyString => []
  | String c s' => JStr (String c EmptyString) :: chars s'
  end.

(** The elements [for x in v] visits. *)
Definition iter (v : json) : result (list json) :=
  match v with
  | JArr l => Ok l
  | JObj d => Ok (map (fun kv => JStr (fst kv)) d)
  | JStr s => Ok (chars s)
  | _ => Raise TypeError
  end.

End Py.

(** ** [os.path] (posixpath) *)

Module PosixPath.

Definition is_slash (c : ascii) : bool := Ascii.eqb c "/".
Definition is_dot (c : ascii) : bool := Ascii.eqb c ".".

(** [(p[:i], p[i:])] with [i = p.rfind('/') + 1] *)
Fixpoint split_last (p : string) : string * string :=
  match p with
  | EmptyString => (EmptyString, EmptyString)
  | String c p' =>
      let '(h, t) := split_last p' in
      match h with
      | EmptyString =>
          if is_slash c then (String c EmptyString, t) else (EmptyString, String c t)
      | _ => (String c h, t)
      end
  end.

(** [s.rstrip('/')] *)
Fixpoint rstrip_slash (s : string) : string :=
  match s with
  | EmptyString => EmptyString
  | String c s' =>
      match rstrip_slash s' with
      | EmptyString => if is_slash c then EmptyString else String c EmptyString
      | r => String c r
      end
  end.

Definition basename (p : string) : string := snd (split_last p).

Definition dirname (p : string) : string :=
  let h := fst (split_last p) in
  if negb (String.eqb h "") && negb (Py.string_forallb is_slash h)
  then rstrip_slash h else h.

Fixpoint ends_with_slash (s : string) : bool :=
  match s with
  | EmptyString => false
  | String c EmptyString => is_slash c
  | String _ s' => ends_with_slash s'
  end.

Definition isabs (p : string) : bool :=
  match p with String c _ => is_slash c | EmptyString => false end.

(** [os.path.join(a, b)] *)
Definition join (a b : string) : string :=
  if isabs b then b
  else if String.eqb a "" || ends_with_slash a then a +:+ b
  else a +:+ "/" +:+ b.

(** [(t[:i], t[i:])] with [i = t.rfind('.')], or [(t, "")] without a dot *)
Fixpoint split_dot (t : string) : string * string :=
  match t with
  | EmptyString => (EmptyString, EmptyString)
  | String c t' =>
      let '(pre, ext) := split_dot t' in
      match ext with
      | EmptyString =>
          if is_dot c then (EmptyString, String c t') else (String c pre, EmptyString)
      | _ => (String c pre, ext)
      end
  end.

(** [os.path.splitext]: the extension starts at the last dot of the file
    name, unless only dots precede it. *)
Definition splitext (p : string) : string * string :=
  let '(h, t) := split_last p in
  let '(pre, ext) := split_dot t in
  if String.eqb ext "" || Py.string_forallb is_dot pre then (p, "")
  else (h +:+ pre, ext).

(** [s.split('/')] *)
Fixpoint split_slash (s : string) : list string :=
  match s with
  | EmptyString => [EmptyString]
  | String c s' =>
      match split_slash s' with
      | h :: t => if is_slash c then EmptyString :: h :: t else String c h :: t
      | [] => []
      end
  end.

Fixpoint join_slash (l : list string) : string :=
  match l with
  | [] => ""
  | [x] => x
  | x :: l' => x +:+ "/" +:+ join_slash l'
  end.

(** The number of leading slashes [normpath] keeps: 0, 1 or 2. *)
Definition initial_slashes (p : string) : nat :=
  match p with
  | String a (String b (String c _)) =>
      if is_slash a then (if is_slash b && negb (is_slash c) then 2 else 1)%nat else 0%nat
  | String a (String b EmptyString) =>
      if is_slash a then (if is_slash b then 2 else 1)%nat else 0%nat
  | String a EmptyString => if is_slash a then 1%nat else 0%nat
  | EmptyString => 0%nat
  end.

(** One round of [normpath]'s loop; [stack] is [new_comps] reversed. *)
Definition norm_step (initial : nat) (stack : list string) (comp : string)
  : list string :=
  if String.eqb comp "" || String.eqb comp "." then stack
  else if negb (String.eqb comp "..")
          || (Nat.eqb initial 0 && match stack with [] => true | _ => false end)
          || match stack with top :: _ => String.eqb top ".." | [] => false end
  then comp :: stack
  else match stack with _ :: rest => rest | [] => [] end.

Fixpoint repeat_slash (n : nat) : string :=
  match n with O => "" | S n' => String "/" (repeat_slash n') end.

Definition normpath (path : string) : string :=
  if String.eqb path "" then "."
  else
    let initial := initial_slashes path in
    let comps := rev (fold_left (norm_step initial) (split_slash path) []) in
    let p := repeat_slash initial +:+ join_slash comps in
    if String.eqb p "" then "." else p.

(** [os.path.abspath(path)] in a process whose working directory is [cwd] *)
Definition abspath (cwd path : string) : string :=
  normpath (if isabs path then path else join cwd path).

End PosixPath.

(** ** Methods of [str] and [unicode]

    A [unicode] text is held as its UTF-8 bytes. *)

Module Text.

(** [s.split(sep)] for a separator of one character *)
Fixpoint split (sep : ascii) (s : string) : list string :=
  match s with
  | EmptyString => [EmptyString]
  | String c s' =>
      match split sep s' with
      | h :: t => if Ascii.eqb c sep then EmptyString :: h :: t else String c h :: t
      | [] => []
      end
  end.

(** [s.startswith(p)] *)
Definition startswith (p s : string) : bool := String.prefix p s.

(** [l[-1]] of a list that [split] returned *)
Definition last_of (l : list string) : string := List.last l EmptyString.

(** [l[0]] of a list that [split] returned *)
Definition first_of (l : list string) : string := List.hd EmptyString l.

(** The line boundaries of one character that [unicode.splitlines] knows
    besides the carriage return: line feed, vertical tab, form feed, file,
    group and record separator. *)
Definition is_break (c : ascii) : bool :=
  Ascii.eqb c "010" || Ascii.eqb c "011" || Ascii.eqb c "012" ||
  Ascii.eqb c "028" || Ascii.eqb c "029" || Ascii.eqb c "030".

(** [u.splitlines()] of a [unicode] text.  Beside the boundaries above a
    line ends at a carriage return, with the line feed that follows it, at
    the next-line character U+0085 (bytes 194 133) and at the line and
    paragraph separators U+2028 and U+2029 (bytes 226 128 168 and
    226 128 169). *)
Fixpoint usplitlines (s : string) : list string :=
  match s with
  | EmptyString => []
  | String c s' =>
      let line_ends_before (rest : list string) := EmptyString :: rest in
      let goes_on :=
        match usplitlines s' with
        | [] => [String c EmptyString]
        | l :: ls => String c l :: ls
        end in
      if Ascii.eqb c "013" then
        match s' with
        | String c' s'' =>
            if Ascii.eqb c' "010" then line_ends_before (usplitlines s'')
            else line_ends_before (usplitlines s')
        | EmptyString => [EmptyString]
        end
      else if is_break c then line_ends_before (usplitlines s')
      else if Ascii.eqb c "194" then
        match s' with
        | String c' s'' =>
            if Ascii.eqb c' "133" then line_ends_before (usplitlines s'') else goes_on
        | EmptyString => goes_on
        end
      else if Ascii.eqb c "226" then
        match s' with
        | String c' (String c'' s''') =>
            if Ascii.eqb c' "128" && (Ascii.eqb c'' "168" || Ascii.eqb c'' "169")
            then line_ends_before (usplitlines s''') else goes_on
        | _ => goes_on
        end
      else goes_on
  end.

End Text.

(** ** [json.loads] and [json.dumps]

    Strings are byte strings in UTF-8.  The decoder follows
    [json.decoder]: white space is blank, tab, line feed and carriage
    return; a number is an optional minus sign, an integer part (a lone
    zero, or digits not starting with zero), an optional fraction and an
    optional exponent; a control character inside a string, an unknown escape, a trailing
    comma and text after the document are errors. *)

Module Json.
Import Py.

Definition is_ws (c : ascii) : bool :=
  Ascii.eqb c " " || Ascii.eqb c "009" || Ascii.eqb c "010" || Ascii.eqb c "013".

Fixpoint skip_ws (s : string) : string :=
  match s with
  | String c s' => if is_ws c then skip_ws s' else s
  | EmptyString => s
  end.

Definition is_digit (c : ascii) : bool :=
  (48 <=? nat_of_ascii c)%nat && (nat_of_ascii c <=? 57)%nat.

Fixpoint span_digits (s : string) : string * string :=
  match s with
  | String c s' =>
      if is_digit c then let '(d, r) := span_digits s' in (String c d, r)
      else (EmptyString, s)
  | EmptyString => (EmptyString, EmptyString)
  end.

Definition digit_val (c : ascii) : Z := Z.of_nat (nat_of_ascii c) - 48.

Fixpoint Z_of_digits (acc : Z) (ds : string) : Z :=
  match ds with
  | EmptyString => acc
  | String c ds' => Z_of_digits (10 * acc + digit_val c) ds'
  end.

Fixpoint strip_prefix (p s : string) : option string :=
  match p, s with
  | EmptyString, _ => Some s
  | String a p', String b s' => if Ascii.eqb a b then strip_prefix p' s' else None
  | String _ _, EmptyString => None
  end.

(** The integer part: a lone [0], or digits that start with [1..9]. *)
Definition span_int (s : string) : string * string :=
  match s with
  | String c s' =>
      if Ascii.eqb c "0" then (String c EmptyString, s') else span_digits s
  | EmptyString => (EmptyString, EmptyString)
  end.

Definition span_frac (s : string) : string * string :=
  match s with
  | String c s' =>
      if Ascii.eqb c "." then
        match span_digits s' with
        | (EmptyString, _) => (EmptyString, s)
        | (d, r) => (String c d, r)
        end
      else (EmptyString, s)
  | EmptyString => (EmptyString, s)
  end.

Definition span_exp (s : string) : string * string :=
  match s with
  | String e s' =>
      if Ascii.eqb e "e" || Ascii.eqb e "E" then
        let '(sign, s'') :=
          match s' with
          | String g r =>
              if Ascii.eqb g "+" || Ascii.eqb g "-" then (String g EmptyString, r)
              else (EmptyString, s')
          | EmptyString => (EmptyString, s')
          end in
        match span_digits s'' with
        | (EmptyString, _) => (EmptyString, s)
        | (d, r) => (String e (sign +:+ d), r)
        end
      else (EmptyString, s)
  | EmptyString => (EmptyString, s)
  end.

Definition parse_number (s : string) : option (json * string) :=
  let '(neg, s1) :=
    match s with
    | String c r => if Ascii.eqb c "-" then (true, r) else (false, s)
    | EmptyString => (false, s)
    end in
  match span_int s1 with
  | (EmptyString, _) => None
  | (ds, s2) =>
      let '(frac, s3) := span_frac s2 in
      let '(ex, s4) := span_exp s3 in
      if String.eqb frac "" && String.eqb ex "" then
        let n := Z_of_digits 0 ds in
        Some (JInt (if neg then - n else n), s4)
      else
        Some (JFloat ((if neg then "-" else "") +:+ ds +:+ frac +:+ ex), s4)
  end.

Definition parse_literal (s : string) : option (json * string) :=
  match strip_prefix "null" s with Some r => Some (JNull, r) | None =>
  match strip_prefix "true" s with Some r => Some (JBool true, r) | None =>
  match strip_prefix "false" s with Some r => Some (JBool false, r) | None =>
  match strip_prefix "NaN" s with Some r => Some (JFloat "NaN", r) | None =>
  match strip_prefix "Infinity" s with Some r => Some (JFloat "Infinity", r) | None =>
  match strip_prefix "-Infinity" s with Some r => Some (JFloat "-Infinity", r) | None =>
  parse_number s
  end end end end end end.

Definition hex_val (c : ascii) : option N :=
  let n := N_of_ascii c in
  if (48 <=? n)%N && (n <=? 57)%N then Some (n - 48)%N
  else if (65 <=? n)%N && (n <=? 70)%N then Some (n - 55)%N
  else if (97 <=? n)%N && (n <=? 102)%N then Some (n - 87)%N
  else None.

(** Four hexadecimal digits of a [\u] escape. *)
Definition parse_hex4 (s : string) : option (N * string) :=
  match s with
  | String a (String b (String c (String d r))) =>
      match hex_val a, hex_val b, hex_val c, hex_val d with
      | Some x, Some y, Some z, Some w => Some (((x * 16 + y) * 16 + z) * 16 + w, r)%N
      | _, _, _, _ => None
      end
  | _ => None
  end.

(** The UTF-8 bytes of a code point below [0x10000]. *)
Definition utf8 (n : N) : string :=
  if (n <? 128)%N then String (ascii_of_N n) EmptyString
  else if (n <? 2048)%N then
    String (ascii_of_N (192 + n / 64)) (String (ascii_of_N (128 + n mod 64)) EmptyString)
  else
    String (ascii_of_N (224 + n / 4096))
      (String (ascii_of_N (128 + (n / 64) mod 64))
         (String (ascii_of_N (128 + n mod 64)) EmptyString)).

Definition unescape (c : ascii) : option ascii :=
  if Ascii.eqb c "034" then Some "034"%char
  else if Ascii.eqb c "\" then Some "\"%char
  else if Ascii.eqb c "/" then Some "/"%char
  else if Ascii.eqb c "b" then Some "008"%char
  else if Ascii.eqb c "f" then Some "012"%char
  else if Ascii.eqb c "n" then Some "010"%char
  else if Ascii.eqb c "r" then Some "013"%char
  else if Ascii.eqb c "t" then Some "009"%char
  else None.

(** The text of a string after its opening quote, up to the closing one. *)
Fixpoint parse_string (fuel : nat) (s : string) : option (string * string) :=
  match fuel with
  | O => None
  | S fuel' =>
      match s with
      | EmptyString => None
      | String c r =>
          if Ascii.eqb c "034" then Some (EmptyString, r)
          else if Ascii.eqb c "\" then
            match r with
            | String e r' =>
                if Ascii.eqb e "u" then
                  match parse_hex4 r' with
                  | Some (n, r'') =>
                      match parse_string fuel' r'' with
                      | Some (t, rest) => Some (utf8 n +:+ t, rest)
                      | None => None
                      end
                  | None => None
                  end
                else
                  match unescape e with
                  | Some x =>
                      match parse_string fuel' r' with
                      | Some (t, rest) => Some (String x t, rest)
                      | None => None
                      end
                  | None => None
                  end
            | EmptyString => None
            end
          else if (nat_of_ascii c <? 32)%nat then None
          else
            match parse_string fuel' r with
            | Some (t, rest) => Some (String c t, rest)
            | None => None
            end
      end
  end.

Definition starts_with (c : ascii) (s : string) : option string :=
  match s with
  | String c' r => if Ascii.eqb c c' then Some r else None
  | EmptyString => None
  end.

(** [parse_value] reads one value at the head of [s]; [parse_elems] the
    elements of an array after its bracket, [parse_members] the members of
    an object after its brace. *)
Fixpoint parse_value (fuel : nat) (s : string) : option (json * string) :=
  match fuel with
  | O => None
  | S fuel' =>
      match s with
      | EmptyString => None
      | String c r =>
          if Ascii.eqb c "034" then
            match parse_string (String.length r) r with
            | Some (t, rest) => Some (JStr t, rest)
            | None => None
            end
          else if Ascii.eqb c "[" then
            match starts_with "]" (skip_ws r) with
            | Some rest => Some (JArr [], rest)
            | None =>
                match parse_elems fuel' (skip_ws r) with
                | Some (l, rest) => Some (JArr l, rest)
                | None => None
                end
            end
          else if Ascii.eqb c "{" then
            match starts_with "}" (skip_ws r) with
            | Some rest => Some (JObj [], rest)
            | None =>
                match parse_members fuel' (skip_ws r) with
                | Some (d, rest) =>
                    Some (JObj (fold_left (fun acc kv => dict_set (fst kv) (snd kv) acc) d []), rest)
                | None => None
                end
            end
          else parse_literal s
      end
  end
with parse_elems (fuel : nat) (s : string) : option (list json * string) :=
  match fuel with
  | O => None
  | S fuel' =>
      match parse_value fuel' s with
      | Some (v, r) =>
          match starts_with "]" (skip_ws r) with
          | Some rest => Some ([v], rest)
          | None =>
              match starts_with "," (skip_ws r) with
              | Some r' =>
                  match parse_elems fuel' (skip_ws r') with
                  | Some (l, rest) => Some (v :: l, rest)
                  | None => None
                  end
              | None => None
              end
          end
      | None => None
      end
  end
with parse_members (fuel : nat) (s : string)
  : option (list (string * json) * string) :=
  match fuel with
  | O => None
  | S fuel' =>
      match starts_with "034" s with
      | Some r =>
          match parse_string (String.length r) r with
          | Some (k, r1) =>
              match starts_with ":" (skip_ws r1) with
              | Some r2 =>
                  match parse_value fuel' (skip_ws r2) with
                  | Some (v, r3) =>
                      match starts_with "}" (skip_ws r3) with
                      | Some rest => Some ([(k, v)], rest)
                      | None =>
                          match starts_with "," (skip_ws r3) with
                          | Some r4 =>
                              match parse_members fuel' (skip_ws r4) with
                              | Some (d, rest) => Some ((k, v) :: d, rest)
                              | None => None
                              end
                          | None => None
                          end
                      end
                  | None => None
                  end
              | None => None
              end
          | None => None
          end
      | None => None
      end
  end.

(** [json.loads(s)]: one document, white space around it, nothing else. *)
Definition loads (s : string) : result json :=
  match parse_value (2 * String.length s + 2) (skip_ws s) with
  | Some (v, r) =>
      match skip_ws r with
      | EmptyString => Ok v
      | _ => Raise ValueError
      end
  | None => Raise ValueError
  end.

(** *** [json.dumps]

    The encoder with its default separators.  Bytes above 127 are written
    as they are (the same JSON text value as the [\u] escape that
    [ensure_ascii] would write). *)

Definition string_of_Z (z : Z) : string := NilZero.string_of_int (Z.to_int z).

Definition hex_digit (n : N) : ascii :=
  if (n <? 10)%N then ascii_of_N (48 + n) else ascii_of_N (87 + n).

Definition escape_char (c : ascii) : string :=
  if Ascii.eqb c "034" then String "\" (String "034" EmptyString)
  else if Ascii.eqb c "\" then "\\"
  else if Ascii.eqb c "010" then "\n"
  else if Ascii.eqb c "013" then "\r"
  else if Ascii.eqb c "009" then "\t"
  else if Ascii.eqb c "008" then "\b"
  else if Ascii.eqb c "012" then "\f"
  else if (N_of_ascii c <? 32)%N then
    "\u00" +:+ String (hex_digit (N_of_ascii c / 16))
                 (String (hex_digit (N_of_ascii c mod 16)) EmptyString)
  else String c EmptyString.

Fixpoint escape (s : string) : string :=
  match s with
  | EmptyString => EmptyString
  | String c s' => escape_char c +:+ escape s'
  end.

Definition quote (s : string) : string :=
  String "034" (escape s +:+ String "034" EmptyString).

Fixpoint dumps (v : json) : string :=
  match v with
  | JNull => "null"
  | JBool true => "true"
  | JBool false => "false"
  | JInt z => string_of_Z z
  | JFloat lit => lit
  | JStr s => quote s
  | JArr l =>
      "[" +:+
      (fix items (l : list json) : string :=
         match l with
         | [] => ""
         | [x] => dumps x
         | x :: l' => dumps x +:+ ", " +:+ items l'
         end) l +:+ "]"
  | JObj d =>
      "{" +:+
      (fix members (d : list (string * json)) : string :=
         match d with
         | [] => ""
         | [(k, x)] => quote k +:+ ": " +:+ dumps x
         | (k, x) :: d' => quote k +:+ ": " +:+ dumps x +:+ ", " +:+ members d'
         end) d +:+ "}"
  end.

End Json.

(** ** The Maya session *)

Module Maya.
Import Py.

(** Function-set types ([OpenMaya.MFn]) the pipeline asks about. *)
Inductive MFn : Type :=
  | kTransform | kJoint | kMesh | kConstraint | kLight | kCamera | kOtherFn.

Definition MFn_eqb (a b : MFn) : bool :=
  match a, b with
  | kTransform, kTransform | kJoint, kJoint | kMesh, kMesh
  | kConstraint, kConstraint | kLight, kLight | kCamera, kCamera
  | kOtherFn, kOtherFn => true
  | _, _ => false
  end.

(** A DAG node: its full path (unique in the scene), the function sets it
    supports, its children in child-index order. *)
#[warnings="-register-all"]
Inductive dagnode : Type :=
  | DagNode (path : string) (fns : list MFn) (children : list dagnode).

Definition fullPathName (n : dagnode) : string :=
  match n with DagNode p _ _ => p end.
Definition hasFn (n : dagnode) (t : MFn) : bool :=
  match n with DagNode _ fns _ => existsb (MFn_eqb t) fns end.
Definition child_nodes (n : dagnode) : list dagnode :=
  match n with DagNode _ _ cs => cs end.

(** Two [MObject]s are equal when they are the same node. *)
Definition same_node (a b : dagnode) : bool :=
  String.eqb (fullPathName a) (fullPathName b).
Definition node_in (x : dagnode) (l : list dagnode) : bool :=
  existsb (same_node x) l.

(** MEL commands of the FBX plug-in; [Mel] is a command sent as written. *)
Inductive mel : Type :=
  | Mel (command : string)
  | FBXExportBakeComplexStart (v : json)
  | FBXExportBakeComplexEnd (v : json)
  | FBXExportSplitAnimationIntoTakes (name : json) (startFrame endFrame : json)
  | FBXExport (file : string) (selectionOnly : bool).

(** Steps whose inner working is not modelled: they run to their end or
    raise, as the session says ([fails]). *)
Inductive stage : Type :=
  | SaveScene                 (* cmds.file(save=True, force=True) *)
  | CopyAndOpenTempScene      (* shutil.copy2, cmds.file(tempPath, o=True, f=True) *)
  | ImportSceneReferences
  | UnlockNodes
  | StripNamespaces
  | ComponentCommands (componentType : string)
      (* exportIconComponent: reparenting, deletion of unsupported nodes,
         selection *)
  | ReopenScene.              (* cmds.file(filePath, o=True, f=True) *)

(** A directory as [os.walk] lists it: its files, and its subdirectories
    by name. *)
#[warnings="-register-all"]
Inductive directory : Type :=
  | Dir (files : list string) (dirs : list (string * directory)).

(** Commands sent to Maya, files written and processes started. *)
Inductive cmd : Type :=
  | BakeResults (nodes : list string) (timeRange : json * json)
      (* simulation=True, sampleBy=1, disableImplicitControl=True,
         preserveOutsideKeys=True *)
  | ParentToWorld (nodes : list string)
  | MakeIdentity (node : string)
      (* apply=True, translate=True, rotate=True, scale=True *)
  | ParentTo (nodes : list string) (parent : string)
  | MelEval (c : mel)
  | External (s : stage)
  | CopyTexture (source target : string)
  | WriteJson (file : string) (data : json)
  | WriteZip (file : string) (entries : list (string * string))
      (* each entry: the file written, and its name in the archive *)
  | RunProcess (argv : list string).

(** How a child process ends. *)
Inductive process : Type :=
  | Exited (returncode : Z) (output : string)
  | NotStarted (e : exn).

(** What [listConnections], [nodeType], [getAttr] and [os.path.exists]
    answer about the shading network and its files. *)
Record shading : Type := {
  objExists : string -> bool;
  shadingEngines : string -> list string;   (* of a mesh *)
  surfaceShader : string -> list string;    (* sources of engine.surfaceShader *)
  nodeType : string -> string;
  colorFileNodes : string -> list string;   (* file nodes feeding material.color *)
  fileTextureName : string -> string;       (* of a file node; empty when unset *)
  colorRGB : string -> json * json * json;  (* material.color *)
  pathExists : string -> bool
}.

(** The session.  [template] is the first node tagged as Icon Template (with
    its subtree), [iconSettings] the string of its [iconSettings] plug
    ([None] when the node has no such attribute), [modelComponent] and
    [portalComponent] the nodes its two component plugs lead to,
    [sceneName] the file of the scene, [validatorRun] what the
    icon-converter does when it is started, [iconFiles] the directory found
    at the icon directory, [trsKeys node frame] whether the node has a key
    on each of translate, rotate and scale at the frame
    ([checkTRSForKeys]).  [nullObjectError] is the
    class of the exception the API raises when a function set is built from
    [None]: the repository does not fix it. *)
Record maya : Type := {
  template : option dagnode;
  iconSettings : option string;
  modelComponent : option dagnode;
  portalComponent : option dagnode;
  network : shading;
  sceneName : string;
  cwd : string;
  iconConverter : string;
  validatorRun : process;
  iconFiles : directory;
  trsKeys : string -> Z -> bool;
  fails : stage -> option exn;
  nullObjectError : exn;
  issued : list cmd
}.

Definition set_iconSettings (s : option string) (m : maya) : maya :=
  {| template := template m; iconSettings := s;
     modelComponent := modelComponent m; portalComponent := portalComponent m;
     network := network m; sceneName := sceneName m; cwd := cwd m;
     iconConverter := iconConverter m; validatorRun := validatorRun m;
     iconFiles := iconFiles m; trsKeys := trsKeys m; fails := fails m;
     nullObjectError := nullObjectError m; issued := issued m |}.

Definition set_issued (l : list cmd) (m : maya) : maya :=
  {| template := template m; iconSettings := iconSettings m;
     modelComponent := modelComponent m; portalComponent := portalComponent m;
     network := network m; sceneName := sceneName m; cwd := cwd m;
     iconConverter := iconConverter m; validatorRun := validatorRun m;
     iconFiles := iconFiles m; trsKeys := trsKeys m; fails := fails m;
     nullObjectError := nullObjectError m; issued := l |}.

Definition add_issued (c : cmd) (m : maya) : maya :=
  set_issued (issued m ++ [c]) m.

(** Code that runs in the session and may raise. *)
Definition M (A : Type) : Type := maya -> result A * maya.

#[export] Instance M_ret : MRet M := fun A a m => (Ok a, m).
#[export] Instance M_bind : MBind M := fun A B f c m =>
  match c m with
  | (Ok a, m') => f a m'
  | (Raise e, m') => (Raise e, m')
  end.

Definition lift {A} (r : result A) : M A := fun m => (r, m).
Definition gets {A} (f : maya -> A) : M A := fun m => (Ok (f m), m).
Definition raise {A} (e : exn) : M A := fun m => (Raise e, m).
Definition issue (c : cmd) : M unit := fun m => (Ok tt, add_issued c m).

(** A step that is not modelled further: started, then done or failed. *)
Definition external (s : stage) : M unit := fun m =>
  match fails m s with
  | None => (Ok tt, add_issued (External s) m)
  | Some e => (Raise e, add_issued (External s) m)
  end.

(** [try: body except <classes>: handler] *)
Definition try_except {A} (body : M A) (catches : exn -> bool) (handler : M A)
  : M A := fun m =>
  match body m with
  | (Ok a, m') => (Ok a, m')
  | (Raise e, m') => if catches e then handler m' else (Raise e, m')
  end.

(** [for x in l: body x] *)
Fixpoint for_each {X} (l : list X) (body : X -> M unit) : M unit :=
  match l with
  | [] => mret tt
  | x :: l' => body x ;; for_each l' body
  end.

(** [MFnDependencyNode(node)] and [MFnDagNode(node)] *)
Definition attach (node : option dagnode) : M dagnode := fun m =>
  match node with
  | Some n => (Ok n, m)
  | None => (Raise (nullObjectError m), m)
  end.

(** [depNode.findPlug('iconSettings', False).asString()] on the template
    node: the API reports a missing attribute with a [RuntimeError]. *)
Definition iconSettings_asString : M string := fun m =>
  match iconSettings m with
  | Some s => (Ok s, m)
  | None => (Raise RuntimeError, m)
  end.

(** [depNode.findPlug('iconSettings', False).setString(s)] *)
Definition iconSettings_setString (s : string) : M unit := fun m =>
  match iconSettings m with
  | Some _ => (Ok tt, set_iconSettings (Some s) m)
  | None => (Raise RuntimeError, m)
  end.

End Maya.

(** ** [constants.py] *)

Module Constants.
Import Maya.

Definition ICON_ANIMATION_CLIPS : list (string * Z) :=
  [("idle", 2); ("hover", 600); ("activate", 90); ("menu", 600); ("loading", 300)].

Definition VALID_MATERIAL_TYPES : list string := ["blinn"; "lambert"; "phong"].

Definition INVALID_NODE_TYPES : list MFn := [kConstraint; kLight; kCamera].

End Constants.

(** ** [utils.py] *)

Module Utils.
Import Py Maya.

Definition MODEL_FOLDER_NAME : string := "Model".
Definition PORTAL_FOLDER_NAME : string := "Portal".

(** [mergePaths(a, b)]: [None] when [os.path.join] raises [AttributeError],
    which it does for an argument that is not a string. *)
Definition mergePaths (cwd : string) (a : json) (b : string) : option string :=
  match a with
  | JStr p => Some (PosixPath.abspath cwd (PosixPath.join p b))
  | _ => None
  end.

(** [min] and [max] of frame numbers.  Frames are integers; the order
    Python 2 gives to other values is outside the model. *)
Definition as_int (v : json) : result Z :=
  match v with JInt z => Ok z | _ => Raise TypeError end.

Fixpoint ints (l : list json) : result (list Z) :=
  match l with
  | [] => Ok []
  | v :: l' => z ← as_int v; zs ← ints l'; mret (z :: zs)
  end.

Definition py_min (l : list json) : result json :=
  zs ← ints l;
  match zs with
  | [] => Raise ValueError
  | z :: zs' => Ok (JInt (fold_left Z.min zs' z))
  end.

Definition py_max (l : list json) : result json :=
  zs ← ints l;
  match zs with
  | [] => Raise ValueError
  | z :: zs' => Ok (JInt (fold_left Z.max zs' z))
  end.

(** [[x[k] for x in l]] *)
Fixpoint fields (k : string) (l : list json) : result (list json) :=
  match l with
  | [] => Ok []
  | x :: l' => v ← getitem x k; vs ← fields k l'; mret (v :: vs)
  end.

Definition mels (l : list mel) : M unit := for_each l (fun c => issue (MelEval c)).

(** The MEL commands of [exportFBX], by the part of the function that
    evaluates them. *)
Definition fbx_base : list mel :=
  [Mel "FBXResetExport";
   Mel "FBXExportSplitAnimationIntoTakes -c";
   Mel (with_quotes "FBXExportFileVersion 'FBX201800'");
   Mel "FBXExportUpAxis y";
   Mel "FBXExportUseSceneName -v false";
   Mel "FBXExportQuaternion -v euler";
   Mel "FBXExportScaleFactor 1.0";
   Mel "FBXExportConvertUnitString cm";
   Mel "FBXExportSkins -v true";
   Mel "FBXExportSmoothMesh -v true";
   Mel "FBXExportInAscii -v false"].

Definition fbx_animation (startFrame endFrame : json) : list mel :=
  [Mel "FBXExportBakeResampleAnimation -v false";
   Mel "FBXExportApplyConstantKeyReducer -v false";
   Mel (with_quotes "FBXProperty 'Export|IncludeGrp|Animation|ExtraGrp|RemoveSingleKey' -v false");
   Mel (with_quotes "FBXProperty 'Export|IncludeGrp|Animation|CurveFilter' -v false");
   Mel "FBXExportBakeComplexAnimation -v true";
   Mel "FBXExportBakeComplexStep -v 1";
   FBXExportBakeComplexStart startFrame;
   FBXExportBakeComplexEnd endFrame;
   Mel "FBXExportDeleteOriginalTakeOnSplitAnimation -v true"].

Definition fbx_no_takes : list mel :=
  [Mel "FBXExportBakeResampleAnimation -v false";
   Mel "FBXExportApplyConstantKeyReducer -v false";
   Mel (with_quotes "FBXProperty 'Export|IncludeGrp|Animation|ExtraGrp|RemoveSingleKey' -v false");
   Mel (with_quotes "FBXProperty 'Export|IncludeGrp|Animation|CurveFilter' -v false");
   Mel "FBXExportBakeComplexAnimation -v true";
   FBXExportBakeComplexStart (JInt 1);
   FBXExportBakeComplexEnd (JInt 2);
   Mel "FBXExportBakeComplexStep -v 1";
   Mel "FBXExportDeleteOriginalTakeOnSplitAnimation -v true";
   FBXExportSplitAnimationIntoTakes (JStr "idle") (JInt 1) (JInt 2)].

Definition fbx_export (outputPath : string) (selectionOnly : bool) : list mel :=
  [Mel "FBXExportInstances -v false";
   Mel "FBXExportReferencedAssetsContent -v false";
   Mel "FBXExportSmoothingGroups -v false";
   Mel "FBXExportHardEdges -v false";
   Mel "FBXExportTangents -v false";
   Mel "FBXExportShapes -v false";
   Mel "FBXExportConstraints -v false";
   Mel "FBXExportCameras -v false";
   Mel "FBXExportLights -v false";
   Mel "FBXExportEmbeddedTextures -v false";
   Mel "FBXExportInputConnections -v false";
   FBXExport outputPath selectionOnly].

(** One round of the loop that splits the animation into takes. *)
Definition split_take (take : json) : M unit :=
  lift (getitem take "name") ;;      (* the argument of LOG.debug *)
  name ← lift (getitem take "name");
  startFrame ← lift (getitem take "startFrame");
  endFrame ← lift (getitem take "endFrame");
  issue (MelEval (FBXExportSplitAnimationIntoTakes name startFrame endFrame)).

(** [exportFBX(outputPath, selectionOnly, takes)]: the MEL commands it
    evaluates, in order.  Loading the plug-in and creating the output
    directory are left out; a [RuntimeError] of the final [FBXExport] is
    caught by the source and returned as a list. *)
Definition exportFBX (outputPath : string) (selectionOnly : bool) (takes : json)
  : M unit :=
  mels fbx_base ;;
  (if truthy takes then
     xs ← lift (iter takes);
     starts ← lift (fields "startFrame" xs);
     startFrame ← lift (py_min starts);
     ends ← lift (fields "endFrame" xs);
     endFrame ← lift (py_max ends);
     mels (fbx_animation startFrame endFrame) ;;
     for_each xs split_take ;;
     mels [Mel "FBXExportSplitAnimationIntoTakes -q"]
   else
     mels fbx_no_takes) ;;
  mels (fbx_export outputPath selectionOnly).

(** A statement of a [with] body: it reads and may assign the local
    variable [result]. *)
Definition stmt : Type := json -> M json.

(** The statements in turn, up to the first that raises: the value of
    [result] then, and the exception if there is one. *)
Fixpoint run_body (body : list stmt) (result : json) (m : maya)
  : json * option exn * maya :=
  match body with
  | [] => (result, None, m)
  | st :: rest =>
      match st result m with
      | (Ok r, m') => run_body rest r m'
      | (Raise e, m') => (result, Some e, m')
      end
  end.

(** [with openTempScene(filePath): body], giving [result] after it.

    [openTempScene] is a [contextlib.contextmanager] generator whose
    [yield] stands inside [try: ... except Exception: LOG.exception(...)
    finally: cmds.file(filePath, o=True, f=True)].  An exception of the
    body is thrown into the generator at the [yield], caught and logged
    there, and the generator ends: the [with] statement swallows it.  When
    copying or opening the temporary scene fails, the generator ends
    without a [yield] and [contextmanager] raises [RuntimeError]. *)
Definition openTempScene (filePath : string) (body : list stmt) (result : json)
  : M json := fun m =>
  match external CopyAndOpenTempScene m with
  | (Raise _, m1) =>
      match external ReopenScene m1 with
      | (Raise e2, m2) => (Raise e2, m2)
      | (Ok _, m2) => (Raise RuntimeError, m2)
      end
  | (Ok _, m1) =>
      let '(r, _, m2) := run_body body result m1 in
      match external ReopenScene m2 with
      | (Raise e2, m3) => (Raise e2, m3)
      | (Ok _, m3) => (Ok r, m3)
      end
  end.

(** *** Meta types

    The [metaTypes] attribute of the nodes of a scene, by node path: a node
    without the attribute is absent from the map; the attribute holds
    [None] until it is given a value, as [getAttr] reports it. *)
Definition attributes : Type := gmap string (option string).

(** [setMetaType(nodePath, metaType)] *)
Definition setMetaType (nodePath metaType : string) (attrs : attributes)
  : attributes :=
  let attrExists := bool_decide (is_Some (attrs !! nodePath)) in
  let attrs := if negb attrExists then <[nodePath := None]> attrs else attrs in
  let existingMetaTypeData := default None (attrs !! nodePath) in
  let value :=
    match existingMetaTypeData with
    | Some data =>
        if negb (String.eqb data "") then data +:+ ":" +:+ metaType else metaType
    | None => metaType
    end in
  <[nodePath := Some value]> attrs.

(** [hasMetaType(nodePath, metaType)]: [split] on an attribute without a
    value raises [AttributeError]. *)
Definition hasMetaType (nodePath metaType : string) (attrs : attributes)
  : result bool :=
  match attrs !! nodePath with
  | None => Ok false
  | Some existingMetaTypeData =>
      match existingMetaTypeData with
      | None => Raise AttributeError
      | Some data =>
          let metaTypes := Text.split ":" data in
          Ok (existsb (String.eqb metaType) metaTypes)
      end
  end.

(** [formatPathForWindowsMEL(path)]: [path.replace('\\', '/')] *)
Fixpoint formatPathForWindowsMEL (path : string) : string :=
  match path with
  | EmptyString => EmptyString
  | String c path' =>
      String (if Ascii.eqb c "\" then "/"%char else c) (formatPathForWindowsMEL path')
  end.

End Utils.

(** ** [core.py]: settings, scene graph, baking *)

Module Core.
Import Py Maya Constants.

(** [getIconTemplateNode()]: [None] without an Icon Template.  The search
    of the scene for the meta type ([utils.getMetaType]) is what the field
    [template] holds: a session stands for a scene in which that search
    returns.  A [metaTypes] attribute without a value, on which
    [utils.hasMetaType] raises [AttributeError], is outside the sessions
    (see [Utils.hasMetaType]). *)
Definition getIconTemplateNode : M (option dagnode) := gets template.

(** [iconTemplateExists()], over the same search. *)
Definition iconTemplateExists : M bool :=
  gets (fun m => match template m with Some _ => true | None => false end).

Definition is_ValueError (e : exn) : bool := exn_eqb e ValueError.
Definition any_Exception (e : exn) : bool := true.

(** [getIconSettings()]: only [ValueError] is caught. *)
Definition getIconSettings : M json :=
  node ← getIconTemplateNode;
  try_except
    (depNode ← attach node;
     rawSettingsData ← iconSettings_asString;
     lift (Json.loads rawSettingsData))
    is_ValueError
    (mret (JObj [])).

(** [saveIconSettings(data)]: every [Exception] is caught and logged. *)
Definition saveIconSettings (data : json) : M unit :=
  node ← getIconTemplateNode;
  try_except
    (depNode ← attach node;
     iconSettings_setString (Json.dumps data))
    any_Exception
    (mret tt).

(** [getChildren(node, recursive, nodeType)] on an attached node. *)
Fixpoint children_of (recursive : bool) (nodeType : MFn) (node : dagnode)
  : list dagnode :=
  match node with
  | DagNode _ _ cs =>
      (fix each (cs : list dagnode) : list dagnode :=
         match cs with
         | [] => []
         | childMObject :: cs' =>
             ((if hasFn childMObject nodeType then [childMObject] else []) ++
              (if recursive then children_of recursive nodeType childMObject else []) ++
              each cs')%list
         end) cs
  end.

Definition getChildren (node : option dagnode) (recursive : bool) (nodeType : MFn)
  : M (list dagnode) :=
  dagNode ← attach node;
  mret (children_of recursive nodeType dagNode).

(** [getMeshes(node)]: the mesh children of a node. *)
Definition getMeshes (node : dagnode) : list dagnode :=
  filter (fun childMObject => hasFn childMObject kMesh = true) (child_nodes node).

(** [getMeshesRecursive(node)] *)
Definition getMeshesRecursive (node : option dagnode) : M (list dagnode) :=
  allTransforms ← getChildren node true kTransform;
  mret (concat (map getMeshes allTransforms)).

Definition getNodePath (node : dagnode) : string := fullPathName node.

(** [bakeTransforms()].  Reparenting the children to the world and back
    leaves the hierarchy as [getChildren] read it. *)
Definition bakeTransforms : M unit :=
  iconTemplateNode ← getIconTemplateNode;
  transforms ← getChildren iconTemplateNode true kTransform;
  for_each transforms (fun transform =>
    if hasFn transform kJoint then mret tt
    else if match getMeshes transform with [] => false | _ => true end then mret tt
    else
      let nodePath := getNodePath transform in
      let children := children_of false kTransform transform in
      issue (ParentToWorld (map getNodePath children)) ;;
      issue (MakeIdentity nodePath) ;;
      issue (ParentTo (map getNodePath children) nodePath)).

Definition defaultTake : json :=
  JObj [("name", JStr "idle"); ("startFrame", JInt 1); ("endFrame", JInt 2)].

(** The nodes of [INVALID_NODE_TYPES] below a node. *)
Fixpoint unsupported_below (node : option dagnode) (types : list MFn)
  : M (list dagnode) :=
  match types with
  | [] => mret []
  | nodeType :: types' =>
      unsupported ← getChildren node true nodeType;
      rest ← unsupported_below node types';
      mret (unsupported ++ rest)%list
  end.

(** One round of the loop of [bakeAnimation]: one [bakeResults] pass over
    the range of the take. *)
Definition bake_take (supportedNodePaths : list string) (take : json) : M unit :=
  startFrame ← lift (getitem take "startFrame");
  endFrame ← lift (getitem take "endFrame");
  lift (getitem take "name") ;;          (* the arguments of LOG.info *)
  lift (getitem take "startFrame") ;;
  lift (getitem take "endFrame") ;;
  issue (BakeResults supportedNodePaths (startFrame, endFrame)).

(** [bakeAnimation()] *)
Definition bakeAnimation : M unit :=
  settingsData ← getIconSettings;
  animationTakes ← lift (get settingsData "animationTakes" (JArr [defaultTake]));
  if negb (truthy animationTakes) then mret tt
  else
    iconTemplateNode ← getIconTemplateNode;
    transforms ← getChildren iconTemplateNode true kTransform;
    unsupportedNodes ← unsupported_below iconTemplateNode INVALID_NODE_TYPES;
    let supportedNodes :=
      filter (fun x => node_in x unsupportedNodes = false) transforms in
    let supportedNodePaths := map getNodePath supportedNodes in
    takes ← lift (iter animationTakes);
    for_each takes (bake_take supportedNodePaths).

(** *** Materials and the material manifest *)

Definition KMAT_MATERIAL_DEFINITION : list (string * json) :=
  [("albedo", JStr "{relativeTexturePath}");
   ("color", JArr [JInt 1; JInt 1; JInt 1; JInt 1]);
   ("blendmode", JStr "Opaque");
   ("name", JStr "{shaderName}");
   ("shaderName", JStr "UnlitTextured")].

(** [d.pop(k)] *)
Definition dict_pop (k : string) (d : list (string * json)) : list (string * json) :=
  filter (fun kv => String.eqb k (fst kv) = false) d.

Definition str_in (x : string) (l : list string) : bool := existsb (String.eqb x) l.

(** One round of the loop over the shading engines of a mesh. *)
Definition engine_step (net : shading) (acc : list string * list string)
  (engine : string) : list string * list string :=
  let '(result, unsupported) := acc in
  let connectedMaterials := surfaceShader net engine in
  let unsupported' :=
    (unsupported ++
     filter (fun material =>
               str_in (nodeType net material) VALID_MATERIAL_TYPES = false)
            connectedMaterials)%list in
  ((result ++ filter (fun m => str_in m unsupported' = false) connectedMaterials)%list,
   unsupported').

(** [getMaterialsForMesh(mesh)]; [None] is the bare [[]] returned for a
    mesh that does not exist. *)
Definition getMaterialsForMesh (mesh : dagnode)
  : M (option (list string * list string)) :=
  net ← gets network;
  let mesh := getNodePath mesh in
  if negb (objExists net mesh) then mret None
  else mret (Some (fold_left (engine_step net) (shadingEngines net mesh) ([], []))).

(** [getMaterialsForMeshes(meshes)]: unpacking the bare [[]] raises
    [ValueError]. *)
Fixpoint getMaterialsForMeshes (meshes : list dagnode)
  : M (list string * list string) :=
  match meshes with
  | [] => mret ([], [])
  | mesh :: meshes' =>
      r ← getMaterialsForMesh mesh;
      match r with
      | None => raise ValueError
      | Some (meshMats, unsupported) =>
          '(mats, unsupportedMats) ← getMaterialsForMeshes meshes';
          mret ((meshMats ++ mats)%list, (unsupported ++ unsupportedMats)%list)
      end
  end.

(** [getTexture(material)] *)
Definition getTexture (material : string) : M (option string) :=
  net ← gets network;
  if negb (objExists net material) then mret None
  else mret (head (colorFileNodes net material)).

(** [getFilePathFromTexture(texture)] *)
Definition getFilePathFromTexture (texture : string) : M string :=
  net ← gets network; mret (fileTextureName net texture).

(** [getTexturesFromMaterials(materials)] *)
Fixpoint getTexturesFromMaterials (materials : list string) : M (list string) :=
  match materials with
  | [] => mret []
  | material :: materials' =>
      tex ← getTexture material;
      rest ← getTexturesFromMaterials materials';
      mret (match tex with Some t => t :: rest | None => rest end)
  end.

(** [getFilePathsFromTextures(textures)] *)
Definition getFilePathsFromTextures (textures : list string) : M (list string) :=
  net ← gets network;
  mret (filter (fun texturePath =>
                  negb (String.eqb texturePath "") && pathExists net texturePath = true)
               (map (fileTextureName net) textures)).

(** [list(set(materials))]: each material once, in the order of the set. *)
Definition unique (materials : list string) : list string :=
  elements (list_to_set materials : gset string).

(** [getIconDirectory()] *)
Definition getIconDirectory : M (option string) :=
  settingsData ← getIconSettings;
  outputPath ← lift (get settingsData "outputPath" JNull);
  match outputPath with
  | JNull => mret None
  | _ => dir ← gets cwd; mret (Utils.mergePaths dir outputPath "Icon")
  end.

(** The entry of one material in the manifest, or [None] where the loop
    has [continue]. *)
Definition materialDefinition (iconDirectory componentType mat : string)
  : M (option json) :=
  tex ← getTexture mat;
  let materialDefinition := KMAT_MATERIAL_DEFINITION in
  match tex with
  | Some tex =>
      textureFilePath ← getFilePathFromTexture tex;
      if String.eqb textureFilePath "" then mret None
      else
        let fileName := PosixPath.basename textureFilePath in
        let relativeTexture :=
          PosixPath.basename iconDirectory +:+ "/" +:+ componentType +:+ "/" +:+ fileName in
        let materialDefinition := dict_set "albedo" (JStr relativeTexture) materialDefinition in
        let materialDefinition := dict_set "name" (JStr mat) materialDefinition in
        mret (Some (JObj materialDefinition))
  | None =>
      net ← gets network;
      let '(r, g, b) := colorRGB net mat in
      let materialDefinition := dict_set "color" (JArr [r; g; b; JInt 1]) materialDefinition in
      let materialDefinition := dict_set "name" (JStr mat) materialDefinition in
      let materialDefinition := dict_pop "albedo" materialDefinition in
      mret (Some (JObj materialDefinition))
  end.

(** The loop that fills [kmatData['materials']]. *)
Fixpoint kmatMaterials (iconDirectory componentType : string) (materials : list string)
  : M (list json) :=
  match materials with
  | [] => mret []
  | mat :: materials' =>
      entry ← materialDefinition iconDirectory componentType mat;
      rest ← kmatMaterials iconDirectory componentType materials';
      mret (match entry with Some e => e :: rest | None => rest end)
  end.

Definition kmatData (entries : list json) : json :=
  JObj [("global", JObj [("color", JArr [JInt 1; JInt 1; JInt 1; JInt 1]);
                         ("blendmode", JStr "Opaque")]);
        ("materials", JArr entries)].

(** [getModelComponentNode()], [getPortalComponentNode()] *)
Definition getModelComponentNode : M (option dagnode) :=
  gets (fun m => match template m with Some _ => modelComponent m | None => None end).
Definition getPortalComponentNode : M (option dagnode) :=
  gets (fun m => match template m with Some _ => portalComponent m | None => None end).

(** [exportIconComponent(componentType)]: [True], or [None] for a component
    that is neither Model nor Portal.  Emptying and creating the output
    directory is left out; the reparenting, deletion and selection before
    the FBX export are the step [ComponentCommands]. *)
Definition exportIconComponent (componentType : string) : M json :=
  iconDirectory ← getIconDirectory;
  dir ← gets cwd;
  match iconDirectory with
  | None => raise TypeError         (* os.path.exists(None) *)
  | Some iconDirectory =>
      let outputDirectory := PosixPath.abspath dir (PosixPath.join iconDirectory componentType) in
      node ← (if String.eqb componentType "Model" then
                 n ← getModelComponentNode; mret (Some n)
               else if String.eqb componentType "Portal" then
                 n ← getPortalComponentNode; mret (Some n)
               else mret None);
      match node with
      | None => mret JNull
      | Some node =>
          meshes ← getMeshesRecursive node;
          '(materials, unsupportedMaterials) ← getMaterialsForMeshes meshes;
          let materials := unique materials in
          textures ← getTexturesFromMaterials materials;
          textureFilePaths ← getFilePathsFromTextures textures;
          for_each textureFilePaths (fun texture =>
            issue (CopyTexture texture
                     (PosixPath.abspath dir
                        (PosixPath.join outputDirectory (PosixPath.basename texture))))) ;;
          entries ← kmatMaterials iconDirectory componentType materials;
          let kmatPath :=
            PosixPath.abspath dir (PosixPath.join outputDirectory (componentType +:+ ".kmat")) in
          issue (WriteJson kmatPath (kmatData entries)) ;;
          external (ComponentCommands componentType) ;;
          let fbxPath :=
            PosixPath.abspath dir (PosixPath.join outputDirectory (componentType +:+ ".fbx")) in
          settingsData ← getIconSettings;
          animationTakes ← lift (get settingsData "animationTakes" (JArr []));
          Utils.exportFBX fbxPath true animationTakes ;;
          mret (JBool true)
      end
  end.

(** *** Validation *)

(** [output.splitlines()] of a byte string: lines end at [\n], [\r] or
    [\r\n]. *)
Fixpoint splitlines (s : string) : list string :=
  match s with
  | EmptyString => []
  | String c s' =>
      if Ascii.eqb c "010" then EmptyString :: splitlines s'
      else if Ascii.eqb c "013" then
        match s' with
        | String c' s'' =>
            if Ascii.eqb c' "010" then EmptyString :: splitlines s''
            else EmptyString :: splitlines s'
        | EmptyString => [EmptyString]
        end
      else
        match splitlines s' with
        | [] => [String c EmptyString]
        | l :: ls => String c l :: ls
        end
  end.

(** One round of the loop of [parseValidationOutput]. *)
Definition parse_line (errors : list json) (line : string) : result (list json) :=
  jsonOutput ← Json.loads line;
  has ← contains "errors" jsonOutput;
  if (has : bool) then
    errs ← getitem jsonOutput "errors";
    items ← iter errs;
    mret (errors ++ items)%list
  else mret errors.

Fixpoint parse_lines (errors : list json) (lines : list string) : result (list json) :=
  match lines with
  | [] => Ok errors
  | line :: lines' => errors' ← parse_line errors line; parse_lines errors' lines'
  end.

(** [parseValidationOutput(output)] *)
Definition parseValidationOutput (output : string) : result (list json) :=
  parse_lines [] (splitlines output).

(** [subprocess.check_output(cmd, stderr=subprocess.STDOUT)]: the output,
    or the output carried by [CalledProcessError]. *)
Definition check_output (argv : list string) : M (string + string) := fun m =>
  match validatorRun m with
  | Exited code out =>
      (Ok (if Z.eqb code 0 then inl out else inr out), add_issued (RunProcess argv) m)
  | NotStarted e => (Raise e, add_issued (RunProcess argv) m)
  end.

(** [validateIcon()] *)
Definition validateIcon : M json :=
  outputPath ← getIconDirectory;
  match outputPath with
  | None => raise AttributeError    (* os.path.basename(None) *)
  | Some outputPath =>
      let modelPath := PosixPath.basename outputPath +:+ "/" +:+ Utils.MODEL_FOLDER_NAME in
      let portalPath := PosixPath.basename outputPath +:+ "/" +:+ Utils.PORTAL_FOLDER_NAME in
      executable ← gets iconConverter;
      let cmd := [executable; "validate"; "--format"; "json";
                  "-m"; modelPath; "--local-model-folder"; Utils.MODEL_FOLDER_NAME;
                  "-p"; portalPath; "--local-portal-folder"; Utils.PORTAL_FOLDER_NAME;
                  outputPath] in
      out ← check_output cmd;
      match out with
      | inl _ => mret (JBool true)
      | inr output =>
          errors ← lift (parseValidationOutput output);
          for_each errors (fun err =>
            lift (getitem err "code") ;; lift (getitem err "message") ;; mret tt) ;;
          mret (JBool false)
      end
  end.

(** *** Export and build *)

(** [unlockNodes()] *)
Definition unlockNodes : M unit := external UnlockNodes.

(** [exportIcon()] *)
Definition exportIcon : M json :=
  currentScenePath ← gets (fun m => PosixPath.abspath (cwd m) (sceneName m));
  if String.eqb currentScenePath "" then mret (JBool false)
  else
    external SaveScene ;;
    settingsData ← getIconSettings;
    outputPath ← lift (get settingsData "outputPath" JNull);
    match outputPath with
    | JNull => raise ValueError
    | _ =>
        Utils.openTempScene currentScenePath
          [(fun result => external ImportSceneReferences ;; mret result);
           (fun result => unlockNodes ;; mret result);
           (fun result => external StripNamespaces ;; mret result);
           (fun result => bakeTransforms ;; mret result);
           (fun result => bakeAnimation ;; mret result);
           (fun _ => exportIconComponent "Model");
           (fun _ => exportIconComponent "Portal")]
          (JBool false)
    end.

(** [buildIcon(validate, export, cleanup)] *)
Definition buildIcon (validate export cleanup : bool) : M json :=
  try_except
    (result ← exportIcon;
     if validate then validateIcon else mret result)
    any_Exception
    (mret (JBool false)).

(** *** The bundle *)

Definition GLB_EXTENSIONS : list string := [".kmat"; ".fbx"; ".png"; ".jpg"].

(** [os.walk(path)], top down: [(roots, dirs, files)] for the directory and
    then for each subdirectory. *)
Fixpoint walk (path : string) (d : directory)
  : list (string * list string * list string) :=
  match d with
  | Dir files dirs =>
      (path, map fst dirs, files) ::
      (fix each (ds : list (string * directory)) :=
         match ds with
         | [] => []
         | (name, sub) :: ds' => (walk (PosixPath.join path name) sub ++ each ds')%list
         end) dirs
  end.

(** [_getGLBPaths(path)] *)
Definition _getGLBPaths (path : string) (d : directory) : list string :=
  concat (map (fun '(roots, dirs, files) =>
                 map (fun fn => PosixPath.join roots fn)
                   (filter (fun fn =>
                              str_in (snd (PosixPath.splitext fn)) GLB_EXTENSIONS = true)
                           files))
              (walk path d)).

(** [_writeZip(path, zipObject)]: the entry written. *)
Definition _writeZip (path : string) : string * string :=
  let fd := PosixPath.basename (PosixPath.dirname path) in
  let fn := PosixPath.basename path in
  let archiveName := PosixPath.join fd fn in
  (path, archiveName).

(** [createIconZip()] *)
Definition createIconZip : M string :=
  iconDirectory ← getIconDirectory;
  match iconDirectory with
  | None => raise AttributeError         (* os.path.dirname(None) *)
  | Some iconDirectory =>
      dir ← gets cwd;
      let zipPath :=
        PosixPath.abspath dir (PosixPath.join (PosixPath.dirname iconDirectory) "Icon.zip") in
      tree ← gets iconFiles;
      issue (WriteZip zipPath (map _writeZip (_getGLBPaths iconDirectory tree))) ;;
      mret zipPath
  end.

(** *** Animation takes *)

(** [a == b] on decoded values; floats are compared as literals. *)
Fixpoint py_eq (a b : json) : bool :=
  match a, b with
  | JNull, JNull => true
  | JBool x, JBool y => Bool.eqb x y
  | JInt x, JInt y => Z.eqb x y
  | JBool x, JInt y | JInt y, JBool x => Z.eqb (if x then 1 else 0) y
  | JFloat x, JFloat y => String.eqb x y
  | JStr x, JStr y => String.eqb x y
  | JArr x, JArr y =>
      (fix all2 (x y : list json) : bool :=
         match x, y with
         | [], [] => true
         | a :: x', b :: y' => py_eq a b && all2 x' y'
         | _, _ => false
         end) x y
  | JObj x, JObj y =>
      Nat.eqb (length x) (length y) &&
      (fix all (x : list (string * json)) : bool :=
         match x with
         | [] => true
         | (k, a) :: x' =>
             match dict_lookup k y with
             | Some b => py_eq a b
             | None => false
             end && all x'
         end) x
  | _, _ => false
  end.

(** The loop that looks for the take of the payload: the index at which it
    breaks, if it does. *)
Fixpoint find_clip (payload : json) (animData : list json) (index : nat)
  : result (option nat) :=
  match animData with
  | [] => Ok None
  | clipData :: animData' =>
      name ← getitem clipData "name";
      name' ← getitem payload "name";
      if py_eq name name' then Ok (Some index)
      else find_clip payload animData' (S index)
  end.

(** [animData.append(x)] and [animData.pop(i)] *)
Definition py_append (animData x : json) : result json :=
  match animData with
  | JArr l => Ok (JArr (l ++ [x]))
  | _ => Raise AttributeError
  end.
Definition py_pop (animData : json) (i : nat) : result json :=
  match animData with
  | JArr l => Ok (JArr (delete i l))
  | _ => Raise AttributeError
  end.

(** [d[k] = v] on a value *)
Definition setitem (d : json) (k : string) (v : json) : result json :=
  match d with
  | JObj fields => Ok (JObj (dict_set k v fields))
  | _ => Raise TypeError
  end.

(** The loop [for k, v in take.items(): if k in payload: take[k] = v]. *)
Fixpoint update_fields (payload : json) (items : list (string * json))
  (take : list (string * json)) : result (list (string * json)) :=
  match items with
  | [] => Ok take
  | (k, v) :: items' =>
      has ← contains k payload;
      update_fields payload items' (if (has : bool) then dict_set k v take else take)
  end.

(** [updateClipData(payload)] *)
Definition updateClipData (payload : json) : M unit :=
  if negb (truthy payload) then mret tt
  else
    settingsData ← getIconSettings;
    animData ← lift (get settingsData "animationTakes" (JArr []));
    items ← lift (iter animData);
    clipDataIndex ← lift (find_clip payload items 0);
    match clipDataIndex with
    | None =>
        enabled ← lift (getitem payload "enabled");
        if negb (truthy enabled) then mret tt
        else
          name ← lift (getitem payload "name");
          startFrame ← lift (getitem payload "startFrame");
          endFrame ← lift (getitem payload "endFrame");
          let newClipData :=
            JObj [("name", name); ("startFrame", startFrame); ("endFrame", endFrame)] in
          animData ← lift (py_append animData newClipData);
          settingsData ← lift (setitem settingsData "animationTakes" animData);
          saveIconSettings settingsData
    | Some clipDataIndex =>
        enabled ← lift (getitem payload "enabled");
        if negb (truthy enabled) then
          animData ← lift (py_pop animData clipDataIndex);
          settingsData ← lift (setitem settingsData "animationTakes" animData);
          saveIconSettings settingsData
        else
          match items !! clipDataIndex with
          | Some (JObj take) =>
              take' ← lift (update_fields payload take take);
              let animData := JArr (<[clipDataIndex := JObj take']> items) in
              settingsData ← lift (setitem settingsData "animationTakes" animData);
              saveIconSettings settingsData
          | _ => raise AttributeError
          end
    end.

(** [checkTakeForAnimation(startFrame, endFrame)] *)
Fixpoint check_joints (keys : string -> Z -> bool) (paths : list string)
  (startFrame endFrame : Z) (checked : bool) : bool :=
  match paths with
  | [] => checked
  | childNodePath :: paths' =>
      let startChecked := keys childNodePath startFrame in
      let endChecked := keys childNodePath endFrame in
      if endChecked && startChecked
      then check_joints keys paths' startFrame endFrame true
      else false
  end.

Definition checkTakeForAnimation (startFrame endFrame : Z) : M bool :=
  exists_ ← iconTemplateExists;
  if negb exists_ then mret false
  else
    node ← getModelComponentNode;
    childrenNodes ← getChildren node true kJoint;
    keys ← gets trsKeys;
    mret (check_joints keys (map getNodePath childrenNodes) startFrame endFrame false).

(** *** Paths kept in the settings *)

(** [saveOutputPath(value)] *)
Definition saveOutputPath (value : json) : M unit :=
  exists_ ← iconTemplateExists;
  if negb exists_ then mret tt
  else
    settingsData ← getIconSettings;
    settingsData ← lift (setitem settingsData "outputPath" value);
    saveIconSettings settingsData.

(** [saveSDKPath(value)] *)
Definition saveSDKPath (value : json) : M unit :=
  exists_ ← iconTemplateExists;
  if negb exists_ then mret tt
  else
    settingsData ← getIconSettings;
    settingsData ← lift (setitem settingsData "sdkPath" value);
    saveIconSettings settingsData.

(** *** The takes by name *)

(** A dictionary built in the code, whose keys are the values the code
    gives it: a key is any hashable value, and two keys are the same when
    they are equal. *)
Definition table : Type := list (json * json).

Definition hashable (k : json) : bool :=
  match k with
  | JArr _ | JObj _ => false
  | _ => true
  end.

(** [d[k] = v] on a table; a list or a dictionary as key raises
    [TypeError]. *)
Fixpoint table_store (k v : json) (d : table) : table :=
  match d with
  | [] => [(k, v)]
  | (k', v') :: d' =>
      if py_eq k' k then (k', v) :: d' else (k', v') :: table_store k v d'
  end.

Definition table_set (k v : json) (d : table) : Py.result table :=
  if hashable k then Ok (table_store k v d) else Raise TypeError.

(** [d.get(k)] on a table: [k in d] when it is [Some], and then [d[k]] *)
Fixpoint table_get (k : json) (d : table) : option json :=
  match d with
  | [] => None
  | (k', v) :: d' => if py_eq k' k then Some v else table_get k d'
  end.

(** The loop of [getAnimationData]: the value is built from the frames of
    the item before the item is asked for its name. *)
Fixpoint animation_table (animData : list json) (acc : table) : Py.result table :=
  match animData with
  | [] => Ok acc
  | item :: animData' =>
      startFrame ← getitem item "startFrame";
      endFrame ← getitem item "endFrame";
      name ← getitem item "name";
      acc' ← table_set name (JObj [("startFrame", startFrame); ("endFrame", endFrame)]) acc;
      animation_table animData' acc'
  end.

(** [getAnimationData(asDict)]: the list of takes as stored, or the table
    of their frames by name. *)
Definition getAnimationData (asDict : bool) : M (json + table) :=
  settingsData ← getIconSettings;
  animData ← lift (get settingsData "animationTakes" (JArr []));
  if negb asDict then mret (inl animData)
  else
    items ← lift (iter animData);
    result ← lift (animation_table items []);
    mret (inr result).

End Core.

(** ** [view.py]: the animation step *)

Module View.
Import Py Maya Constants.

(** An [AnimationClipWidget]: what its check box and spin boxes hold. *)
Record AnimationClipWidget : Type := {
  clipName : string;
  clipEnabled : bool;
  startFrame : Z;
  endFrame : Z;
  maxClipSize : Z
}.

Definition minClipFrame : Z := 0.
Definition maxClipFrame : Z := 10000.

(** [QSpinBox.setValue]: the value is brought into the range of the box. *)
Definition setValue (v : Z) : Z := Z.max minClipFrame (Z.min maxClipFrame v).

(** [AnimationClipWidget(clipName, startFrame, endFrame)] *)
Definition newClipWidget (clipName : string) (startFrame endFrame : Z)
  : AnimationClipWidget :=
  {| clipName := clipName;
     clipEnabled := false;
     startFrame := setValue startFrame;
     endFrame := setValue endFrame;
     maxClipSize := endFrame - startFrame + 1 |}.

(** The property [clipSize], which [paintEvent] compares with
    [maxClipSize]. *)
Definition clipSize (w : AnimationClipWidget) : Z := endFrame w - startFrame w + 1.

(** The widgets [AnimationWidget.__init__] creates: one per clip of
    [ICON_ANIMATION_CLIPS], laid out one after the other from frame 1, and
    enabled with the stored frames when [animData] has the clip. *)
Fixpoint clipWidgets (clips : list (string * Z)) (clipOffset : Z)
  (animData : list (string * (Z * Z))) : list AnimationClipWidget :=
  match clips with
  | [] => []
  | (clipName, duration) :: clips' =>
      let w := newClipWidget clipName clipOffset (clipOffset + duration - 1) in
      let w :=
        match list_find (fun kv => fst kv = clipName) animData with
        | Some (_, (_, (s, e))) =>
            {| clipName := clipName; clipEnabled := true;
               startFrame := setValue s; endFrame := setValue e;
               maxClipSize := maxClipSize w |}
        | None => w
        end in
      w :: clipWidgets clips' (clipOffset + duration + 1) animData
  end.

(** One round of the loop of [AnimationWidget.check]. *)
Definition check_clip (checked : bool) (clipWidget : AnimationClipWidget) : M bool :=
  if negb (clipEnabled clipWidget) then mret checked
  else
    let checked := true in
    let currentRange := endFrame clipWidget - startFrame clipWidget in
    let checked := if (currentRange >? maxClipSize clipWidget) then false else checked in
    clipChecked ← Core.checkTakeForAnimation (startFrame clipWidget) (endFrame clipWidget);
    mret (if negb clipChecked then false else checked).

Fixpoint check_from (checked : bool) (data : list AnimationClipWidget) : M bool :=
  match data with
  | [] => mret checked
  | clipWidget :: data' => checked' ← check_clip checked clipWidget; check_from checked' data'
  end.

(** [AnimationWidget.check()] over the widgets of [self.data]. *)
Definition check (data : list AnimationClipWidget) : M bool := check_from false data.

(** The property [payload] of an [AnimationClipWidget], which its signal
    [clipChanged] carries to [updateClipData]. *)
Definition payload (w : AnimationClipWidget) : json :=
  JObj [("name", JStr (clipName w));
        ("enabled", JBool (clipEnabled w));
        ("startFrame", JInt (startFrame w));
        ("endFrame", JInt (endFrame w))].

(** [AnimationWidget.updateClipData(payload)] *)
Definition updateClipData (payload : json) : M unit := Core.updateClipData payload.

End View.

(** ** [view.py]: the materials step *)

Module IconMaterialsWidget.
Import Py Maya Constants Core.

(** What the widget keeps of the scene: [_materials] and
    [_unsupportedMaterials]. *)
Record widget : Type := {
  _materials : list string;
  _unsupportedMaterials : list string
}.

Definition maxMaterialsForIcon : nat := 5.
Definition portalSkySphereMaterialCount : nat := 1.

Definition materialCount (self : widget) : nat := length (_materials self).
Definition materialCountMax : nat := maxMaterialsForIcon + portalSkySphereMaterialCount.

(** The loop of [check] over the textures: [False] at the first texture
    without a file path. *)
Fixpoint check_textures (textures : list string) (checked : bool) : M bool :=
  match textures with
  | [] => mret checked
  | texture :: textures' =>
      path ← getFilePathFromTexture texture;
      if String.eqb path "" then mret false else check_textures textures' checked
  end.

(** [check()]; showing and hiding the error message is left out. *)
Definition check (self : widget) : M bool :=
  let checked := true in
  let checked :=
    if (materialCountMax <=? materialCount self)%nat || (materialCount self =? 0)%nat
    then false else checked in
  textures ← getTexturesFromMaterials (_materials self);
  let checked :=
    if negb (length textures =? length (_materials self))%nat then false else checked in
  checked ← check_textures textures checked;
  let checked :=
    match _unsupportedMaterials self with
    | [] => checked
    | _ => false
    end in
  mret checked.

(** The loop of [loadMaterials] over the two component nodes. *)
Fixpoint component_materials (componentNodes : list (option dagnode))
  : M (list string * list string) :=
  match componentNodes with
  | [] => mret ([], [])
  | node :: componentNodes' =>
      meshes ← getMeshesRecursive node;
      '(mats, unsupported) ← getMaterialsForMeshes meshes;
      '(materials, unsupportedMaterials) ← component_materials componentNodes';
      mret ((mats ++ materials)%list, (unsupported ++ unsupportedMaterials)%list)
  end.

(** [loadMaterials()]: the widget afterwards. *)
Definition loadMaterials (self : widget) : M widget :=
  modelNode ← getModelComponentNode;
  portalNode ← getPortalComponentNode;
  let componentNodes := [modelNode; portalNode] in
  match modelNode, portalNode with
  | Some _, Some _ =>
      '(materials, unsupportedMaterials) ← component_materials componentNodes;
      mret {| _materials := unique materials;
              _unsupportedMaterials := unique unsupportedMaterials |}
  | _, _ => mret self
  end.

End IconMaterialsWidget.

(** ** [mldb.py]: what the device bridge reports

    The methods below read the output of an [mldb] command; they are given
    here as functions of that output. *)

Module Mldb.
Import Py.

(** [l.remove(x)]: the list without the first element equal to [x];
    [ValueError] when there is none. *)
Fixpoint list_remove (x : string) (l : list string) : result (list string) :=
  match l with
  | [] => Raise ValueError
  | y :: l' =>
      if String.eqb y x then Ok l'
      else l'' ← list_remove x l'; mret (y :: l'')
  end.

(** [MLDB.fetch_devices()], from [decoded_data] on: the output of
    [mldb devices], decoded. *)
Definition fetch_devices (decoded_data : string) : result json :=
  let devices := tail (Text.usplitlines decoded_data) in
  devices ← list_remove "" devices;
  let device_list :=
    map (fun device => JStr (Text.first_of (Text.split "009" device))) devices in
  mret (JObj [("devices", JArr device_list)]).

(** The loop of [fetch_device_ip]. *)
Fixpoint first_ip (data : list string) : option string :=
  match data with
  | [] => None
  | d :: data' =>
      if Text.startswith "IpAddr=" d then Some (Text.last_of (Text.split "=" d))
      else first_ip data'
  end.

(** [MLDB.fetch_device_ip()], from [decoded_data] on: the output of
    [mldb wifi status], decoded.  [None] when no address is found. *)
Definition fetch_device_ip (decoded_data : string) : option string :=
  first_ip (Text.split " " decoded_data).

(** The loop of [is_app_running]: [item['state']] is read only when the
    package is the one asked for. *)
Fixpoint running (data : list json) (packageId : string) : result bool :=
  match data with
  | [] => Ok false
  | item :: data' =>
      package ← getitem item "package";
      if Core.py_eq package (JStr packageId) then
        state ← getitem item "state";
        if Core.py_eq state (JStr "Running") then Ok true else running data' packageId
      else running data' packageId
  end.

(** [MLDB.is_app_running(packageId)], from [rawData] on: the output of
    [mldb ps -j]. *)
Definition is_app_running (rawData packageId : string) : result bool :=
  data ← Json.loads rawData;
  items ← iter data;
  running items packageId.

End Mldb.

(** ** What a run leaves behind *)

Module Observe.
Import Py Maya Constants Core Utils.

(** The nodes [bakeAnimation] bakes: the transforms below the template that
    are not of an unsupported type. *)
Definition supportedNodePaths (t : dagnode) : list string :=
  let unsupportedNodes :=
    children_of true kConstraint t ++ children_of true kLight t ++
    children_of true kCamera t ++ [] in
  map getNodePath
    (filter (fun x => node_in x unsupportedNodes = false)
            (children_of true kTransform t)).

(** The time ranges of the [bakeResults] passes of a log, in order. *)
Fixpoint bake_passes (l : list cmd) : list (json * json) :=
  match l with
  | [] => []
  | BakeResults _ range :: l' => range :: bake_passes l'
  | _ :: l' => bake_passes l'
  end.

(** The values given to [FBXExportBakeComplexStart] and
    [FBXExportBakeComplexEnd] in a log. *)
Fixpoint complex_starts (l : list cmd) : list json :=
  match l with
  | [] => []
  | MelEval (FBXExportBakeComplexStart v) :: l' => v :: complex_starts l'
  | _ :: l' => complex_starts l'
  end.

Fixpoint complex_ends (l : list cmd) : list json :=
  match l with
  | [] => []
  | MelEval (FBXExportBakeComplexEnd v) :: l' => v :: complex_ends l'
  | _ :: l' => complex_ends l'
  end.

(** The manifests written in a log. *)
Fixpoint manifests (l : list cmd) : list (string * json) :=
  match l with
  | [] => []
  | WriteJson file data :: l' => (file, data) :: manifests l'
  | _ :: l' => manifests l'
  end.

(** The archives written in a log. *)
Fixpoint archives (l : list cmd) : list (string * list (string * string)) :=
  match l with
  | [] => []
  | WriteZip file entries :: l' => (file, entries) :: archives l'
  | _ :: l' => archives l'
  end.

(** Whether the validator was started. *)
Definition validator_ran (l : list cmd) : bool :=
  existsb (fun c => match c with RunProcess _ => true | _ => false end) l.

(** Whether the FBX file of a component was exported, the last step of its
    export. *)
Definition fbx_exported (componentType : string) (l : list cmd) : bool :=
  existsb (fun c =>
             match c with
             | MelEval (FBXExport file _) =>
                 String.eqb (PosixPath.basename file) (componentType +:+ ".fbx")
             | _ => false
             end) l.

(** An animation take of the settings. *)
Record take : Type := { name : string; startFrame : Z; endFrame : Z }.

(** [v] is the stored form of the take [t], whatever else it holds. *)
Definition is_take (v : json) (t : take) : Prop :=
  getitem v "name" = Ok (JStr (name t)) /\
  getitem v "startFrame" = Ok (JInt (startFrame t)) /\
  getitem v "endFrame" = Ok (JInt (endFrame t)).

Definition take_json (t : take) : json :=
  JObj [("name", JStr (name t)); ("startFrame", JInt (startFrame t));
        ("endFrame", JInt (endFrame t))].

Definition range (t : take) : json * json := (JInt (startFrame t), JInt (endFrame t)).

(** The least start and the greatest end of a non-empty list of takes. *)
Definition first_frame (t : take) (ts : list take) : Z :=
  fold_left Z.min (map startFrame ts) (startFrame t).
Definition last_frame (t : take) (ts : list take) : Z :=
  fold_left Z.max (map endFrame ts) (endFrame t).

(** The command that splits off one take. *)
Definition split_cmd (t : take) : cmd :=
  MelEval (FBXExportSplitAnimationIntoTakes
             (JStr (name t)) (JInt (startFrame t)) (JInt (endFrame t))).

(** The commands of an export with takes. *)
Definition fbx_with_takes (outputPath : string) (selectionOnly : bool)
  (t : take) (ts : list take) : list cmd :=
  map MelEval Utils.fbx_base ++
  map MelEval (Utils.fbx_animation (JInt (first_frame t ts)) (JInt (last_frame t ts))) ++
  map split_cmd (t :: ts) ++
  map MelEval [Mel "FBXExportSplitAnimationIntoTakes -q"] ++
  map MelEval (Utils.fbx_export outputPath selectionOnly).


(** The elements of the [errors] array of a decoded document. *)
Definition errors_of (doc : list (string * json)) : list json :=
  match dict_lookup "errors" doc with
  | Some (JArr l) => l
  | _ => []
  end.

(** A document whose [errors], when it has the key, is an array. *)
Definition errors_array (doc : list (string * json)) : Prop :=
  dict_lookup "errors" doc = None \/ exists l, dict_lookup "errors" doc = Some (JArr l).

(** The error report of the validator's interface. *)
Definition validation_error (code message : string) : json :=
  JObj [("code", JStr code); ("message", JStr message)].

(** Whether the manifest loop writes an entry for a material: it skips a
    material whose colour comes from a file node without a file path. *)
Definition has_entry (net : shading) (mat : string) : bool :=
  match (if objExists net mat then head (colorFileNodes net mat) else None) with
  | Some tex => negb (String.eqb (fileTextureName net tex) "")
  | None => true
  end.

(** The node a component type names. *)
Definition component_node (componentType : string) (m : maya) : option dagnode :=
  match template m with
  | Some _ =>
      if String.eqb componentType "Model" then modelComponent m else portalComponent m
  | None => None
  end.

(** Code that only reads the session. *)
Definition readonly {A} (c : M A) : Prop := forall m, snd (c m) = m.

(** [m'] is [m] with commands added to its log, all of them in [P]. *)
Definition appends (P : cmd -> Prop) (m m' : maya) : Prop :=
  exists l, m' = set_issued (issued m ++ l) m /\ Forall P l.

(** Code that only adds commands of [P] to the log, however it ends. *)
Definition appending (P : cmd -> Prop) {A} (c : M A) : Prop :=
  forall m r m', c m = (r, m') -> appends P m m'.

Definition is_mel (c : cmd) : Prop := match c with MelEval _ => True | _ => False end.
Definition is_copy (c : cmd) : Prop := match c with CopyTexture _ _ => True | _ => False end.
Definition not_manifest (c : cmd) : Prop := match c with WriteJson _ _ => False | _ => True end.

(** A name without a slash, as the entries of a directory are. *)
Definition no_slash (name : string) : bool :=
  string_forallb (fun c => negb (PosixPath.is_slash c)) name.

(** A directory path as [os.walk] passes it on: not empty and not ending
    in a slash. *)
Definition plain_dir (path : string) : bool :=
  negb (String.eqb path "") && negb (PosixPath.ends_with_slash path).

(** A value in which every object has one binding per key, as the
    dictionaries of Python have. *)
Fixpoint well_formed (v : json) : Prop :=
  match v with
  | JArr l =>
      (fix all (l : list json) : Prop :=
         match l with
         | [] => True
         | x :: l' => well_formed x /\ all l'
         end) l
  | JObj d =>
      NoDup (map fst d) /\
      (fix all (d : list (string * json)) : Prop :=
         match d with
         | [] => True
         | (_, x) :: d' => well_formed x /\ all d'
         end) d
  | _ => True
  end.

(** The commands [bakeTransforms] sends for one transform: none for a joint
    or a node that carries a mesh; otherwise its transform children to the
    world, the node frozen, the same children back. *)
Definition bake_commands (transform : dagnode) : list cmd :=
  if hasFn transform kJoint then []
  else if match getMeshes transform with [] => false | _ => true end then []
  else
    let children := map getNodePath (children_of false kTransform transform) in
    [ParentToWorld children; MakeIdentity (getNodePath transform);
     ParentTo children (getNodePath transform)].

End Observe.

(** ** Texts the encoder writes *)

Module Encoding.
Import Py Json Observe.

(** A value without floats. *)
Fixpoint float_free (v : json) : Prop :=
  match v with
  | JFloat _ => False
  | JArr l =>
      (fix all (l : list json) : Prop :=
         match l with
         | [] => True
         | x :: l' => float_free x /\ all l'
         end) l
  | JObj d =>
      (fix all (d : list (string * json)) : Prop :=
         match d with
         | [] => True
         | (_, x) :: d' => float_free x /\ all d'
         end) d
  | _ => True
  end.

(** The fuel the decoder needs for a value: one unit per value and one per
    element or member. *)
Fixpoint size (v : json) : nat :=
  match v with
  | JArr l =>
      S ((fix sum (l : list json) : nat :=
            match l with
            | [] => O
            | x :: l' => S (size x + sum l')
            end) l)
  | JObj d =>
      S ((fix sum (d : list (string * json)) : nat :=
            match d with
            | [] => O
            | (_, x) :: d' => S (size x + sum d')
            end) d)
  | _ => 1%nat
  end.

Definition sizes (l : list json) : nat :=
  fold_right (fun x n => S (size x + n)) O l.

(** The elements of an array and the members of an object as [dumps]
    writes them. *)
Fixpoint dump_items (l : list json) : string :=
  match l with
  | [] => ""
  | [x] => dumps x
  | x :: l' => dumps x +:+ ", " +:+ dump_items l'
  end.

Fixpoint dump_members (d : list (string * json)) : string :=
  match d with
  | [] => ""
  | [(k, x)] => quote k +:+ ": " +:+ dumps x
  | (k, x) :: d' => quote k +:+ ": " +:+ dumps x +:+ ", " +:+ dump_members d'
  end.

(** A text that starts like a value: not with white space, not with a
    closing bracket. *)
(** What may follow a value in a text: nothing, a comma, or a closing
    bracket or brace. *)
Definition closes (rest : string) : Prop :=
  match rest with
  | EmptyString => True
  | String c _ => c = ","%char \/ c = "]"%char \/ c = "}"%char
  end.

Definition nonzero_head (u : Decimal.uint) : Prop :=
  match u with
  | Decimal.Nil | Decimal.D0 _ => False
  | _ => True
  end.

Definition reads_back (v : json) : Prop :=
  well_formed v -> float_free v ->
  forall fuel rest,
    (size v <= fuel)%nat -> closes rest ->
    parse_value fuel (dumps v +:+ rest) = Some (v, rest).

Definition value_head (s : string) : Prop :=
  match s with
  | String c _ => is_ws c = false /\ Ascii.eqb "]" c = false
  | EmptyString => False
  end.

End Encoding.

(** ** Example scenes *)

Module Scenes.
Import Py Maya.

Definition meshShape (path : string) : dagnode := DagNode path [kMesh] [].

(** A transform that carries a mesh. *)
Definition meshTransform (path : string) : dagnode :=
  DagNode path [kTransform] [meshShape (path +:+ "|shape")].

Definition modelGroup : dagnode :=
  DagNode "|IconTemplate|Model" [kTransform]
    [meshTransform "|IconTemplate|Model|body";
     meshTransform "|IconTemplate|Model|lid";
     DagNode "|IconTemplate|Model|rig" [kTransform]
       [DagNode "|IconTemplate|Model|rig|root" [kTransform; kJoint] []]].

Definition portalGroup : dagnode :=
  DagNode "|IconTemplate|Portal" [kTransform]
    [meshTransform "|IconTemplate|Portal|InsidePortal_SkySphere"].

Definition iconTemplate : dagnode :=
  DagNode "|IconTemplate" [kTransform] [modelGroup; portalGroup].

(** Both meshes of the model use [lambert1], a flat colour; the sky sphere
    uses [skyMat], whose colour comes from the file node [file1] with the
    texture [skyTexture]. *)
Definition materials (skyTexture : string) : shading :=
  {| objExists := fun _ => true;
     shadingEngines := fun mesh =>
       if String.eqb mesh "|IconTemplate|Portal|InsidePortal_SkySphere|shape"
       then ["skySG"] else ["lambert1SG"];
     surfaceShader := fun engine =>
       if String.eqb engine "skySG" then ["skyMat"] else ["lambert1"];
     nodeType := fun _ => "lambert";
     colorFileNodes := fun material =>
       if String.eqb material "skyMat" then ["file1"] else [];
     fileTextureName := fun _ => skyTexture;
     colorRGB := fun _ => (JFloat "0.5", JFloat "0.5", JFloat "0.5");
     pathExists := fun _ => true |}.

Definition exportedFiles : directory :=
  Dir [] [("Model", Dir ["a.kmat"; "a.fbx"; "tex.png"; "notes.txt"] [])].

(** A saved scene with an Icon Template: its settings plug, the texture of
    the sky sphere, what the validator does and which steps fail. *)
Definition scene (settings : option string) (skyTexture : string)
  (validator : process) (failing : stage -> option exn) : maya :=
  {| template := Some iconTemplate;
     iconSettings := settings;
     modelComponent := Some modelGroup;
     portalComponent := Some portalGroup;
     network := materials skyTexture;
     sceneName := "/projects/icon/scenes/icon.ma";
     cwd := "/projects/icon";
     iconConverter := "/tools/icon-converter";
     validatorRun := validator;
     iconFiles := exportedFiles;
     trsKeys := fun _ _ => true;
     fails := failing;
     nullObjectError := TypeError;
     issued := [] |}.

Definition nothing_fails : stage -> option exn := fun _ => None.

Definition two_takes : string :=
  with_quotes
    "{'outputPath': '/out', 'animationTakes': [{'name': 'idle', 'startFrame': 1, 'endFrame': 2}, {'name': 'hover', 'startFrame': 4, 'endFrame': 10}]}".

(** The scene with two enabled takes, [idle] over 1..2 and [hover] over
    4..10. *)
Definition animated : maya :=
  scene (Some two_takes) "/textures/sky.png" (Exited 0 "") nothing_fails.

(** The scene as [importTemplate] leaves it: the plug is there and empty. *)
Definition fresh : maya :=
  scene (Some "") "/textures/sky.png" (Exited 0 "") nothing_fails.

(** The same scene when the file node of the sky material has no file path
    (a file node as Maya creates it). *)
Definition unset_texture : maya :=
  scene (Some two_takes) "" (Exited 0 "") nothing_fails.

(** Maya refuses a command of the Portal export (reparenting, deletion or
    selection); everything else works and the validator passes. *)
Definition portal_commands_fail : stage -> option exn := fun s =>
  match s with
  | ComponentCommands componentType =>
      if String.eqb componentType "Portal" then Some RuntimeError else None
  | _ => None
  end.

Definition portal_fails : maya :=
  scene (Some two_takes) "/textures/sky.png" (Exited 0 "") portal_commands_fail.

(** Removing the namespaces fails, before anything is baked or exported. *)
Definition namespaces_fail : stage -> option exn := fun s =>
  match s with
  | StripNamespaces => Some RuntimeError
  | _ => None
  end.

Definition nothing_exported : maya :=
  scene (Some two_takes) "/textures/sky.png" (Exited 0 "") namespaces_fail.

(** An Icon Template whose [iconSettings] attribute is missing. *)
Definition no_settings_attribute : maya :=
  scene None "/textures/sky.png" (Exited 0 "") nothing_fails.

(** Settings that are not JSON. *)
Definition garbled : maya :=
  scene (Some "{outputPath: /out") "/textures/sky.png" (Exited 0 "") nothing_fails.

(** Settings whose [animationTakes] is [null]. *)
Definition null_takes : maya :=
  scene (Some (with_quotes "{'outputPath': '/out', 'animationTakes': null}"))
    "/textures/sky.png" (Exited 0 "") nothing_fails.

End Scenes.

(** ** Notions the properties are stated with *)

Module Notions.
Import Py Maya Observe.

(** A name that [normpath] keeps as it is: without a slash, not empty, and
    neither [.] nor [..]. *)
Definition component (c : string) : Prop :=
  no_slash c = true /\ c <> "" /\ c <> "." /\ c <> "..".

(** The path [y] ends with the component [c]. *)
Definition last_component (c y : string) : Prop :=
  y = c \/ exists w, y = w +:+ "/" +:+ c.

(** A text that a file name can follow: empty, or ending in a slash. *)
Definition dir_prefix (p : string) : Prop :=
  p = "" \/ exists q, p = q +:+ "/".

(** The command line of the validator for an icon directory. *)
Definition validate_argv (executable iconDirectory : string) : list string :=
  [executable; "validate"; "--format"; "json";
   "-m"; "Icon/Model"; "--local-model-folder"; "Model";
   "-p"; "Icon/Portal"; "--local-portal-folder"; "Portal";
   iconDirectory].

(** An error report that [validateIcon] can print. *)
Definition reportable (err : json) : Prop :=
  (exists code, getitem err "code" = Ok code) /\
  (exists message, getitem err "message" = Ok message).

Definition any_cmd (c : cmd) : Prop := True.

(** A stored take whose name is not [clip]. *)
Definition other_name (clip : string) (item : json) : Prop :=
  exists n, getitem item "name" = Ok n /\ Core.py_eq n (JStr clip) = false.

(** A stored take with the name [clip]. *)
Definition named (clip : string) (item : json) : Prop :=
  exists n, getitem item "name" = Ok n /\ Core.py_eq n (JStr clip) = true.

(** A stored take that [getAnimationData] can read. *)
Definition readable_take (item : json) : Prop :=
  exists n s e,
    getitem item "name" = Ok n /\ Core.hashable n = true /\
    getitem item "startFrame" = Ok s /\ getitem item "endFrame" = Ok e.

(** A material whose colour comes from a file node with a file path. *)
Definition textured (m : maya) (material : string) : Prop :=
  exists texture path,
    Core.getTexture material m = (Ok (Some texture), m) /\
    Core.getFilePathFromTexture texture m = (Ok path, m) /\
    path <> "".

(** A material of one of [VALID_MATERIAL_TYPES]. *)
Definition valid_material (net : shading) (material : string) : bool :=
  Core.str_in (nodeType net material) Constants.VALID_MATERIAL_TYPES.

(** The materials connected to the shading engines of a mesh, engine by
    engine. *)
Definition connected_materials (net : shading) (mesh : string) : list string :=
  concat (map (surfaceShader net) (shadingEngines net mesh)).

(** The joint has a key on translation, rotation or scale at both frames. *)
Definition keyed (m : maya) (startFrame endFrame : Z) (joint : dagnode) : Prop :=
  trsKeys m (Core.getNodePath joint) startFrame = true /\
  trsKeys m (Core.getNodePath joint) endFrame = true.

(** The character [c] does not occur in [s]. *)
Definition without (c : ascii) (s : string) : bool :=
  string_forallb (fun x => negb (Ascii.eqb x c)) s.

(** A text that [splitlines] keeps in one piece: no line boundary of one
    byte and none of the lead bytes of the longer ones. *)
Definition one_line (s : string) : bool :=
  string_forallb
    (fun c => negb (Ascii.eqb c "013" || Text.is_break c ||
                    Ascii.eqb c "194" || Ascii.eqb c "226")) s.

(** What [mldb devices] prints: a header, one line per device with its
    serial number, a tab and its state, and an empty line. *)
Definition device_line (device : string * string) : string :=
  fst device +:+ String "009" (snd device).

(** A serial number has no tab and, as the state, no line boundary. *)
Definition device_entry (device : string * string) : bool :=
  one_line (fst device) && without "009" (fst device) && one_line (snd device).

Fixpoint device_lines (devices : list (string * string)) : string :=
  match devices with
  | [] => ""
  | device :: devices' => device_line device +:+ String "010" (device_lines devices')
  end.

Definition devices_output (header : string) (devices : list (string * string)) : string :=
  header +:+ String "010" (device_lines devices +:+ String "010" "").

(** An entry of [mldb ps -j] that [is_app_running] can read. *)
Definition process_entry (item : json) : Prop :=
  (exists package, getitem item "package" = Ok package) /\
  (exists state, getitem item "state" = Ok state).

(** The entry of a running process of the package. *)
Definition running_entry (packageId : string) (item : json) : Prop :=
  getitem item "package" = Ok (JStr packageId) /\
  getitem item "state" = Ok (JStr "Running").

(** Takes whose frames, where a take has them, are integers: the values
    for which [py_min] and [py_max] are the [min] and [max] of Python. *)
Definition integer_frame (take : json) (key : string) : bool :=
  match getitem take key with
  | Ok (JInt _) => true
  | Ok _ => false
  | Raise _ => true
  end.

Definition integer_frames (takes : json) : bool :=
  match iter takes with
  | Ok xs =>
      forallb (fun take => integer_frame take "startFrame" && integer_frame take "endFrame") xs
  | Raise _ => true
  end.

(** Why [exportFBX] raises [e] on takes with integer frames: they count as
    true and cannot be read, as a whole or at a key of one of them. *)
Definition unreadable (takes : json) (e : exn) : Prop :=
  truthy takes = true /\
  (iter takes = Raise e \/
   exists xs take key,
     iter takes = Ok xs /\ take ∈ xs /\
     key ∈ ["startFrame"; "endFrame"; "name"] /\
     getitem take key = Raise e).

(** The command that writes the FBX file. *)
Definition writes_fbx (c : cmd) : bool :=
  match c with
  | MelEval (FBXExport _ _) => true
  | _ => false
  end.

(** The meshes below a component node, as [getMeshesRecursive] lists
    them. *)
Definition component_meshes (node : dagnode) : list dagnode :=
  concat (map Core.getMeshes (Core.children_of true kTransform node)).

(** The scene with two takes after the shape of the lid has been deleted:
    the node is still in the hierarchy that was read, and [objExists] no
    longer finds it. *)
Definition lid_deleted : maya :=
  let m := Scenes.animated in
  let net := network m in
  {| template := template m;
     iconSettings := iconSettings m;
     modelComponent := modelComponent m;
     portalComponent := portalComponent m;
     network :=
       {| objExists := fun node => negb (String.eqb node "|IconTemplate|Model|lid|shape");
          shadingEngines := shadingEngines net;
          surfaceShader := surfaceShader net;
          nodeType := nodeType net;
          colorFileNodes := colorFileNodes net;
          fileTextureName := fileTextureName net;
          colorRGB := colorRGB net;
          pathExists := pathExists net |};
     sceneName := sceneName m;
     cwd := cwd m;
     iconConverter := iconConverter m;
     validatorRun := validatorRun m;
     iconFiles := iconFiles m;
     trsKeys := trsKeys m;
     fails := fails m;
     nullObjectError := nullObjectError m;
     issued := issued m |}.

End Notions.

(** * Properties *)

(** ** Texts *)

Module StringFacts.

Lemma append_nil (s : string) : "" +:+ s = s.
Proof. reflexivity. Qed.

Lemma append_cons (c : ascii) (a b : string) : String c a +:+ b = String c (a +:+ b).
Proof. reflexivity. Qed.

Lemma append_assoc (a b c : string) : (a +:+ b) +:+ c = a +:+ b +:+ c.
Proof. induction a as [|x a IH]; [reflexivity|]. rewrite !append_cons, IH. reflexivity. Qed.

End StringFacts.

(** ** Reasoning about session code *)

Module MonadFacts.
Import Py Maya.

Lemma bind_run {A B} (c : M A) (k : A -> M B) (m : maya) :
  (c ≫= k) m =
  match c m with
  | (Ok a, m') => k a m'
  | (Raise e, m') => (Raise e, m')
  end.
Proof. reflexivity. Qed.

Lemma bind_ok {A B} (c : M A) (k : A -> M B) (m m' : maya) (a : A) :
  c m = (Ok a, m') -> (c ≫= k) m = k a m'.
Proof. intros H. rewrite bind_run, H. reflexivity. Qed.

Lemma bind_raise {A B} (c : M A) (k : A -> M B) (m m' : maya) (e : exn) :
  c m = (Raise e, m') -> (c ≫= k) m = (Raise e, m').
Proof. intros H. rewrite bind_run, H. reflexivity. Qed.

Lemma bind_inv {A B} (c : M A) (k : A -> M B) (m m' : maya) (b : B) :
  (c ≫= k) m = (Ok b, m') ->
  exists a m1, c m = (Ok a, m1) /\ k a m1 = (Ok b, m').
Proof.
  rewrite bind_run. destruct (c m) as [[a|e] m1]; intros H.
  - exists a, m1. split; [reflexivity | exact H].
  - discriminate H.
Qed.

Lemma lift_run {A} (r : result A) (m : maya) : lift r m = (r, m).
Proof. reflexivity. Qed.

Lemma gets_run {A} (f : maya -> A) (m : maya) : gets f m = (Ok (f m), m).
Proof. reflexivity. Qed.

Lemma issued_add (c : cmd) (m : maya) : issued (add_issued c m) = issued m ++ [c].
Proof. reflexivity. Qed.

End MonadFacts.

(** ** Settings *)

Module SettingsFacts.
Import Py Maya Core MonadFacts.

Lemma set_issued_id (m : maya) : set_issued (issued m) m = m.
Proof. destruct m; reflexivity. Qed.

Lemma set_issued_twice (l l' : list cmd) (m : maya) :
  set_issued l (set_issued l' m) = set_issued l m.
Proof. reflexivity. Qed.

Lemma add_issued_set (c : cmd) (l : list cmd) (m : maya) :
  add_issued c (set_issued l m) = set_issued (l ++ [c]) m.
Proof. reflexivity. Qed.

Lemma loads_raises (s : string) (e : exn) : Json.loads s = Raise e -> e = ValueError.
Proof.
  unfold Json.loads.
  destruct (Json.parse_value _ _) as [[v r]|]; [|congruence].
  destruct (Json.skip_ws r); congruence.
Qed.

(** What [getIconSettings] returns in a scene with an Icon Template. *)
Lemma getIconSettings_template (m : maya) (t : dagnode) :
  template m = Some t ->
  getIconSettings m =
  (match iconSettings m with
   | None => Raise RuntimeError
   | Some s => match Json.loads s with Ok v => Ok v | Raise _ => Ok (JObj []) end
   end, m).
Proof.
  intros Ht. unfold getIconSettings, getIconTemplateNode.
  rewrite bind_run, gets_run, Ht. unfold try_except.
  rewrite bind_run. cbn [attach]. rewrite bind_run.
  unfold iconSettings_asString.
  destruct (iconSettings m) as [s|]; [|reflexivity].
  rewrite lift_run.
  destruct (Json.loads s) as [v|e] eqn:E; [reflexivity|].
  apply loads_raises in E. subst e. reflexivity.
Qed.

(** Reading the settings leaves the session as it is. *)
Lemma getIconSettings_state (m : maya) : snd (getIconSettings m) = m.
Proof.
  unfold getIconSettings, getIconTemplateNode.
  rewrite bind_run, gets_run. unfold try_except. rewrite bind_run.
  destruct (template m) as [t|]; cbn [attach].
  - rewrite bind_run. unfold iconSettings_asString.
    destruct (iconSettings m) as [s|]; [|reflexivity].
    rewrite lift_run. destruct (Json.loads s) as [v|e]; [reflexivity|].
    destruct (is_ValueError e); reflexivity.
  - destruct (is_ValueError (nullObjectError m)); reflexivity.
Qed.

Lemma getIconSettings_ok (m m' : maya) (r : result json) :
  getIconSettings m = (r, m') -> m' = m.
Proof. intros H. pose proof (getIconSettings_state m) as E. rewrite H in E. exact E. Qed.

End SettingsFacts.

(** ** Animation baking *)

Module BakeFacts.
Import Py Maya Constants Core Observe MonadFacts SettingsFacts.

Lemma getChildren_some (t : dagnode) (recursive : bool) (ty : MFn) (m : maya) :
  getChildren (Some t) recursive ty m = (Ok (children_of recursive ty t), m).
Proof. reflexivity. Qed.

Lemma unsupported_below_some (t : dagnode) (m : maya) :
  unsupported_below (Some t) INVALID_NODE_TYPES m =
  (Ok (children_of true kConstraint t ++ children_of true kLight t ++
       children_of true kCamera t ++ []), m).
Proof. reflexivity. Qed.

(** A round of the loop either raises before it bakes, or bakes once. *)
Lemma bake_take_cases (paths : list string) (v : json) (m : maya) :
  (exists e, bake_take paths v m = (Raise e, m)) \/
  (exists s e, getitem v "startFrame" = Ok s /\ getitem v "endFrame" = Ok e /\
               bake_take paths v m = (Ok tt, add_issued (BakeResults paths (s, e)) m)).
Proof.
  unfold bake_take. rewrite !bind_run, !lift_run.
  destruct (getitem v "startFrame") as [s|e1] eqn:Es; [|left; eauto].
  rewrite !bind_run, !lift_run.
  destruct (getitem v "endFrame") as [e|e1] eqn:Ee; [|left; eauto].
  rewrite !bind_run, !lift_run.
  destruct (getitem v "name") as [n|e1] eqn:En; [|left; eauto].
  right. exists s, e. auto.
Qed.

Lemma bake_take_typed (paths : list string) (v : json) (t : take) (m : maya) :
  is_take v t ->
  bake_take paths v m = (Ok tt, add_issued (BakeResults paths (range t)) m).
Proof.
  intros (Hn & Hs & He).
  unfold bake_take, mbind, M_bind, lift. rewrite Hs, He, Hn. reflexivity.
Qed.

(** One pass per take, in the order of the takes. *)
Lemma for_each_bake_typed (paths : list string) (vs : list json) (ts : list take) :
  Forall2 is_take vs ts ->
  forall m,
    for_each vs (bake_take paths) m =
    (Ok tt, set_issued (issued m ++ map (fun t => BakeResults paths (range t)) ts) m).
Proof.
  induction 1 as [|v t vs ts Hv _ IH]; intros m.
  - cbn. rewrite app_nil_r, set_issued_id. reflexivity.
  - cbn [for_each]. rewrite bind_run, (bake_take_typed _ _ _ _ Hv), IH.
    unfold add_issued. cbn [issued set_issued map]. rewrite <- app_assoc. reflexivity.
Qed.

(** Whatever the takes hold, the log only grows, and a loop over at least
    one take that ends normally has baked. *)
Lemma for_each_bake_grows (paths : list string) (vs : list json) :
  forall m r m',
    for_each vs (bake_take paths) m = (r, m') ->
    exists l, issued m' = issued m ++ l /\ (r = Ok tt -> vs <> [] -> l <> []).
Proof.
  induction vs as [|v vs IH]; intros m r m' H.
  - cbn in H. injection H as <- <-. exists []. rewrite app_nil_r. split; [reflexivity|]. congruence.
  - cbn [for_each] in H. rewrite bind_run in H.
    destruct (bake_take_cases paths v m) as [[e E]|(s & e & _ & _ & E)]; rewrite E in H.
    + injection H as <- <-. exists []. rewrite app_nil_r. split; [reflexivity|]. discriminate.
    + apply IH in H as (l & Hl & _). exists (BakeResults paths (s, e) :: l).
      rewrite Hl. cbn [issued add_issued set_issued]. rewrite <- app_assoc.
      split; [reflexivity|]. intros _ _. discriminate.
Qed.

(** [bakeAnimation] once the takes are read. *)
Lemma bakeAnimation_loop (m : maya) (t : dagnode) (settings takes : json) (vs : list json) :
  template m = Some t ->
  getIconSettings m = (Ok settings, m) ->
  get settings "animationTakes" (JArr [defaultTake]) = Ok takes ->
  truthy takes = true ->
  iter takes = Ok vs ->
  bakeAnimation m = for_each vs (bake_take (supportedNodePaths t)) m.
Proof.
  intros Ht Hs Hg Htr Hi. unfold bakeAnimation.
  rewrite (bind_ok _ _ _ _ _ Hs), bind_run, lift_run, Hg, Htr. cbn [negb].
  unfold getIconTemplateNode. rewrite bind_run, gets_run, Ht.
  rewrite bind_run, getChildren_some, bind_run, unsupported_below_some.
  rewrite bind_run, lift_run, Hi. reflexivity.
Qed.

Lemma bakeAnimation_no_takes (m : maya) (settings takes : json) :
  getIconSettings m = (Ok settings, m) ->
  get settings "animationTakes" (JArr [defaultTake]) = Ok takes ->
  truthy takes = false ->
  bakeAnimation m = (Ok tt, m).
Proof.
  intros Hs Hg Htr. unfold bakeAnimation.
  rewrite (bind_ok _ _ _ _ _ Hs), bind_run, lift_run, Hg, Htr. reflexivity.
Qed.

End BakeFacts.

(** ** The FBX export *)

Module FbxFacts.
Import Py Maya Utils Observe MonadFacts SettingsFacts.

Lemma mels_run (l : list mel) :
  forall m, mels l m = (Ok tt, set_issued (issued m ++ map MelEval l) m).
Proof.
  unfold mels. induction l as [|c l IH]; intros m.
  - cbn. rewrite app_nil_r, set_issued_id. reflexivity.
  - cbn [for_each]. rewrite bind_run. cbn [issue]. rewrite IH.
    unfold add_issued. cbn [issued set_issued map]. rewrite <- app_assoc. reflexivity.
Qed.

Lemma fields_start (vs : list json) (ts : list take) :
  Forall2 is_take vs ts ->
  fields "startFrame" vs = Ok (map (fun t => JInt (startFrame t)) ts).
Proof.
  induction 1 as [|v t vs ts (_ & Hs & _) _ IH]; [reflexivity|].
  cbn [fields]. rewrite Hs. cbn. rewrite IH. reflexivity.
Qed.

Lemma fields_end (vs : list json) (ts : list take) :
  Forall2 is_take vs ts ->
  fields "endFrame" vs = Ok (map (fun t => JInt (endFrame t)) ts).
Proof.
  induction 1 as [|v t vs ts (_ & _ & He) _ IH]; [reflexivity|].
  cbn [fields]. rewrite He. cbn. rewrite IH. reflexivity.
Qed.

Lemma ints_of_ints {A} (f : A -> Z) (l : list A) :
  ints (map (fun x => JInt (f x)) l) = Ok (map f l).
Proof. induction l as [|x l IH]; [reflexivity|]. cbn. rewrite IH. reflexivity. Qed.

Lemma fold_min_spec (zs : list Z) :
  forall z, (forall x, x ∈ z :: zs -> fold_left Z.min zs z <= x) /\
            fold_left Z.min zs z ∈ z :: zs.
Proof.
  induction zs as [|y zs IH]; intros z; cbn [fold_left].
  - split; [|left]. intros x Hx. apply list_elem_of_singleton in Hx. lia.
  - destruct (IH (Z.min z y)) as [Hle Hin]. split.
    + intros x Hx. assert (Hm := Hle (Z.min z y) ltac:(left)).
      apply elem_of_cons in Hx as [->|Hx]; [lia|].
      apply elem_of_cons in Hx as [->|Hx]; [lia|].
      apply Hle. right. exact Hx.
    + apply elem_of_cons in Hin as [E|Hin].
      * rewrite E. destruct (Z.min_spec z y) as [[_ ->]|[_ ->]]; [left | right; left].
      * right. right. exact Hin.
Qed.

Lemma fold_max_spec (zs : list Z) :
  forall z, (forall x, x ∈ z :: zs -> x <= fold_left Z.max zs z) /\
            fold_left Z.max zs z ∈ z :: zs.
Proof.
  induction zs as [|y zs IH]; intros z; cbn [fold_left].
  - split; [|left]. intros x Hx. apply list_elem_of_singleton in Hx. lia.
  - destruct (IH (Z.max z y)) as [Hle Hin]. split.
    + intros x Hx. assert (Hm := Hle (Z.max z y) ltac:(left)).
      apply elem_of_cons in Hx as [->|Hx]; [lia|].
      apply elem_of_cons in Hx as [->|Hx]; [lia|].
      apply Hle. right. exact Hx.
    + apply elem_of_cons in Hin as [E|Hin].
      * rewrite E. destruct (Z.max_spec z y) as [[_ ->]|[_ ->]]; [right; left | left].
      * right. right. exact Hin.
Qed.

(** The window contains the range of every take. *)
Lemma window_contains (t : take) (ts : list take) (x : take) :
  x ∈ t :: ts ->
  first_frame t ts <= startFrame x /\ endFrame x <= last_frame t ts.
Proof.
  intros Hx. unfold first_frame, last_frame. split.
  - apply (proj1 (fold_min_spec _ _)). change (startFrame x ∈ map startFrame (t :: ts)).
    apply list_elem_of_fmap_2. exact Hx.
  - apply (proj1 (fold_max_spec _ _)). change (endFrame x ∈ map endFrame (t :: ts)).
    apply list_elem_of_fmap_2. exact Hx.
Qed.

Lemma split_take_typed (v : json) (t : take) (m : maya) :
  is_take v t -> split_take v m = (Ok tt, add_issued (split_cmd t) m).
Proof.
  intros (Hn & Hs & He).
  unfold split_take, mbind, M_bind, lift. rewrite Hn, Hs, He. reflexivity.
Qed.

Lemma for_each_split_typed (vs : list json) (ts : list take) :
  Forall2 is_take vs ts ->
  forall m, for_each vs split_take m =
            (Ok tt, set_issued (issued m ++ map split_cmd ts) m).
Proof.
  induction 1 as [|v t vs ts Hv _ IH]; intros m.
  - cbn. rewrite app_nil_r, set_issued_id. reflexivity.
  - cbn [for_each]. rewrite bind_run, (split_take_typed _ _ _ Hv), IH.
    unfold add_issued. cbn [issued set_issued map]. rewrite <- app_assoc. reflexivity.
Qed.

Lemma py_min_typed (t : take) (ts : list take) :
  py_min (map (fun t => JInt (startFrame t)) (t :: ts)) = Ok (JInt (first_frame t ts)).
Proof.
  unfold py_min, mbind, result_bind. rewrite (ints_of_ints startFrame). reflexivity.
Qed.

Lemma py_max_typed (t : take) (ts : list take) :
  py_max (map (fun t => JInt (endFrame t)) (t :: ts)) = Ok (JInt (last_frame t ts)).
Proof.
  unfold py_max, mbind, result_bind. rewrite (ints_of_ints endFrame). reflexivity.
Qed.

Lemma exportFBX_typed (outputPath : string) (selectionOnly : bool)
  (vs : list json) (t : take) (ts : list take) (m : maya) :
  Forall2 is_take vs (t :: ts) ->
  exportFBX outputPath selectionOnly (JArr vs) m =
  (Ok tt, set_issued (issued m ++ fbx_with_takes outputPath selectionOnly t ts) m).
Proof.
  intros H. unfold exportFBX.
  rewrite bind_run, mels_run.
  assert (Htr : truthy (JArr vs) = true) by (inversion H; reflexivity).
  rewrite Htr. rewrite bind_run, bind_run, lift_run. cbn [iter].
  rewrite bind_run, lift_run, (fields_start _ _ H).
  rewrite bind_run, lift_run, py_min_typed.
  rewrite bind_run, lift_run, (fields_end _ _ H).
  rewrite bind_run, lift_run, py_max_typed.
  rewrite bind_run, mels_run, bind_run, (for_each_split_typed _ _ H), mels_run.
  rewrite mels_run. cbn [issued set_issued].
  unfold fbx_with_takes, first_frame, last_frame.
  rewrite <- !app_assoc. reflexivity.
Qed.

Lemma complex_starts_app (a b : list cmd) :
  complex_starts (a ++ b) = complex_starts a ++ complex_starts b.
Proof.
  induction a as [|c a IH]; [reflexivity|].
  cbn [app complex_starts]. destruct c as [| | | |[]| | | | |]; cbn; rewrite ?IH; reflexivity.
Qed.

Lemma complex_ends_app (a b : list cmd) :
  complex_ends (a ++ b) = complex_ends a ++ complex_ends b.
Proof.
  induction a as [|c a IH]; [reflexivity|].
  cbn [app complex_ends]. destruct c as [| | | |[]| | | | |]; cbn; rewrite ?IH; reflexivity.
Qed.

Lemma complex_starts_split (ts : list take) : complex_starts (map split_cmd ts) = [].
Proof. induction ts as [|t ts IH]; [reflexivity|exact IH]. Qed.

Lemma complex_ends_split (ts : list take) : complex_ends (map split_cmd ts) = [].
Proof. induction ts as [|t ts IH]; [reflexivity|exact IH]. Qed.

Lemma fbx_with_takes_window (outputPath : string) (selectionOnly : bool)
  (t : take) (ts : list take) :
  complex_starts (fbx_with_takes outputPath selectionOnly t ts) = [JInt (first_frame t ts)] /\
  complex_ends (fbx_with_takes outputPath selectionOnly t ts) = [JInt (last_frame t ts)].
Proof.
  unfold fbx_with_takes.
  rewrite !complex_starts_app, !complex_ends_app, complex_starts_split, complex_ends_split.
  split; reflexivity.
Qed.

Lemma bake_passes_app (a b : list cmd) :
  bake_passes (a ++ b) = bake_passes a ++ bake_passes b.
Proof.
  induction a as [|c a IH]; [reflexivity|].
  cbn [app bake_passes]. destruct c; cbn; rewrite ?IH; reflexivity.
Qed.

Lemma bake_passes_bakes (paths : list string) (ts : list take) :
  bake_passes (map (fun t => BakeResults paths (range t)) ts) = map range ts.
Proof. induction ts as [|t ts IH]; [reflexivity|]. cbn. rewrite IH. reflexivity. Qed.

End FbxFacts.

(** ** The baking window (C1) and the default take (C10) *)

Module BakeWindow.
Import Py Maya Core Utils Observe MonadFacts SettingsFacts BakeFacts FbxFacts.

(** A value that counts as true and can be iterated has an element. *)
Lemma truthy_iter (v : json) (vs : list json) :
  truthy v = true -> iter v = Ok vs -> vs <> [].
Proof.
  destruct v as [| | | |s|l|d]; cbn [truthy iter]; try discriminate.
  - intros Hs H. injection H as <-. destruct s; [discriminate Hs | discriminate].
  - intros Hl H. injection H as <-. destruct l; [discriminate Hl | discriminate].
  - intros Hd H. injection H as <-. destruct d; [discriminate Hd | discriminate].
Qed.







End BakeWindow.

(** ** Decoding the validator's output (C2) *)

Module ValidatorOutput.
Import Py Maya Core Observe.

Lemma parse_line_document (errors : list json) (line : string)
  (doc : list (string * json)) :
  Json.loads line = Ok (JObj doc) ->
  errors_array doc ->
  parse_line errors line = Ok (errors ++ errors_of doc).
Proof.
  intros Hl Hd. unfold parse_line, errors_of, mbind, result_bind.
  rewrite Hl. cbn [contains getitem].
  destruct Hd as [Hn|[l Hs]].
  - rewrite Hn. rewrite app_nil_r. reflexivity.
  - rewrite Hs. reflexivity.
Qed.

Lemma parse_lines_documents (lines : list string) (docs : list (list (string * json))) :
  Forall2 (fun line doc => Json.loads line = Ok (JObj doc) /\ errors_array doc) lines docs ->
  forall errors,
    parse_lines errors lines = Ok (errors ++ concat (map errors_of docs)).
Proof.
  induction 1 as [|line doc lines docs [Hl Hd] _ IH]; intros errors.
  - cbn. rewrite app_nil_r. reflexivity.
  - cbn [parse_lines mbind result_bind]. rewrite (parse_line_document _ _ _ Hl Hd).
    unfold mbind, result_bind. rewrite IH. cbn [map concat]. rewrite app_assoc. reflexivity.
Qed.

Lemma parse_line_invalid (errors : list json) (line : string) :
  Json.loads line = Raise ValueError -> parse_line errors line = Raise ValueError.
Proof. intros Hl. unfold parse_line, mbind, result_bind. rewrite Hl. reflexivity. Qed.

Lemma parse_lines_invalid (lines : list string) (line : string) :
  line ∈ lines ->
  Json.loads line = Raise ValueError ->
  forall errors, exists e, parse_lines errors lines = Raise e.
Proof.
  intros Hin Hl. induction Hin as [line lines|line x lines _ IH]; intros errors.
  - exists ValueError. cbn [parse_lines]. unfold mbind, result_bind.
    rewrite (parse_line_invalid _ _ Hl). reflexivity.
  - cbn [parse_lines]. unfold mbind, result_bind.
    destruct (parse_line errors x) as [errors'|e]; [apply IH; exact Hl | eauto].
Qed.

(** When the first line is the one that is not JSON, the exception is the
    decoder's [ValueError]. *)
Lemma parse_lines_invalid_first (line : string) (lines : list string) (errors : list json) :
  Json.loads line = Raise ValueError ->
  parse_lines errors (line :: lines) = Raise ValueError.
Proof.
  intros Hl. cbn [parse_lines]. unfold mbind, result_bind.
  rewrite (parse_line_invalid _ _ Hl). reflexivity.
Qed.



End ValidatorOutput.

(** ** Code that only reads, code that only logs *)

Module FrameFacts.
Import Py Maya Core Utils Observe MonadFacts SettingsFacts.

Lemma readonly_run {A} (c : M A) (m m' : maya) (r : result A) :
  readonly c -> c m = (r, m') -> m' = m.
Proof. intros H E. specialize (H m). rewrite E in H. exact H. Qed.

Lemma readonly_ret {A} (a : A) : readonly (mret a : M A).
Proof. intros m. reflexivity. Qed.

Lemma readonly_gets {A} (f : maya -> A) : readonly (gets f).
Proof. intros m. reflexivity. Qed.

Lemma readonly_lift {A} (r : result A) : readonly (lift r).
Proof. intros m. reflexivity. Qed.

Lemma readonly_raise {A} (e : exn) : readonly (raise e : M A).
Proof. intros m. reflexivity. Qed.

Lemma readonly_bind {A B} (c : M A) (k : A -> M B) :
  readonly c -> (forall a, readonly (k a)) -> readonly (c ≫= k).
Proof.
  intros Hc Hk m. rewrite bind_run. specialize (Hc m).
  destruct (c m) as [[a|e] m1]; cbn [snd] in Hc; subst m1; [apply Hk | reflexivity].
Qed.

Lemma readonly_getIconSettings : readonly getIconSettings.
Proof. exact getIconSettings_state. Qed.

Lemma readonly_getChildren (node : option dagnode) (recursive : bool) (ty : MFn) :
  readonly (getChildren node recursive ty).
Proof. intros m. destruct node; reflexivity. Qed.

Lemma readonly_getIconDirectory : readonly getIconDirectory.
Proof.
  unfold getIconDirectory.
  apply readonly_bind; [apply readonly_getIconSettings|intros settingsData].
  apply readonly_bind; [apply readonly_lift|intros outputPath].
  destruct outputPath; try apply readonly_ret;
    (apply readonly_bind; [apply readonly_gets | intros; apply readonly_ret]).
Qed.

Lemma readonly_getMeshesRecursive (node : option dagnode) :
  readonly (getMeshesRecursive node).
Proof.
  unfold getMeshesRecursive.
  apply readonly_bind; [apply readonly_getChildren | intros; apply readonly_ret].
Qed.

Lemma readonly_getMaterialsForMesh (mesh : dagnode) : readonly (getMaterialsForMesh mesh).
Proof.
  unfold getMaterialsForMesh.
  apply readonly_bind; [apply readonly_gets|intros net].
  destruct (negb _); apply readonly_ret.
Qed.

Lemma readonly_getMaterialsForMeshes (meshes : list dagnode) :
  readonly (getMaterialsForMeshes meshes).
Proof.
  induction meshes as [|mesh meshes IH]; cbn [getMaterialsForMeshes].
  - apply readonly_ret.
  - apply readonly_bind; [apply readonly_getMaterialsForMesh|intros [[mats uns]|]].
    + apply readonly_bind; [exact IH|intros [a b]; apply readonly_ret].
    + apply readonly_raise.
Qed.

Lemma getTexture_run (material : string) (m : maya) :
  getTexture material m =
  (Ok (if objExists (network m) material
       then head (colorFileNodes (network m) material) else None), m).
Proof.
  unfold getTexture. rewrite bind_run, gets_run.
  destruct (objExists (network m) material); reflexivity.
Qed.

Lemma getTexturesFromMaterials_run (materials : list string) (m : maya) :
  exists textures, getTexturesFromMaterials materials m = (Ok textures, m).
Proof.
  induction materials as [|mat materials [textures IH]]; cbn [getTexturesFromMaterials].
  - eexists. reflexivity.
  - rewrite bind_run, getTexture_run, bind_run, IH. eexists. reflexivity.
Qed.

Lemma getFilePathsFromTextures_run (textures : list string) (m : maya) :
  exists paths, getFilePathsFromTextures textures m = (Ok paths, m).
Proof. eexists. reflexivity. Qed.

(** *** Logs *)

Lemma appends_refl (P : cmd -> Prop) (m : maya) : appends P m m.
Proof. exists []. rewrite app_nil_r, set_issued_id. split; [reflexivity|constructor]. Qed.

Lemma appends_trans (P : cmd -> Prop) (m1 m2 m3 : maya) :
  appends P m1 m2 -> appends P m2 m3 -> appends P m1 m3.
Proof.
  intros (l1 & -> & H1) (l2 & -> & H2). exists (l1 ++ l2).
  cbn [issued set_issued]. rewrite app_assoc. split; [reflexivity|].
  apply Forall_app. split; assumption.
Qed.

Lemma appends_weaken (P Q : cmd -> Prop) (m m' : maya) :
  (forall c, P c -> Q c) -> appends P m m' -> appends Q m m'.
Proof.
  intros HPQ (l & -> & Hl). exists l. split; [reflexivity|].
  eapply Forall_impl; eauto.
Qed.

Lemma appending_readonly (P : cmd -> Prop) {A} (c : M A) : readonly c -> appending P c.
Proof. intros H m r m' E. rewrite (readonly_run _ _ _ _ H E). apply appends_refl. Qed.

Lemma appending_bind (P : cmd -> Prop) {A B} (c : M A) (k : A -> M B) :
  appending P c -> (forall a, appending P (k a)) -> appending P (c ≫= k).
Proof.
  intros Hc Hk m r m'. rewrite bind_run.
  destruct (c m) as [[a|e] m1] eqn:E; intros H.
  - eapply appends_trans; [eapply Hc; exact E | eapply Hk; exact H].
  - injection H as <- <-. eapply Hc. exact E.
Qed.

Lemma appending_issue (P : cmd -> Prop) (c : cmd) : P c -> appending P (issue c).
Proof.
  intros Hc m r m' E. injection E as <- <-. exists [c].
  split; [reflexivity | constructor; [exact Hc | constructor]].
Qed.

Lemma appending_external (P : cmd -> Prop) (s : stage) :
  P (External s) -> appending P (external s).
Proof.
  intros Hc m r m' E. unfold external in E. exists [External s].
  split; [|constructor; [exact Hc | constructor]].
  destruct (fails m s); injection E as <- <-; reflexivity.
Qed.

Lemma appending_for_each (P : cmd -> Prop) {X} (l : list X) (body : X -> M unit) :
  (forall x, appending P (body x)) -> appending P (for_each l body).
Proof.
  intros Hb. induction l as [|x l IH]; cbn [for_each].
  - apply appending_readonly, readonly_ret.
  - apply appending_bind; [apply Hb | intros _; exact IH].
Qed.

Lemma appending_weaken (P Q : cmd -> Prop) {A} (c : M A) :
  (forall x, P x -> Q x) -> appending P c -> appending Q c.
Proof. intros HPQ H m r m' E. eapply appends_weaken; [exact HPQ | eapply H; exact E]. Qed.

Lemma appending_mels (l : list mel) : appending is_mel (mels l).
Proof.
  unfold mels. apply appending_for_each. intros c. apply appending_issue. exact I.
Qed.

Lemma appending_split_take (take : json) : appending is_mel (split_take take).
Proof.
  unfold split_take.
  repeat (apply appending_bind; [apply appending_readonly, readonly_lift | intros ?]).
  apply appending_issue. exact I.
Qed.

(** [exportFBX] only evaluates MEL commands, however it ends. *)
Lemma appending_exportFBX (outputPath : string) (selectionOnly : bool) (takes : json) :
  appending is_mel (exportFBX outputPath selectionOnly takes).
Proof.
  unfold exportFBX.
  apply appending_bind; [apply appending_mels | intros _].
  apply appending_bind; [|intros _; apply appending_mels].
  destruct (truthy takes); [|apply appending_mels].
  repeat (apply appending_bind; [apply appending_readonly, readonly_lift | intros ?]).
  apply appending_bind; [apply appending_mels | intros _].
  apply appending_bind; [|intros _; apply appending_mels].
  apply appending_for_each. apply appending_split_take.
Qed.

Lemma manifests_app (a b : list cmd) : manifests (a ++ b) = manifests a ++ manifests b.
Proof.
  induction a as [|c a IH]; [reflexivity|].
  cbn [app manifests]. destruct c; cbn; rewrite ?IH; reflexivity.
Qed.

Lemma manifests_none (l : list cmd) : Forall not_manifest l -> manifests l = [].
Proof.
  induction 1 as [|c l Hc _ IH]; [reflexivity|].
  destruct c; cbn in *; try exact IH. contradiction.
Qed.

End FrameFacts.

(** ** The material manifest (C3) *)

Module Manifest.
Import Py Maya Core Utils Observe MonadFacts SettingsFacts FrameFacts.

Lemma unique_NoDup (materials : list string) : NoDup (unique materials).
Proof. unfold unique. apply NoDup_elements. Qed.

Lemma unique_elem (materials : list string) (x : string) :
  x ∈ unique materials <-> x ∈ materials.
Proof. unfold unique. rewrite elem_of_elements, elem_of_list_to_set. reflexivity. Qed.

(** Deduplication is idempotent. *)
Lemma unique_idempotent (materials : list string) :
  unique (unique materials) = unique materials.
Proof. unfold unique. rewrite list_to_set_elements_L. reflexivity. Qed.

Lemma unique_length (materials : list string) :
  (length (unique materials) <= length materials)%nat.
Proof.
  apply submseteq_length, NoDup_submseteq; [apply unique_NoDup|].
  intros x. apply unique_elem.
Qed.

(** The loop body: an entry named after the material, or nothing when the
    material has a file node without a path. *)
Lemma materialDefinition_run (iconDirectory componentType mat : string) (m : maya) :
  exists entry,
    materialDefinition iconDirectory componentType mat m = (Ok entry, m) /\
    match entry with
    | Some e => has_entry (network m) mat = true /\ getitem e "name" = Ok (JStr mat)
    | None => has_entry (network m) mat = false
    end.
Proof.
  unfold materialDefinition, has_entry.
  rewrite bind_run, getTexture_run.
  destruct (if objExists (network m) mat then head (colorFileNodes (network m) mat) else None)
    as [tex|].
  - unfold getFilePathFromTexture. rewrite bind_run, bind_run, gets_run. cbn [mret M_ret].
    destruct (String.eqb (fileTextureName (network m) tex) "") eqn:E.
    + eexists. split; [reflexivity|]. reflexivity.
    + eexists. split; [reflexivity|]. split; reflexivity.
  - rewrite bind_run, gets_run. destruct (colorRGB (network m) mat) as [[r g] b].
    eexists. split; [reflexivity|]. split; reflexivity.
Qed.

(** The entries of the manifest: one per material that is not skipped, in
    the order of the materials, each named after its material. *)
Lemma kmatMaterials_run (iconDirectory componentType : string) (materials : list string)
  (m : maya) :
  exists entries,
    kmatMaterials iconDirectory componentType materials m = (Ok entries, m) /\
    Forall2 (fun e mat => getitem e "name" = Ok (JStr mat)) entries
            (filter (fun mat => has_entry (network m) mat = true) materials).
Proof.
  induction materials as [|mat materials (entries & IH & Hn)]; cbn [kmatMaterials].
  - exists []. split; [reflexivity|constructor].
  - destruct (materialDefinition_run iconDirectory componentType mat m) as (entry & E & He).
    rewrite bind_run, E, bind_run, IH. cbn [mret M_ret].
    destruct entry as [e|].
    + destruct He as [Hh Hname]. exists (e :: entries). split; [reflexivity|].
      rewrite filter_cons_True by exact Hh. constructor; assumption.
    + exists entries. split; [reflexivity|].
      rewrite filter_cons_False by (rewrite He; discriminate). exact Hn.
Qed.

Lemma filter_all {A} (P : A -> Prop) `{forall x, Decision (P x)} (l : list A) :
  Forall P l -> filter P l = l.
Proof.
  induction 1 as [|x l Hx _ IH]; [reflexivity|].
  rewrite filter_cons_True by exact Hx. rewrite IH. reflexivity.
Qed.

Lemma component_node_run (componentType : string) (m : maya) :
  componentType = "Model" \/ componentType = "Portal" ->
  (if String.eqb componentType "Model" then
     n ← getModelComponentNode; mret (Some n)
   else if String.eqb componentType "Portal" then
     n ← getPortalComponentNode; mret (Some n)
   else mret None) m = (Ok (Some (component_node componentType m)), m).
Proof.
  unfold component_node, getModelComponentNode, getPortalComponentNode.
  intros [-> | ->]; cbn [String.eqb Ascii.eqb Bool.eqb]; rewrite bind_run, gets_run;
    reflexivity.
Qed.

(** C3, amended.  The manifest a component export writes has one entry per
    distinct supported material of the component's meshes, except the
    materials whose colour comes from a file node without a file path,
    which get none: the entries are named after pairwise distinct
    materials, there are at most as many as distinct materials, and exactly
    as many when no material is skipped. *)
Theorem manifest_entry_per_material (componentType : string) (m m' : maya) (v : json) :
  componentType = "Model" \/ componentType = "Portal" ->
  exportIconComponent componentType m = (Ok v, m') ->
  exists node meshes materials unsupported file entries,
    component_node componentType m = Some node /\
    getMeshesRecursive (Some node) m = (Ok meshes, m) /\
    getMaterialsForMeshes meshes m = (Ok (materials, unsupported), m) /\
    manifests (issued m') = manifests (issued m) ++ [(file, kmatData entries)] /\
    Forall2 (fun e mat => getitem e "name" = Ok (JStr mat)) entries
            (filter (fun mat => has_entry (network m) mat = true) (unique materials)) /\
    NoDup (filter (fun mat => has_entry (network m) mat = true) (unique materials)) /\
    (length entries <= length (unique materials))%nat /\
    (Forall (fun mat => has_entry (network m) mat = true) materials ->
     length entries = length (unique materials)).
Proof.
  intros Hct H. unfold exportIconComponent in H.
  apply bind_inv in H as (iconDirectory & m1 & E1 & H).
  pose proof (readonly_run _ _ _ _ readonly_getIconDirectory E1); subst m1.
  rewrite bind_run, gets_run in H.
  destruct iconDirectory as [iconDirectory|]; [|discriminate H].
  rewrite bind_run, (component_node_run _ _ Hct) in H.
  apply bind_inv in H as (meshes & m1 & E2 & H).
  pose proof (readonly_run _ _ _ _ (readonly_getMeshesRecursive _) E2); subst m1.
  apply bind_inv in H as ([materials unsupported] & m1 & E3 & H).
  pose proof (readonly_run _ _ _ _ (readonly_getMaterialsForMeshes _) E3); subst m1.
  destruct (getTexturesFromMaterials_run (unique materials) m) as (textures & E4).
  rewrite bind_run, E4 in H.
  apply bind_inv in H as (textureFilePaths & m1 & E5 & H).
  destruct (getFilePathsFromTextures_run textures m) as (paths & E5').
  rewrite E5' in E5. injection E5 as <- <-.
  apply bind_inv in H as ([] & m1 & E6 & H).
  assert (A6 : appends is_copy m m1).
  { revert E6. apply appending_for_each. intros x. apply appending_issue. exact I. }
  destruct A6 as (copies & -> & Hcopies).
  destruct (kmatMaterials_run iconDirectory componentType (unique materials)
              (set_issued (issued m ++ copies) m)) as (entries & E7 & Hnames).
  rewrite bind_run, E7 in H. rewrite bind_run in H. cbn [issue] in H.
  apply bind_inv in H as ([] & m2 & E8 & H).
  assert (A8 : appends not_manifest
                 (add_issued (WriteJson
                    (PosixPath.abspath (cwd m)
                       (PosixPath.join
                          (PosixPath.abspath (cwd m) (PosixPath.join iconDirectory componentType))
                          (componentType +:+ ".kmat")))
                    (kmatData entries)) (set_issued (issued m ++ copies) m)) m2).
  { revert E8. apply appending_external. exact I. }
  apply bind_inv in H as (settingsData & m3 & E9 & H).
  pose proof (readonly_run _ _ _ _ readonly_getIconSettings E9); subst m3.
  apply bind_inv in H as (animationTakes & m3 & E10 & H).
  rewrite lift_run in E10. injection E10 as E10 <-.
  apply bind_inv in H as ([] & m3 & E11 & H).
  injection H as _ <-.
  assert (A11 : appends not_manifest m2 m3).
  { eapply appends_weaken; [|eapply appending_exportFBX; exact E11].
    intros []; cbn; auto. }
  destruct (appends_trans _ _ _ _ A8 A11) as (rest & -> & Hrest).
  destruct (component_node componentType m) as [node|] eqn:En.
  2:{ unfold getMeshesRecursive in E2. rewrite bind_run in E2. cbn in E2.
      discriminate E2. }
  exists node, meshes, materials, unsupported. eexists. exists entries.
  split; [reflexivity|]. split; [exact E2|]. split; [exact E3|].
  cbn [network set_issued] in Hnames.
  split; [|split; [exact Hnames|split; [|split]]].
  - cbn [issued set_issued add_issued]. rewrite !manifests_app.
    rewrite (manifests_none copies), (manifests_none rest); [|exact Hrest|].
    + rewrite !app_nil_r. reflexivity.
    + eapply Forall_impl; [exact Hcopies|]. intros []; cbn; auto.
  - apply NoDup_filter, unique_NoDup.
  - rewrite (Forall2_length _ _ _ Hnames). apply length_filter.
  - intros Hall. rewrite (Forall2_length _ _ _ Hnames).
    f_equal. apply filter_all. apply Forall_forall. intros x Hx.
    apply (proj1 (unique_elem _ _)) in Hx. rewrite Forall_forall in Hall.
    apply Hall. exact Hx.
Qed.

(** C3, as stated, fails: in the Portal component of [unset_texture] one
    mesh references one supported material, [skyMat], and the manifest
    written has no entry. *)
Lemma manifest_skips_unset_texture :
  fst (getMaterialsForMeshes
         [Scenes.meshShape "|IconTemplate|Portal|InsidePortal_SkySphere|shape"]
         Scenes.unset_texture) = Ok (["skyMat"], []) /\
  length (unique ["skyMat"]) = 1%nat /\
  manifests (issued (snd (exportIconComponent "Portal" Scenes.unset_texture))) =
    [("/out/Icon/Portal/Portal.kmat", kmatData [])].
Proof. split; [|split]; vm_compute; reflexivity. Qed.

(** The amended C3 for the Model component of [animated]: two meshes share
    [lambert1], and the manifest has one entry. *)
Lemma manifest_entry_per_material_model :
  exists file entries,
    manifests (issued (snd (exportIconComponent "Model" Scenes.animated))) =
      [(file, kmatData entries)] /\
    length entries = 1%nat.
Proof.
  destruct (manifest_entry_per_material "Model" Scenes.animated
              (snd (exportIconComponent "Model" Scenes.animated)) (JBool true))
    as (node & meshes & mats & uns & file & entries & Hn & Hm & Hmat & Hman & _ & _ & _ & Heq).
  - left. reflexivity.
  - vm_compute. reflexivity.
  - exists file, entries. split; [exact Hman|].
    vm_compute in Hn. injection Hn as <-.
    vm_compute in Hm. injection Hm as <-.
    vm_compute in Hmat. injection Hmat as <- <-.
    rewrite Heq; [vm_compute; reflexivity|].
    repeat constructor.
Defined.

End Manifest.

(** ** The build orchestrator (C4) *)

Module Build.
Import Py Maya Core Utils Observe.

(** C4 fails on the code: when a command of the Portal export raises, the
    [with openTempScene] statement swallows the exception, [exportIcon]
    returns the [True] of the Model export, and [buildIcon] goes on to the
    validator and returns its verdict: the build reports success although
    the Portal component was not exported. *)
Theorem buildIcon_validates_failed_export :
  fst (buildIcon true false true Scenes.portal_fails) = Ok (JBool true) /\
  fbx_exported "Model" (issued (snd (buildIcon true false true Scenes.portal_fails))) = true /\
  fbx_exported "Portal" (issued (snd (buildIcon true false true Scenes.portal_fails))) = false /\
  validator_ran (issued (snd (buildIcon true false true Scenes.portal_fails))) = true.
Proof. repeat split; vm_compute; reflexivity. Qed.

(** The same when nothing at all was exported: [exportIcon] returns
    [False], and the validator still runs and decides the result. *)
Lemma buildIcon_validates_without_export :
  fst (exportIcon Scenes.nothing_exported) = Ok (JBool false) /\
  fst (buildIcon true false true Scenes.nothing_exported) = Ok (JBool true) /\
  fbx_exported "Model" (issued (snd (buildIcon true false true Scenes.nothing_exported))) = false /\
  validator_ran (issued (snd (buildIcon true false true Scenes.nothing_exported))) = true.
Proof. repeat split; vm_compute; reflexivity. Qed.

(** An exception that leaves [exportIcon] or [validateIcon] does make the
    build report failure. *)
Lemma buildIcon_catches (validate export cleanup : bool) (m : maya) :
  forall e m', buildIcon validate export cleanup m <> (Raise e, m').
Proof.
  intros e m'. unfold buildIcon, try_except.
  match goal with |- context [match ?c m with _ => _ end] => destruct (c m) as [[r|e'] m1] end;
    cbn; discriminate.
Qed.

End Build.

(** ** The bundle (C5) *)

Module Bundle.
Import Py Maya Core Utils Observe StringFacts MonadFacts SettingsFacts FrameFacts PosixPath.

Lemma split_last_no_slash (fn : string) :
  no_slash fn = true -> split_last fn = ("", fn).
Proof.
  induction fn as [|c fn IH]; [reflexivity|].
  unfold no_slash. cbn [string_forallb]. intros H.
  apply andb_prop in H as [Hc Hfn]. cbn [split_last]. rewrite (IH Hfn).
  destruct (is_slash c); [discriminate Hc | reflexivity].
Qed.

Lemma split_last_dir (a fn : string) :
  no_slash fn = true -> split_last (a +:+ "/" +:+ fn) = (a +:+ "/", fn).
Proof.
  intros Hfn. induction a as [|c a IH].
  - rewrite append_nil, append_cons, append_nil. cbn [split_last].
    rewrite (split_last_no_slash _ Hfn). reflexivity.
  - rewrite append_cons. cbn [split_last]. rewrite IH.
    destruct a; reflexivity.
Qed.

Lemma rstrip_slash_dir (a : string) :
  plain_dir a = true -> rstrip_slash (a +:+ "/") = a.
Proof.
  unfold plain_dir. induction a as [|c a IH]; [discriminate|]. intros H.
  rewrite append_cons. cbn [rstrip_slash]. destruct a as [|c' a].
  - cbn in H |- *. destruct (is_slash c); [discriminate H | reflexivity].
  - rewrite IH; [reflexivity|]. exact H.
Qed.

Lemma not_all_slashes (a b : string) :
  plain_dir a = true -> string_forallb is_slash (a +:+ b) = false.
Proof.
  unfold plain_dir. induction a as [|c a IH]; [discriminate|]. intros H.
  rewrite append_cons. cbn [string_forallb]. destruct a as [|c' a].
  - cbn in H. destruct (is_slash c); [discriminate H | reflexivity].
  - rewrite IH; [apply andb_false_r | exact H].
Qed.

Lemma join_plain (a fn : string) :
  plain_dir a = true -> no_slash fn = true -> join a fn = a +:+ "/" +:+ fn.
Proof.
  unfold plain_dir, join. intros Ha Hfn.
  apply andb_prop in Ha as [Hne Hend].
  assert (isabs fn = false) as ->.
  { destruct fn as [|c fn]; [reflexivity|]. unfold no_slash in Hfn. cbn in Hfn |- *.
    destruct (is_slash c); [discriminate Hfn | reflexivity]. }
  destruct (String.eqb a ""); [discriminate Hne|].
  destruct (ends_with_slash a); [discriminate Hend | reflexivity].
Qed.

(** The archive name of a file found in a directory: the name of the
    directory, then the name of the file. *)
Lemma archive_name (roots fn : string) :
  plain_dir roots = true -> no_slash fn = true ->
  _writeZip (join roots fn) = (join roots fn, join (basename roots) fn).
Proof.
  intros Hr Hfn. unfold _writeZip, basename, dirname.
  rewrite (join_plain _ _ Hr Hfn), (split_last_dir _ _ Hfn). cbn [fst snd].
  rewrite (not_all_slashes _ _ Hr), (rstrip_slash_dir _ Hr).
  assert (String.eqb (roots +:+ "/") "" = false) as ->.
  { destruct roots; reflexivity. }
  reflexivity.
Qed.

Lemma elem_of_concat {A} (ls : list (list A)) (x : A) :
  x ∈ concat ls <-> exists l, x ∈ l /\ l ∈ ls.
Proof.
  rewrite list_elem_of_In, in_concat. split.
  - intros (l & Hl & Hx). exists l. rewrite !list_elem_of_In. auto.
  - intros (l & Hx & Hl). exists l. rewrite <- !list_elem_of_In. auto.
Qed.

(** The files [_getGLBPaths] yields: those of the walk whose extension is
    in the list. *)
Lemma getGLBPaths_elem (path : string) (d : directory) (src : string) :
  src ∈ _getGLBPaths path d <->
  exists roots dirs files fn,
    (roots, dirs, files) ∈ walk path d /\ fn ∈ files /\
    snd (splitext fn) ∈ GLB_EXTENSIONS /\ src = join roots fn.
Proof.
  unfold _getGLBPaths. rewrite elem_of_concat. split.
  - intros (l & Hsrc & Hl). apply list_elem_of_fmap in Hl as ([[roots dirs] files] & -> & Hw).
    apply list_elem_of_fmap in Hsrc as (fn & -> & Hfn).
    apply list_elem_of_filter in Hfn as [Hext Hfn].
    exists roots, dirs, files, fn. repeat split; try assumption.
    unfold str_in in Hext. apply existsb_exists in Hext as (x & Hx & E).
    apply String.eqb_eq in E. subst x. apply list_elem_of_In. exact Hx.
  - intros (roots & dirs & files & fn & Hw & Hfn & Hext & ->).
    exists (map (fun fn => join roots fn)
              (filter (fun fn => str_in (snd (splitext fn)) GLB_EXTENSIONS = true) files)).
    split.
    + apply list_elem_of_fmap_2. apply list_elem_of_filter. split; [|exact Hfn].
      unfold str_in. apply existsb_exists. exists (snd (splitext fn)).
      split; [apply list_elem_of_In; exact Hext | apply String.eqb_refl].
    + apply (list_elem_of_fmap_2 (fun '(roots, dirs, files) =>
               map (fun fn => join roots fn)
                 (filter (fun fn => str_in (snd (splitext fn)) GLB_EXTENSIONS = true) files))
               _ (roots, dirs, files)). exact Hw.
Qed.

(** C5.  [createIconZip] writes one archive.  Its entries are exactly the
    files found by the walk of the icon directory whose extension is one of
    [.kmat], [.fbx], [.png], [.jpg]; a file found in a directory is entered
    under the name of that directory joined with its own name; and the
    directory [Model] with [a.kmat], [a.fbx], [tex.png], [notes.txt]
    contributes the first three. *)
Theorem createIconZip_entries :
  (forall (m : maya) (iconDirectory : string),
      getIconDirectory m = (Ok (Some iconDirectory), m) ->
      exists zipPath entries,
        createIconZip m = (Ok zipPath, add_issued (WriteZip zipPath entries) m) /\
        (forall src arc,
            (src, arc) ∈ entries <->
            exists roots dirs files fn,
              (roots, dirs, files) ∈ walk iconDirectory (iconFiles m) /\
              fn ∈ files /\
              snd (splitext fn) ∈ GLB_EXTENSIONS /\
              src = join roots fn /\
              arc = join (basename (dirname src)) (basename src))) /\
  (forall roots fn : string,
      plain_dir roots = true -> no_slash fn = true ->
      _writeZip (join roots fn) = (join roots fn, join (basename roots) fn)) /\
  archives (issued (snd (createIconZip Scenes.animated))) =
    [("/out/Icon.zip",
      [("/out/Icon/Model/a.kmat", "Model/a.kmat");
       ("/out/Icon/Model/a.fbx", "Model/a.fbx");
       ("/out/Icon/Model/tex.png", "Model/tex.png")])].
Proof.
  split; [|split].
  - intros m iconDirectory Hd. eexists. eexists. split.
    + unfold createIconZip. rewrite (bind_ok _ _ _ _ _ Hd).
      rewrite bind_run, gets_run, bind_run, gets_run, bind_run. cbn [issue].
      reflexivity.
    + intros src arc. rewrite list_elem_of_fmap. split.
      * intros (p & E & Hp). apply getGLBPaths_elem in Hp
          as (roots & dirs & files & fn & Hw & Hfn & Hext & ->).
        injection E as -> ->. exists roots, dirs, files, fn. repeat split; assumption.
      * intros (roots & dirs & files & fn & Hw & Hfn & Hext & -> & ->).
        exists (join roots fn). split; [reflexivity|].
        apply getGLBPaths_elem. exists roots, dirs, files, fn. repeat split; assumption.
  - apply archive_name.
  - vm_compute. reflexivity.
Qed.

(** The first two parts of C5 at the directory of the example. *)
Lemma createIconZip_entries_example :
  (("/out/Icon/Model/tex.png", "Model/tex.png") ∈
     map _writeZip (_getGLBPaths "/out/Icon" Scenes.exportedFiles)) /\
  _writeZip (join "/out/Icon/Model" "tex.png") = ("/out/Icon/Model/tex.png", "Model/tex.png").
Proof.
  destruct createIconZip_entries as (Hentries & Hname & _). split.
  - destruct (Hentries Scenes.animated "/out/Icon") as (zipPath & entries & Hrun & Hin).
    + vm_compute. reflexivity.
    + assert (entries = map _writeZip (_getGLBPaths "/out/Icon" Scenes.exportedFiles)) as <-.
      { vm_compute in Hrun. injection Hrun as _ Hrun. vm_compute. congruence. }
      apply Hin. exists "/out/Icon/Model", [], ["a.kmat"; "a.fbx"; "tex.png"; "notes.txt"], "tex.png".
      repeat split.
      * vm_compute. right. left.
      * right. right. left.
      * vm_compute. right. right. left.
  - apply (Hname "/out/Icon/Model" "tex.png"); reflexivity.
Defined.

End Bundle.

(** ** Reading the settings (C7) *)

Module Settings.
Import Py Maya Core Utils Observe MonadFacts SettingsFacts.

(** An empty or unparsable blob gives empty settings. *)
Lemma getIconSettings_unparsable (m : maya) (t : dagnode) (s : string) (e : exn) :
  template m = Some t ->
  iconSettings m = Some s ->
  Json.loads s = Raise e ->
  getIconSettings m = (Ok (JObj []), m).
Proof.
  intros Ht Hs Hl. rewrite (getIconSettings_template m t Ht), Hs, Hl. reflexivity.
Qed.

(** Without an Icon Template the outcome is that of building a function
    set from [None]: empty settings when that raises [ValueError], the
    exception otherwise. *)
Lemma getIconSettings_no_template (m : maya) :
  template m = None ->
  getIconSettings m =
  (if is_ValueError (nullObjectError m) then Ok (JObj []) else Raise (nullObjectError m), m).
Proof.
  intros Ht. unfold getIconSettings, getIconTemplateNode.
  rewrite bind_run, gets_run, Ht. unfold try_except. rewrite bind_run. cbn [attach].
  destruct (is_ValueError (nullObjectError m)); reflexivity.
Qed.

(** C7 on the code: with the [iconSettings] attribute missing from the Icon
    Template, [findPlug] raises [RuntimeError], which the [except
    ValueError] of [getIconSettings] lets through; [saveIconSettings], with
    its [except Exception], returns normally in the same scene. *)
Theorem getIconSettings_raises_without_attribute :
  getIconSettings Scenes.no_settings_attribute =
    (Raise RuntimeError, Scenes.no_settings_attribute) /\
  saveIconSettings (JObj []) Scenes.no_settings_attribute =
    (Ok tt, Scenes.no_settings_attribute) /\
  getIconSettings Scenes.fresh = (Ok (JObj []), Scenes.fresh) /\
  getIconSettings Scenes.garbled = (Ok (JObj []), Scenes.garbled).
Proof. repeat split; vm_compute; reflexivity. Qed.

End Settings.

(** ** The readiness check of the takes (C8) *)

Module Readiness.
Import Py Maya Constants Core Observe View.

(** C8 on the code: the take [idle], whose capacity is 2 frames, enabled
    over frames 1 to 3, has a span of 3 frames and passes [check], because
    [check] compares [endFrame - startFrame], without the [+ 1] of
    [clipSize], with the capacity. *)
Theorem check_accepts_one_frame_too_many :
  let data := clipWidgets ICON_ANIMATION_CLIPS 1 [("idle", (1, 3))] in
  (exists w, data !! 0%nat = Some w /\ clipName w = "idle" /\ clipEnabled w = true /\
             maxClipSize w = 2 /\ clipSize w = 3) /\
  check data Scenes.animated = (Ok true, Scenes.animated).
Proof.
  split.
  - eexists. split; [reflexivity|]. repeat split.
  - vm_compute. reflexivity.
Qed.

(** With the span one frame longer the take is refused. *)
Lemma check_refuses_two_frames_too_many :
  check (clipWidgets ICON_ANIMATION_CLIPS 1 [("idle", (1, 4))]) Scenes.animated =
  (Ok false, Scenes.animated).
Proof. vm_compute. reflexivity. Qed.

(** Each enabled take sets [checked] anew: a take that is refused does not
    show in the result when a later take passes. *)
Lemma check_forgets_earlier_take :
  check (clipWidgets ICON_ANIMATION_CLIPS 1 [("idle", (1, 9)); ("hover", (4, 10))])
        Scenes.animated =
  (Ok true, Scenes.animated).
Proof. vm_compute. reflexivity. Qed.

End Readiness.

(** ** The decoder builds dictionaries *)

Module DecoderFacts.
Import Py Json Observe.

Lemma well_formed_arr (l : list json) : well_formed (JArr l) <-> Forall well_formed l.
Proof.
  cbn [well_formed]. induction l as [|x l IH].
  - split; [constructor | exact (fun _ => I)].
  - rewrite Forall_cons, <- IH. reflexivity.
Qed.

Lemma well_formed_obj (d : list (string * json)) :
  well_formed (JObj d) <-> NoDup (map fst d) /\ Forall (fun kv => well_formed (snd kv)) d.
Proof.
  cbn [well_formed]. apply and_iff_compat_l. induction d as [|[k x] d IH].
  - split; [constructor | exact (fun _ => I)].
  - rewrite Forall_cons, <- IH. reflexivity.
Qed.

Lemma dict_set_keys (k : string) (v : json) (d : list (string * json)) :
  map fst (dict_set k v d) =
  if decide (k ∈ map fst d) then map fst d else map fst d ++ [k].
Proof.
  induction d as [|[k' v'] d IH]; [reflexivity|].
  cbn [dict_set map fst]. destruct (String.eqb_spec k k') as [->|Hne].
  - rewrite decide_True by left. reflexivity.
  - cbn [map fst]. rewrite IH. destruct (decide (k ∈ map fst d)).
    + rewrite decide_True by (right; assumption). reflexivity.
    + rewrite decide_False; [reflexivity|].
      intros H. apply elem_of_cons in H as [?|?]; contradiction.
Qed.

Lemma dict_set_well_formed (k : string) (v : json) (d : list (string * json)) :
  well_formed v -> well_formed (JObj d) -> well_formed (JObj (dict_set k v d)).
Proof.
  rewrite !well_formed_obj. intros Hv [Hnd Hall]. split.
  - rewrite dict_set_keys. destruct (decide (k ∈ map fst d)); [exact Hnd|].
    apply NoDup_app. split; [exact Hnd|]. split.
    + intros x Hx Hk. apply list_elem_of_singleton in Hk. subst x. contradiction.
    + apply NoDup_singleton.
  - clear Hnd. induction Hall as [|[k' v'] d Hx Hd IH]; cbn [dict_set].
    + constructor; [exact Hv | constructor].
    + destruct (String.eqb k k'); constructor; cbn [snd] in *; assumption.
Qed.

Lemma fold_dict_set_well_formed (pairs acc : list (string * json)) :
  Forall (fun kv => well_formed (snd kv)) pairs ->
  well_formed (JObj acc) ->
  well_formed (JObj (fold_left (fun acc kv => dict_set (fst kv) (snd kv) acc) pairs acc)).
Proof.
  intros H. revert acc. induction H as [|[k v] pairs Hv _ IH]; intros acc Hacc.
  - exact Hacc.
  - cbn [fold_left]. apply IH. apply dict_set_well_formed; assumption.
Qed.

Lemma parse_number_scalar (s : string) (v : json) (r : string) :
  parse_number s = Some (v, r) -> well_formed v.
Proof.
  unfold parse_number.
  destruct (match s with String c r0 => _ | EmptyString => _ end) as [neg s1].
  destruct (span_int s1) as [[|c ds] s2]; [discriminate|].
  destruct (span_frac s2) as [frac s3]. destruct (span_exp s3) as [ex s4].
  destruct (_ && _); intros H; injection H as <- _; exact I.
Qed.

Lemma parse_literal_scalar (s : string) (v : json) (r : string) :
  parse_literal s = Some (v, r) -> well_formed v.
Proof.
  unfold parse_literal.
  repeat match goal with
         | |- context [match strip_prefix ?p s with _ => _ end] =>
             destruct (strip_prefix p s);
               [intros H; injection H as <- _; exact I|]
         end.
  apply parse_number_scalar.
Qed.

(** Every value the decoder builds is well formed. *)
Lemma parse_well_formed (fuel : nat) :
  (forall s v r, parse_value fuel s = Some (v, r) -> well_formed v) /\
  (forall s l r, parse_elems fuel s = Some (l, r) -> Forall well_formed l) /\
  (forall s d r, parse_members fuel s = Some (d, r) ->
                 Forall (fun kv => well_formed (snd kv)) d).
Proof.
  induction fuel as [|fuel (IHv & IHe & IHm)].
  - repeat split; intros; discriminate.
  - repeat split.
    + intros s v r. cbn [parse_value]. destruct s as [|c s]; [discriminate|].
      destruct (Ascii.eqb c "034").
      { destruct (parse_string _ _) as [[t rest]|]; [|discriminate].
        intros H; injection H as <- _; exact I. }
      destruct (Ascii.eqb c "[").
      { destruct (starts_with _ _); [intros H; injection H as <- _; exact I|].
        destruct (parse_elems fuel _) as [[l rest]|] eqn:E; [|discriminate].
        intros H; injection H as <- _. apply well_formed_arr. eapply IHe; exact E. }
      destruct (Ascii.eqb c "{").
      { destruct (starts_with _ _).
        { intros H; injection H as <- _. apply well_formed_obj. split; constructor. }
        destruct (parse_members fuel _) as [[d rest]|] eqn:E; [|discriminate].
        intros H; injection H as <- _. apply fold_dict_set_well_formed.
        - eapply IHm; exact E.
        - apply well_formed_obj. split; constructor. }
      apply parse_literal_scalar.
    + intros s l r. cbn [parse_elems].
      destruct (parse_value fuel s) as [[v r1]|] eqn:Ev; [|discriminate].
      destruct (starts_with "]" _).
      { intros H; injection H as <- _. constructor; [eapply IHv; exact Ev | constructor]. }
      destruct (starts_with "," _); [|discriminate].
      destruct (parse_elems fuel _) as [[l' rest]|] eqn:E; [|discriminate].
      intros H; injection H as <- _. constructor; [eapply IHv; exact Ev | eapply IHe; exact E].
    + intros s d r. cbn [parse_members].
      destruct (starts_with "034" s); [|discriminate].
      destruct (parse_string _ _) as [[k r1]|]; [|discriminate].
      destruct (starts_with ":" _); [|discriminate].
      destruct (parse_value fuel _) as [[v r3]|] eqn:Ev; [|discriminate].
      destruct (starts_with "}" _).
      { intros H; injection H as <- _. constructor; [eapply IHv; exact Ev | constructor]. }
      destruct (starts_with "," _); [|discriminate].
      destruct (parse_members fuel _) as [[d' rest]|] eqn:E; [|discriminate].
      intros H; injection H as <- _. constructor; [eapply IHv; exact Ev | eapply IHm; exact E].
Qed.

Lemma loads_well_formed (s : string) (v : json) : loads s = Ok v -> well_formed v.
Proof.
  unfold loads. destruct (parse_value _ _) as [[v' r]|] eqn:E; [|discriminate].
  destruct (skip_ws r); [|discriminate]. intros H; injection H as <-.
  eapply (proj1 (parse_well_formed _)); exact E.
Qed.

End DecoderFacts.

(** ** The encoder and the decoder agree *)

Module EncoderFacts.
Import Py Json Observe Encoding StringFacts DecoderFacts.

(** *** Integers *)

Ltac digit :=
  match goal with
  | |- context [digit_val ?c] =>
      let v := eval vm_compute in (digit_val c) in change (digit_val c) with v
  end.

Lemma Z_of_digits_acc (u : Decimal.uint) (acc : positive) :
  Z_of_digits (Zpos acc) (NilEmpty.string_of_uint u) = Zpos (Pos.of_uint_acc u acc).
Proof.
  revert acc. induction u; intros acc;
    cbn [NilEmpty.string_of_uint Z_of_digits Pos.of_uint_acc];
    try reflexivity; rewrite <- IHu; f_equal; digit; lia.
Qed.

Lemma Z_of_digits_uint (u : Decimal.uint) :
  Z_of_digits 0 (NilEmpty.string_of_uint u) = Z.of_N (Pos.of_uint u).
Proof.
  induction u; cbn [NilEmpty.string_of_uint Z_of_digits Pos.of_uint];
    try reflexivity; digit; try exact IHu;
    cbn [Z.of_N]; rewrite <- Z_of_digits_acc; reflexivity.
Qed.

Lemma span_digits_closes (rest : string) : closes rest -> span_digits rest = ("", rest).
Proof.
  destruct rest as [|c r]; [reflexivity|]. intros [-> | [-> | ->]]; reflexivity.
Qed.

Lemma span_digits_uint (u : Decimal.uint) (rest : string) :
  closes rest ->
  span_digits (NilEmpty.string_of_uint u +:+ rest) = (NilEmpty.string_of_uint u, rest).
Proof.
  intros Hr. induction u; cbn [NilEmpty.string_of_uint];
    rewrite ?append_nil, ?append_cons; cbn [span_digits];
    [apply span_digits_closes; exact Hr | ..];
    (let c := eval vm_compute in (is_digit "0") in idtac);
    match goal with
    | |- context [is_digit ?c] =>
        let v := eval vm_compute in (is_digit c) in change (is_digit c) with v
    end; cbv iota; rewrite IHu; reflexivity.
Qed.

Lemma to_uint_nonzero_head (p : positive) : nonzero_head (Pos.to_uint p).
Proof.
  pose proof (DecimalPos.Unsigned.to_of (Pos.to_uint p)) as Hn.
  rewrite DecimalPos.Unsigned.of_to in Hn.
  change (N.to_uint (N.pos p)) with (Pos.to_uint p) in Hn.
  pose proof (DecimalPos.Unsigned.to_uint_nonnil p) as Hnil.
  pose proof (DecimalPos.Unsigned.to_uint_nonzero p) as Hz.
  destruct (Pos.to_uint p) as [|u| | | | | | | | |]; try exact I; [congruence|].
  rewrite unorm_D0 in Hn. unfold Decimal.unorm in Hn.
  destruct (Decimal.nzhead u) eqn:E.
  - injection Hn as Hu. subst u. exact (Hz eq_refl).
  - exfalso. rewrite <- E in Hn. symmetry in Hn. exact (nzhead_nonzero _ _ Hn).
  - discriminate Hn.
  - discriminate Hn.
  - discriminate Hn.
  - discriminate Hn.
  - discriminate Hn.
  - discriminate Hn.
  - discriminate Hn.
  - discriminate Hn.
  - discriminate Hn.
Qed.

Lemma span_closes (rest : string) :
  closes rest -> span_frac rest = ("", rest) /\ span_exp rest = ("", rest).
Proof.
  destruct rest as [|c r]; [split; reflexivity|]. intros [-> | [-> | ->]]; split; reflexivity.
Qed.

(** The decoder reads back the digits of a positive number. *)
Lemma parse_literal_uint (u : Decimal.uint) (rest : string) :
  nonzero_head u -> closes rest ->
  parse_literal (NilEmpty.string_of_uint u +:+ rest) =
  Some (JInt (Z.of_N (Pos.of_uint u)), rest).
Proof.
  intros Hu Hr. rewrite <- Z_of_digits_uint.
  destruct (span_closes rest Hr) as [Hf He].
  destruct u; try contradiction; cbn [NilEmpty.string_of_uint]; rewrite append_cons;
    cbv beta iota delta [parse_literal strip_prefix Ascii.eqb Bool.eqb parse_number span_int];
    cbn [span_digits];
    match goal with
    | |- context [is_digit ?c] =>
        let v := eval vm_compute in (is_digit c) in change (is_digit c) with v
    end; cbv iota; rewrite (span_digits_uint _ _ Hr); cbv beta iota;
    rewrite Hf, He; reflexivity.
Qed.

Lemma parse_literal_neg (u : Decimal.uint) (rest : string) :
  nonzero_head u -> closes rest ->
  parse_literal (String "-" (NilEmpty.string_of_uint u +:+ rest)) =
  Some (JInt (- Z.of_N (Pos.of_uint u)), rest).
Proof.
  intros Hu Hr. rewrite <- Z_of_digits_uint.
  destruct (span_closes rest Hr) as [Hf He].
  destruct u; try contradiction; cbn [NilEmpty.string_of_uint]; rewrite append_cons;
    cbv beta iota delta [parse_literal strip_prefix Ascii.eqb Bool.eqb parse_number span_int];
    cbn [span_digits];
    match goal with
    | |- context [is_digit ?c] =>
        let v := eval vm_compute in (is_digit c) in change (is_digit c) with v
    end; cbv iota; rewrite (span_digits_uint _ _ Hr); cbv beta iota;
    rewrite Hf, He; reflexivity.
Qed.

(** The decoder reads back an integer as the encoder writes it. *)
Lemma parse_literal_int (z : Z) (rest : string) :
  closes rest ->
  parse_literal (string_of_Z z +:+ rest) = Some (JInt z, rest).
Proof.
  intros Hr. unfold string_of_Z. destruct z as [|p|p]; cbn [Z.to_int NilZero.string_of_int].
  - destruct (span_closes rest Hr) as [Hf He].
    change (NilZero.string_of_uint (Decimal.D0 Decimal.Nil)) with "0".
    rewrite append_cons, append_nil.
    cbv beta iota delta [parse_literal strip_prefix Ascii.eqb Bool.eqb parse_number span_int].
    rewrite Hf, He. reflexivity.
  - pose proof (to_uint_nonzero_head p) as Hh.
    replace (NilZero.string_of_uint (Pos.to_uint p))
      with (NilEmpty.string_of_uint (Pos.to_uint p))
      by (destruct (Pos.to_uint p); try reflexivity; contradiction).
    rewrite (parse_literal_uint _ _ Hh Hr), DecimalPos.Unsigned.of_to. reflexivity.
  - pose proof (to_uint_nonzero_head p) as Hh.
    replace (NilZero.string_of_uint (Pos.to_uint p))
      with (NilEmpty.string_of_uint (Pos.to_uint p))
      by (destruct (Pos.to_uint p); try reflexivity; contradiction).
    rewrite append_cons.
    rewrite (parse_literal_neg _ _ Hh Hr), DecimalPos.Unsigned.of_to. reflexivity.
Qed.

(** *** Strings *)

Ltac char_case c :=
  let e := eval vm_compute in (escape_char c) in
  change (escape_char c) with e;
  rewrite ?append_cons, ?append_nil;
  cbn; rewrite ?append_cons, ?append_nil; reflexivity.

(** The decoder reads back one character as the encoder escapes it. *)
Lemma parse_string_char (c : ascii) (t : string) (f : nat) :
  parse_string (S f) (escape_char c +:+ t) =
  match parse_string f t with
  | Some (x, r) => Some (String c x, r)
  | None => None
  end.
Proof.
  destruct c as [[] [] [] [] [] [] [] []];
    match goal with |- context [escape_char ?c] => char_case c end.
Qed.

Lemma length_append (a b : string) :
  String.length (a +:+ b) = (String.length a + String.length b)%nat.
Proof. induction a as [|c a IH]; [reflexivity|]. rewrite append_cons. cbn. rewrite IH. reflexivity. Qed.

Lemma parse_string_escape (s rest : string) :
  forall f, (String.length s < f)%nat ->
            parse_string f (escape s +:+ String "034" rest) = Some (s, rest).
Proof.
  induction s as [|c s IH]; intros f Hf.
  - destruct f as [|f]; [lia|]. reflexivity.
  - destruct f as [|f]; [cbn in Hf; lia|]. cbn [escape].
    rewrite append_assoc, parse_string_char, IH by (cbn in Hf; lia). reflexivity.
Qed.

Lemma length_escape_char (c : ascii) : (1 <= String.length (escape_char c))%nat.
Proof. destruct c as [[] [] [] [] [] [] [] []]; vm_compute; lia. Qed.

Lemma length_escape (s : string) : (String.length s <= String.length (escape s))%nat.
Proof.
  induction s as [|c s IH]; [reflexivity|]. cbn [escape String.length].
  rewrite length_append. pose proof (length_escape_char c). lia.
Qed.

(** A string as the encoder writes it is read back by the decoder with the
    fuel [parse_value] gives it. *)
Lemma parse_string_quote (s rest : string) :
  parse_string (String.length (escape s +:+ String "034" rest))
               (escape s +:+ String "034" rest) = Some (s, rest).
Proof.
  apply parse_string_escape. rewrite length_append. cbn [String.length].
  pose proof (length_escape s). lia.
Qed.

(** *** Values *)

Lemma json_induction (P : json -> Prop) :
  P JNull -> (forall b, P (JBool b)) -> (forall z, P (JInt z)) ->
  (forall lit, P (JFloat lit)) -> (forall s, P (JStr s)) ->
  (forall l, Forall P l -> P (JArr l)) ->
  (forall d, Forall (fun kv => P (snd kv)) d -> P (JObj d)) ->
  forall v, P v.
Proof.
  intros Hnull Hbool Hint Hfloat Hstr Harr Hobj.
  fix IH 1. intros [| b | z | lit | s | l | d].
  - exact Hnull.
  - apply Hbool.
  - apply Hint.
  - apply Hfloat.
  - apply Hstr.
  - apply Harr. induction l as [|x l IHl]; constructor; [apply IH | exact IHl].
  - apply Hobj. induction d as [|[k x] d IHd]; constructor; [apply IH | exact IHd].
Qed.

Lemma dumps_arr (l : list json) : dumps (JArr l) = "[" +:+ dump_items l +:+ "]".
Proof.
  reflexivity.
Qed.

Lemma dumps_obj (d : list (string * json)) : dumps (JObj d) = "{" +:+ dump_members d +:+ "}".
Proof.
  reflexivity.
Qed.

Lemma float_free_arr (l : list json) : float_free (JArr l) <-> Forall float_free l.
Proof.
  cbn [float_free]. induction l as [|x l IH].
  - split; [constructor | exact (fun _ => I)].
  - rewrite Forall_cons, <- IH. reflexivity.
Qed.

Lemma float_free_obj (d : list (string * json)) :
  float_free (JObj d) <-> Forall (fun kv => float_free (snd kv)) d.
Proof.
  cbn [float_free]. induction d as [|[k x] d IH].
  - split; [constructor | exact (fun _ => I)].
  - rewrite Forall_cons, <- IH. reflexivity.
Qed.

Lemma size_arr (l : list json) : size (JArr l) = S (sizes l).
Proof.
  reflexivity.
Qed.

Lemma size_obj (d : list (string * json)) : size (JObj d) = S (sizes (map snd d)).
Proof.
  cbn [size]. f_equal. induction d as [|[k x] d IH]; [reflexivity|].
  change (sizes (map snd ((k, x) :: d))) with (S (size x + sizes (map snd d))).
  rewrite <- IH. reflexivity.
Qed.

Lemma value_head_append (a b : string) : value_head a -> value_head (a +:+ b).
Proof. destruct a as [|c a]; [contradiction|]. rewrite append_cons. exact id. Qed.

Lemma string_of_uint_head (u : Decimal.uint) :
  nonzero_head u -> value_head (NilEmpty.string_of_uint u).
Proof. destruct u; try contradiction; intros _; split; reflexivity. Qed.

(** What the encoder writes starts like a value. *)
Lemma dumps_head (v : json) : float_free v -> value_head (dumps v).
Proof.
  destruct v as [| [] | z | lit | s | l | d]; try (intros _; split; reflexivity).
  - intros _. unfold dumps, string_of_Z.
    destruct z as [|p|p]; cbn [Z.to_int NilZero.string_of_int].
    + split; reflexivity.
    + pose proof (to_uint_nonzero_head p) as Hh.
      replace (NilZero.string_of_uint (Pos.to_uint p))
        with (NilEmpty.string_of_uint (Pos.to_uint p))
        by (destruct (Pos.to_uint p); try reflexivity; contradiction).
      apply string_of_uint_head, Hh.
    + split; reflexivity.
  - contradiction.
Qed.

Lemma skip_ws_head (s : string) : value_head s -> skip_ws s = s.
Proof. destruct s as [|c s]; [contradiction|]. intros [Hw _]. cbn [skip_ws]. rewrite Hw. reflexivity. Qed.

Lemma starts_with_head (s : string) : value_head s -> starts_with "]" s = None.
Proof. destruct s as [|c s]; [contradiction|]. intros [_ Hb]. cbn [starts_with]. rewrite Hb. reflexivity. Qed.

Lemma arr_text (l : list json) (rest : string) :
  dumps (JArr l) +:+ rest = String "[" (dump_items l +:+ String "]" rest).
Proof. rewrite dumps_arr, !append_cons, !append_nil, append_assoc. reflexivity. Qed.

Lemma obj_text (d : list (string * json)) (rest : string) :
  dumps (JObj d) +:+ rest = String "{" (dump_members d +:+ String "}" rest).
Proof. rewrite dumps_obj, !append_cons, !append_nil, append_assoc. reflexivity. Qed.

Lemma quote_text (s rest : string) :
  quote s +:+ rest = String "034" (escape s +:+ String "034" rest).
Proof. unfold quote. rewrite append_cons, append_assoc. reflexivity. Qed.

Lemma closes_comma (s : string) : closes (String "," s).
Proof. left. reflexivity. Qed.

Lemma closes_bracket (s : string) : closes (String "]" s).
Proof. right. left. reflexivity. Qed.

Lemma closes_brace (s : string) : closes (String "}" s).
Proof. right. right. reflexivity. Qed.

Lemma dump_items_head (x : json) (l : list json) (rest : string) :
  float_free x -> value_head (dump_items (x :: l) +:+ rest).
Proof.
  intros Hx. apply value_head_append. destruct l; cbn [dump_items];
    [|apply value_head_append]; apply dumps_head, Hx.
Qed.

(** The elements of an array are read back, given that each of them is. *)
Lemma parse_elems_items (l : list json) :
  l <> [] -> Forall reads_back l -> Forall well_formed l -> Forall float_free l ->
  forall fuel rest,
    (sizes l <= fuel)%nat ->
    parse_elems fuel (dump_items l +:+ String "]" rest) = Some (l, rest).
Proof.
  intros Hne HP Hwf Hff. induction l as [|x l IH]; [congruence|]. clear Hne.
  apply Forall_cons in HP as [Px HP]. apply Forall_cons in Hwf as [Wx Hwf].
  apply Forall_cons in Hff as [Fx Hff].
  intros fuel rest Hfuel. change (sizes (x :: l)) with (S (size x + sizes l)) in Hfuel.
  destruct fuel as [|fuel]; [lia|]. cbn [parse_elems].
  destruct l as [|y l].
  - cbn [dump_items]. rewrite (Px Wx Fx) by (lia || apply closes_bracket). reflexivity.
  - change (dump_items (x :: y :: l)) with (dumps x +:+ ", " +:+ dump_items (y :: l)).
    rewrite !append_assoc, !append_cons, append_nil.
    rewrite (Px Wx Fx) by (lia || apply closes_comma).
    cbn [skip_ws is_ws Ascii.eqb Bool.eqb orb starts_with].
    rewrite skip_ws_head by (apply dump_items_head; apply Forall_cons in Hff as [Fy _]; exact Fy).
    rewrite IH; [reflexivity | discriminate | assumption .. | lia].
Qed.

Lemma dump_members_head (k : string) (x : json) (d : list (string * json)) (rest : string) :
  exists t, dump_members ((k, x) :: d) +:+ rest = String "034" t.
Proof.
  destruct d as [|[k' y] d]; cbn [dump_members]; rewrite !append_assoc, quote_text; eauto.
Qed.

(** The members of an object are read back, given that each value is. *)
Lemma parse_members_items (d : list (string * json)) :
  d <> [] ->
  Forall (fun kv => reads_back (snd kv)) d ->
  Forall (fun kv => well_formed (snd kv)) d ->
  Forall (fun kv => float_free (snd kv)) d ->
  forall fuel rest,
    (sizes (map snd d) <= fuel)%nat ->
    parse_members fuel (dump_members d +:+ String "}" rest) = Some (d, rest).
Proof.
  intros Hne HP Hwf Hff. induction d as [|[k x] d IH]; [congruence|]. clear Hne.
  apply Forall_cons in HP as [Px HP]. apply Forall_cons in Hwf as [Wx Hwf].
  apply Forall_cons in Hff as [Fx Hff]. cbn [snd] in Px, Wx, Fx.
  intros fuel rest Hfuel.
  change (sizes (map snd ((k, x) :: d))) with (S (size x + sizes (map snd d))) in Hfuel.
  destruct fuel as [|fuel]; [lia|]. cbn [parse_members].
  destruct d as [|[k' y] d].
  - cbn [dump_members]. rewrite !append_assoc, quote_text.
    cbn [starts_with Ascii.eqb Bool.eqb]. rewrite parse_string_quote.
    rewrite !append_cons, append_nil.
    cbn [skip_ws is_ws Ascii.eqb Bool.eqb orb starts_with].
    rewrite skip_ws_head by (apply value_head_append, dumps_head, Fx).
    rewrite (Px Wx Fx) by (lia || apply closes_brace). reflexivity.
  - change (dump_members ((k, x) :: (k', y) :: d))
      with (quote k +:+ ": " +:+ dumps x +:+ ", " +:+ dump_members ((k', y) :: d)).
    rewrite !append_assoc, quote_text.
    cbn [starts_with Ascii.eqb Bool.eqb]. rewrite parse_string_quote.
    rewrite !append_cons, !append_nil.
    cbn [skip_ws is_ws Ascii.eqb Bool.eqb orb starts_with].
    rewrite skip_ws_head by (apply value_head_append, dumps_head, Fx).
    rewrite (Px Wx Fx) by (lia || apply closes_comma).
    cbn [skip_ws is_ws Ascii.eqb Bool.eqb orb starts_with].
    destruct (dump_members_head k' y d (String "}" rest)) as [t Ht].
    rewrite Ht. cbn [skip_ws is_ws Ascii.eqb Bool.eqb orb]. rewrite <- Ht.
    rewrite IH; [reflexivity | discriminate | assumption .. | lia].
Qed.

Lemma dict_set_fresh (k : string) (v : json) (d : list (string * json)) :
  k ∉ map fst d -> dict_set k v d = d ++ [(k, v)].
Proof.
  induction d as [|[k' v'] d IH]; intros Hk; [reflexivity|].
  cbn [dict_set]. cbn [map fst] in Hk. apply not_elem_of_cons in Hk as [Hne Hk].
  destruct (String.eqb_spec k k') as [->|_]; [congruence|].
  rewrite (IH Hk). reflexivity.
Qed.

(** Building a dictionary from pairs with distinct keys keeps the pairs. *)
Lemma fold_dict_set_NoDup (d acc : list (string * json)) :
  NoDup (map fst (acc ++ d)) ->
  fold_left (fun acc kv => dict_set (fst kv) (snd kv) acc) d acc = acc ++ d.
Proof.
  revert acc. induction d as [|[k v] d IH]; intros acc Hnd.
  - rewrite app_nil_r. reflexivity.
  - cbn [fold_left fst snd]. rewrite dict_set_fresh.
    + rewrite IH; rewrite <- app_assoc; [reflexivity | exact Hnd].
    + rewrite map_app in Hnd. apply NoDup_app in Hnd as (_ & Hdis & _).
      intros Hin. apply (Hdis k Hin). left.
Qed.

Lemma int_text (z : Z) (rest : string) (f : nat) :
  parse_value (S f) (string_of_Z z +:+ rest) = parse_literal (string_of_Z z +:+ rest).
Proof.
  unfold string_of_Z. destruct z as [|p|p]; cbn [Z.to_int NilZero.string_of_int];
    try reflexivity.
  pose proof (to_uint_nonzero_head p) as Hh.
  destruct (Pos.to_uint p); try contradiction; reflexivity.
Qed.

(** The decoder reads back every value without floats as the encoder
    writes it, whatever follows it in the text. *)
Lemma dumps_reads_back (v : json) : reads_back v.
Proof.
  induction v as [| b | z | lit | s | l IH | d IH] using json_induction;
    intros Hwf Hff fuel rest Hfuel Hrest.
  - destruct fuel; [cbn in Hfuel; lia|]. reflexivity.
  - destruct fuel; [cbn in Hfuel; lia|]. destruct b; reflexivity.
  - destruct fuel; [cbn in Hfuel; lia|]. cbn [dumps].
    rewrite int_text. apply parse_literal_int, Hrest.
  - contradiction.
  - destruct fuel; [cbn in Hfuel; lia|]. cbn [dumps]. rewrite quote_text.
    cbn [parse_value Ascii.eqb Bool.eqb]. rewrite parse_string_quote. reflexivity.
  - rewrite size_arr in Hfuel. destruct fuel as [|fuel]; [lia|]. rewrite arr_text.
    cbn [parse_value Ascii.eqb Bool.eqb].
    destruct l as [|x l]; [reflexivity|].
    apply well_formed_arr in Hwf. apply float_free_arr in Hff.
    assert (Hh : value_head (dump_items (x :: l) +:+ String "]" rest)).
    { apply dump_items_head. apply Forall_cons in Hff as [Fx _]. exact Fx. }
    rewrite (skip_ws_head _ Hh), (starts_with_head _ Hh).
    rewrite parse_elems_items; [reflexivity | discriminate | assumption .. | lia].
  - rewrite size_obj in Hfuel. destruct fuel as [|fuel]; [lia|]. rewrite obj_text.
    cbn [parse_value Ascii.eqb Bool.eqb].
    destruct d as [|[k x] d]; [reflexivity|].
    apply well_formed_obj in Hwf as [Hnd Hwf]. apply float_free_obj in Hff.
    destruct (dump_members_head k x d (String "}" rest)) as [t Ht].
    rewrite Ht. cbn [skip_ws is_ws Ascii.eqb Bool.eqb orb starts_with]. rewrite <- Ht.
    rewrite parse_members_items; [| discriminate | assumption .. | lia].
    rewrite (fold_dict_set_NoDup _ []) by exact Hnd. reflexivity.
Qed.

Lemma append_empty (s : string) : s +:+ "" = s.
Proof. induction s as [|c s IH]; [reflexivity|]. rewrite append_cons, IH. reflexivity. Qed.

Lemma length_quote (s : string) : (2 <= String.length (quote s))%nat.
Proof. unfold quote. cbn [String.length]. rewrite length_append. cbn. lia. Qed.

Lemma length_int (z : Z) : (1 <= String.length (string_of_Z z))%nat.
Proof.
  unfold string_of_Z. destruct z as [|p|p]; cbn [Z.to_int NilZero.string_of_int String.length].
  - cbn. lia.
  - pose proof (to_uint_nonzero_head p) as Hh.
    destruct (Pos.to_uint p); try contradiction; cbn; lia.
  - lia.
Qed.

Lemma length_items (l : list json) :
  Forall (fun x => (size x <= 2 * String.length (dumps x))%nat) l ->
  (sizes l <= 2 * String.length (dump_items l) + 2)%nat.
Proof.
  induction 1 as [|x l Hx _ IH]; [cbn; lia|].
  change (sizes (x :: l)) with (S (size x + sizes l)).
  destruct l as [|y l].
  - cbn [dump_items sizes fold_right]. lia.
  - change (dump_items (x :: y :: l)) with (dumps x +:+ ", " +:+ dump_items (y :: l)).
    rewrite !length_append. cbn [String.length]. lia.
Qed.

Lemma length_members (d : list (string * json)) :
  Forall (fun kv => (size (snd kv) <= 2 * String.length (dumps (snd kv)))%nat) d ->
  (sizes (map snd d) <= 2 * String.length (dump_members d) + 2)%nat.
Proof.
  induction 1 as [|[k x] d Hx _ IH]; [cbn; lia|]. cbn [snd] in Hx.
  change (sizes (map snd ((k, x) :: d))) with (S (size x + sizes (map snd d))).
  destruct d as [|[k' y] d].
  - cbn [dump_members sizes fold_right map]. rewrite !length_append. lia.
  - change (dump_members ((k, x) :: (k', y) :: d))
      with (quote k +:+ ": " +:+ dumps x +:+ ", " +:+ dump_members ((k', y) :: d)).
    rewrite !length_append. cbn [String.length]. lia.
Qed.

(** The fuel [loads] takes from the length of the text is enough. *)
Lemma size_dumps (v : json) :
  float_free v -> (size v <= 2 * String.length (dumps v))%nat.
Proof.
  induction v as [| b | z | lit | s | l IH | d IH] using json_induction; intros Hff.
  - cbn. lia.
  - destruct b; cbn; lia.
  - cbn [size dumps]. pose proof (length_int z). lia.
  - contradiction.
  - cbn [size dumps]. pose proof (length_quote s). lia.
  - rewrite size_arr, dumps_arr, !length_append. cbn [String.length].
    apply float_free_arr in Hff.
    assert (H : Forall (fun x => (size x <= 2 * String.length (dumps x))%nat) l).
    { rewrite Forall_forall in IH, Hff |- *. intros x Hx. apply IH; auto. }
    pose proof (length_items l H). lia.
  - rewrite size_obj, dumps_obj, !length_append. cbn [String.length].
    apply float_free_obj in Hff.
    assert (H : Forall (fun kv => (size (snd kv) <= 2 * String.length (dumps (snd kv)))%nat) d).
    { rewrite Forall_forall in IH, Hff |- *. intros x Hx. apply IH; auto. }
    pose proof (length_members d H). lia.
Qed.

(** Decoding what the encoder wrote gives the value back. *)
Theorem loads_dumps (v : json) :
  well_formed v -> float_free v -> loads (dumps v) = Ok v.
Proof.
  intros Hwf Hff. unfold loads.
  rewrite (skip_ws_head (dumps v)) by (apply dumps_head, Hff).
  rewrite <- (append_empty (dumps v)) at 2.
  rewrite (dumps_reads_back v Hwf Hff); [reflexivity | | exact I].
  pose proof (size_dumps v Hff). lia.
Qed.

End EncoderFacts.

(** ** Updating a take (C9) *)

Module ClipData.
Import Py Maya Core Utils Observe Encoding MonadFacts SettingsFacts DecoderFacts EncoderFacts.

Lemma dict_lookup_elem (k : string) (v : json) (d : list (string * json)) :
  dict_lookup k d = Some v -> (k, v) ∈ d.
Proof.
  induction d as [|[k' v'] d IH]; [discriminate|]. cbn [dict_lookup].
  destruct (String.eqb_spec k k') as [->|_].
  - intros H; injection H as ->. left.
  - intros H. right. apply IH. exact H.
Qed.

Lemma dict_lookup_NoDup (k : string) (v : json) (d : list (string * json)) :
  NoDup (map fst d) -> (k, v) ∈ d -> dict_lookup k d = Some v.
Proof.
  induction d as [|[k' v'] d IH]; intros Hnd Hin.
  - inversion Hin.
  - cbn [map fst] in Hnd. apply NoDup_cons in Hnd as [Hk Hnd]. cbn [dict_lookup].
    apply elem_of_cons in Hin as [E|Hin].
    + injection E as -> ->. rewrite String.eqb_refl. reflexivity.
    + destruct (String.eqb_spec k k') as [->|_]; [|apply IH; assumption].
      exfalso. apply Hk. apply (list_elem_of_fmap_2 fst _ (k', v)). exact Hin.
Qed.

(** Writing to a key the value it has changes nothing. *)
Lemma dict_set_same (k : string) (v : json) (d : list (string * json)) :
  dict_lookup k d = Some v -> dict_set k v d = d.
Proof.
  induction d as [|[k' v'] d IH]; [discriminate|]. cbn [dict_lookup dict_set].
  destruct (String.eqb k k').
  - intros H; injection H as ->. reflexivity.
  - intros H. rewrite (IH H). reflexivity.
Qed.

(** The update loop over the items of the take itself leaves the take as
    it is, whatever the payload holds. *)
Lemma update_fields_same (payload items take : list (string * json)) :
  (forall k v, (k, v) ∈ items -> dict_lookup k take = Some v) ->
  update_fields (JObj payload) items take = Ok take.
Proof.
  induction items as [|[k v] items IH]; intros H; [reflexivity|].
  cbn [update_fields contains]. unfold mbind, result_bind.
  rewrite (dict_set_same k v take) by (apply H; left).
  assert (forall b : bool, (if b then take else take) = take) as -> by (intros []; reflexivity).
  apply IH. intros k' v' Hin. apply H. right. exact Hin.
Qed.

(** The take the search loop stops at is a dictionary of the list. *)
Lemma find_clip_at (payload : json) (takes : list json) :
  forall n i,
    find_clip payload takes n = Ok (Some i) ->
    exists fields, takes !! (i - n)%nat = Some (JObj fields) /\ (n <= i)%nat.
Proof.
  induction takes as [|clipData takes IH]; intros n i; [discriminate|].
  cbn [find_clip]. unfold mbind, result_bind.
  destruct (getitem clipData "name") as [name|] eqn:En; [|discriminate].
  destruct (getitem payload "name") as [name'|]; [|discriminate].
  destruct (py_eq name name').
  - intros H; injection H as <-. rewrite Nat.sub_diag.
    destruct clipData; try discriminate En. eexists. split; [reflexivity|lia].
  - intros H. apply IH in H as (fields & Hl & Hle). exists fields.
    split; [|lia]. replace (i - n)%nat with (S (i - S n)) by lia. exact Hl.
Qed.

Lemma well_formed_field (d : list (string * json)) (k : string) (v : json) :
  well_formed (JObj d) -> dict_lookup k d = Some v -> well_formed v.
Proof.
  intros Hd Hk. apply well_formed_obj in Hd as [_ Hall].
  rewrite Forall_forall in Hall. apply (Hall (k, v)), dict_lookup_elem, Hk.
Qed.

Lemma well_formed_item (l : list json) (i : nat) (v : json) :
  well_formed (JArr l) -> l !! i = Some v -> well_formed v.
Proof.
  intros Hl Hi. apply well_formed_arr in Hl. rewrite Forall_forall in Hl.
  apply Hl. apply list_elem_of_lookup. eauto.
Qed.

Lemma saveIconSettings_run (data : json) (m : maya) (t : dagnode) (s : string) :
  template m = Some t ->
  iconSettings m = Some s ->
  saveIconSettings data m = (Ok tt, set_iconSettings (Some (Json.dumps data)) m).
Proof.
  intros Ht Hs. unfold saveIconSettings, getIconTemplateNode.
  rewrite bind_run, gets_run, Ht. unfold try_except. rewrite bind_run. cbn [attach].
  unfold iconSettings_setString. rewrite Hs. reflexivity.
Qed.

Lemma getIconSettings_after_save (m : maya) (t : dagnode) (s : string) (v : json) :
  template m = Some t ->
  Json.loads s = Ok v ->
  getIconSettings (set_iconSettings (Some s) m) = (Ok v, set_iconSettings (Some s) m).
Proof.
  intros Ht Hl. rewrite (getIconSettings_template _ t) by exact Ht.
  cbn [iconSettings set_iconSettings]. rewrite Hl. reflexivity.
Qed.

(** C9.  When the stored settings have a take with the name of the payload
    and the payload is enabled, [updateClipData] saves the settings it has
    read, unchanged, whatever frames the payload holds; and the settings
    read after the update are the settings read before it (for settings
    without floats, as frames are integers). *)
Theorem updateClipData_keeps_frames (m : maya) (t : dagnode) (blob : string)
  (settings payload : list (string * json)) (takes : list json) (i : nat)
  (enabled : json) :
  template m = Some t ->
  iconSettings m = Some blob ->
  Json.loads blob = Ok (JObj settings) ->
  dict_lookup "animationTakes" settings = Some (JArr takes) ->
  find_clip (JObj payload) takes 0 = Ok (Some i) ->
  dict_lookup "enabled" payload = Some enabled ->
  truthy enabled = true ->
  updateClipData (JObj payload) m = saveIconSettings (JObj settings) m /\
  saveIconSettings (JObj settings) m =
    (Ok tt, set_iconSettings (Some (Json.dumps (JObj settings))) m) /\
  (float_free (JObj settings) ->
   forall m', updateClipData (JObj payload) m = (Ok tt, m') ->
              getIconSettings m' = (Ok (JObj settings), m')).
Proof.
  intros Ht Hb Hl Hk Hf He Htr.
  assert (Hsave := saveIconSettings_run (JObj settings) _ _ _ Ht Hb).
  assert (Hupdate : updateClipData (JObj payload) m = saveIconSettings (JObj settings) m).
  { unfold updateClipData.
    assert (truthy (JObj payload) = true) as ->
      by (destruct payload; [discriminate He | reflexivity]).
    cbn [negb].
    rewrite bind_run, (getIconSettings_template m t Ht), Hb, Hl.
    rewrite bind_run, lift_run. cbn [get]. rewrite Hk. cbn [from_option id].
    rewrite bind_run, lift_run. cbn [iter].
    rewrite bind_run, lift_run, Hf.
    rewrite bind_run, lift_run. cbn [getitem]. rewrite He, Htr. cbn [negb].
    destruct (find_clip_at _ _ _ _ Hf) as (take & Hi & _).
    rewrite Nat.sub_0_r in Hi. rewrite Hi.
    assert (Hwf : NoDup (map fst take)).
    { apply loads_well_formed in Hl.
      apply (well_formed_field _ _ _ Hl) in Hk.
      apply (well_formed_item _ _ _ Hk) in Hi.
      apply well_formed_obj in Hi as [Hnd _]. exact Hnd. }
    rewrite bind_run, lift_run.
    rewrite update_fields_same by (intros k v; apply dict_lookup_NoDup; exact Hwf).
    rewrite (list_insert_id _ _ _ Hi).
    rewrite bind_run, lift_run. cbn [setitem].
    rewrite (dict_set_same _ _ _ Hk). reflexivity. }
  split; [exact Hupdate|]. split; [exact Hsave|].
  intros Hff m' Hm'. rewrite Hupdate, Hsave in Hm'.
  assert (m' = set_iconSettings (Some (Json.dumps (JObj settings))) m) as -> by congruence.
  apply (getIconSettings_after_save _ t); [exact Ht|].
  apply loads_dumps; [|exact Hff]. apply loads_well_formed in Hl. exact Hl.
Qed.

(** In the scene with the takes [idle] and [hover], a payload that moves
    [hover] to frames 20..30 changes nothing in the store. *)
Lemma updateClipData_keeps_frames_hover :
  updateClipData
    (JObj [("name", JStr "hover"); ("enabled", JBool true);
           ("startFrame", JInt 20); ("endFrame", JInt 30)])
    Scenes.animated =
  (Ok tt, Scenes.animated).
Proof.
  destruct (updateClipData_keeps_frames Scenes.animated Scenes.iconTemplate
              Scenes.two_takes
              [("outputPath", JStr "/out");
               ("animationTakes",
                JArr [take_json {| name := "idle"; startFrame := 1; endFrame := 2 |};
                      take_json {| name := "hover"; startFrame := 4; endFrame := 10 |}])]
              [("name", JStr "hover"); ("enabled", JBool true);
               ("startFrame", JInt 20); ("endFrame", JInt 30)]
              [take_json {| name := "idle"; startFrame := 1; endFrame := 2 |};
               take_json {| name := "hover"; startFrame := 4; endFrame := 10 |}]
              1%nat (JBool true)) as (-> & -> & _);
    reflexivity.
Defined.

End ClipData.

(** ** Transform baking (the commands of C6) *)

Module TransformBaking.
Import Py Maya Core Utils Observe MonadFacts SettingsFacts BakeFacts.

Lemma bake_transform_run (transform : dagnode) (m : maya) :
  (if hasFn transform kJoint then mret tt
   else if match getMeshes transform with [] => false | _ => true end then mret tt
   else
     let nodePath := getNodePath transform in
     let children := children_of false kTransform transform in
     issue (ParentToWorld (map getNodePath children)) ;;
     issue (MakeIdentity nodePath) ;;
     issue (ParentTo (map getNodePath children) nodePath)) m =
  (Ok tt, set_issued (issued m ++ bake_commands transform) m).
Proof.
  unfold bake_commands. destruct (hasFn transform kJoint).
  - cbn. rewrite app_nil_r, set_issued_id. reflexivity.
  - destruct (match getMeshes transform with [] => false | _ => true end).
    + cbn. rewrite app_nil_r, set_issued_id. reflexivity.
    + cbv zeta. repeat (rewrite bind_run; cbn [issue]). unfold issue, add_issued.
      cbn [issued set_issued]. rewrite <- !app_assoc. reflexivity.
Qed.

(** In a scene with an Icon Template, [bakeTransforms] sends, for every
    transform below the template that is neither a joint nor carries a
    mesh, and in the order of the traversal: its transform children to the
    world, the freeze of the node, the same children back under it. *)
Lemma bakeTransforms_commands (m : maya) (t : dagnode) :
  template m = Some t ->
  bakeTransforms m =
  (Ok tt, set_issued
            (issued m ++ concat (map bake_commands (children_of true kTransform t))) m).
Proof.
  intros Ht. unfold bakeTransforms, getIconTemplateNode.
  rewrite bind_run, gets_run, Ht, bind_run, getChildren_some.
  generalize (children_of true kTransform t) as transforms. intros transforms. revert m Ht.
  induction transforms as [|transform transforms IH]; intros m Ht.
  - cbn. rewrite app_nil_r, set_issued_id. reflexivity.
  - cbn [for_each]. rewrite bind_run, bake_transform_run.
    rewrite IH by exact Ht. cbn [issued set_issued map concat].
    rewrite <- app_assoc. reflexivity.
Qed.

End TransformBaking.

(** ** The settings store *)

Module SettingsStore.
Import Py Maya Core Utils Observe Encoding MonadFacts SettingsFacts DecoderFacts
  EncoderFacts ClipData.

Lemma dict_lookup_set (k k' : string) (v : json) (d : list (string * json)) :
  dict_lookup k (dict_set k' v d) = if String.eqb k k' then Some v else dict_lookup k d.
Proof.
  induction d as [|[k0 v0] d IH]; cbn [dict_set dict_lookup].
  - destruct (String.eqb k k'); reflexivity.
  - destruct (String.eqb_spec k' k0) as [->|Hne]; cbn [dict_lookup].
    + destruct (String.eqb k k0); reflexivity.
    + rewrite IH. destruct (String.eqb_spec k k0) as [->|_]; [|reflexivity].
      destruct (String.eqb_spec k0 k') as [E|_]; [congruence | reflexivity].
Qed.

Lemma float_free_dict_set (k : string) (v : json) (d : list (string * json)) :
  float_free v -> float_free (JObj d) -> float_free (JObj (dict_set k v d)).
Proof.
  rewrite !float_free_obj. intros Hv Hd.
  induction d as [|[k0 v0] d IH]; cbn [dict_set].
  - repeat constructor. exact Hv.
  - apply Forall_cons in Hd as [H0 Hd]. destruct (String.eqb k k0).
    + constructor; [exact Hv | exact Hd].
    + constructor; [exact H0 | apply IH, Hd].
Qed.

Lemma iconTemplateExists_run (m : maya) (t : dagnode) :
  template m = Some t -> iconTemplateExists m = (Ok true, m).
Proof. intros Ht. unfold iconTemplateExists. rewrite gets_run, Ht. reflexivity. Qed.

(** What [saveOutputPath] and [saveSDKPath] do to settings that are an
    object: the key is set and the object is written back. *)
Lemma save_key_run (key : string) (m : maya) (t : dagnode) (blob : string)
  (settings : list (string * json)) (value : json) :
  template m = Some t ->
  iconSettings m = Some blob ->
  Json.loads blob = Ok (JObj settings) ->
  (exists_ ← iconTemplateExists;
   if negb exists_ then mret tt
   else
     settingsData ← getIconSettings;
     settingsData ← lift (setitem settingsData key value);
     saveIconSettings settingsData) m =
  (Ok tt, set_iconSettings (Some (Json.dumps (JObj (dict_set key value settings)))) m).
Proof.
  intros Ht Hb Hl.
  rewrite bind_run, (iconTemplateExists_run m t Ht). cbn [negb].
  rewrite bind_run, (getIconSettings_template m t Ht), Hb, Hl.
  rewrite bind_run, lift_run. cbn [setitem].
  apply (saveIconSettings_run _ m t blob Ht Hb).
Qed.

Lemma stored_settings (m : maya) (t : dagnode) (v : json) :
  template m = Some t -> well_formed v -> float_free v ->
  getIconSettings (set_iconSettings (Some (Json.dumps v)) m) =
  (Ok v, set_iconSettings (Some (Json.dumps v)) m).
Proof.
  intros Ht Hwf Hff. apply (getIconSettings_after_save _ t); [exact Ht|].
  apply loads_dumps; assumption.
Qed.

(** X1.  What [saveIconSettings] writes, [getIconSettings] reads back: in
    a scene with an Icon Template that has the [iconSettings] attribute,
    saving a value and reading the settings gives the value (for values
    without floats). *)
Theorem settings_round_trip (m : maya) (t : dagnode) (s : string) (data : json) :
  template m = Some t ->
  iconSettings m = Some s ->
  well_formed data ->
  float_free data ->
  (saveIconSettings data ;; getIconSettings) m =
  (Ok data, set_iconSettings (Some (Json.dumps data)) m).
Proof.
  intros Ht Hs Hwf Hff.
  rewrite bind_run, (saveIconSettings_run data m t s Ht Hs).
  apply (stored_settings m t data Ht Hwf Hff).
Qed.

Lemma settings_round_trip_animated :
  (saveIconSettings (JObj [("outputPath", JStr "/tmp/icon"); ("animationTakes", JArr [])]) ;;
   getIconSettings) Scenes.animated =
  (Ok (JObj [("outputPath", JStr "/tmp/icon"); ("animationTakes", JArr [])]),
   set_iconSettings
     (Some (with_quotes "{'outputPath': '/tmp/icon', 'animationTakes': []}"))
     Scenes.animated).
Proof.
  apply (settings_round_trip Scenes.animated Scenes.iconTemplate Scenes.two_takes).
  - reflexivity.
  - reflexivity.
  - cbn. repeat split. apply (bool_decide_unpack _). vm_compute. exact I.
  - cbn. repeat split.
Defined.

(** X2.  Once the Icon Template is found, [saveIconSettings] returns
    normally whether or not the node has the [iconSettings] attribute:
    with the attribute it puts the dumped value in the plug and changes
    nothing else; without it the error of [findPlug] is caught and nothing
    changes, in the very session in which [getIconSettings] raises. *)
Theorem saveIconSettings_swallows (data : json) (m : maya) (t : dagnode) :
  template m = Some t ->
  exists m',
    saveIconSettings data m = (Ok tt, m') /\
    (forall s, iconSettings m = Some s ->
               m' = set_iconSettings (Some (Json.dumps data)) m) /\
    (iconSettings m = None ->
     m' = m /\ getIconSettings m = (Raise RuntimeError, m)).
Proof.
  intros Ht. unfold saveIconSettings, getIconTemplateNode.
  rewrite bind_run, gets_run, Ht. unfold try_except. rewrite bind_run.
  cbn [attach any_Exception]. unfold iconSettings_setString.
  destruct (iconSettings m) as [s|] eqn:Hs.
  - eexists. split; [reflexivity|]. split; [reflexivity | discriminate].
  - exists m. split; [reflexivity|]. split; [discriminate|].
    intros _. split; [reflexivity|].
    rewrite (getIconSettings_template m t Ht), Hs. reflexivity.
Qed.

Lemma saveIconSettings_swallows_no_attribute :
  exists m',
    saveIconSettings (JObj [("outputPath", JStr "/out")]) Scenes.no_settings_attribute =
      (Ok tt, m') /\
    (forall s, iconSettings Scenes.no_settings_attribute = Some s ->
               m' = set_iconSettings
                      (Some (Json.dumps (JObj [("outputPath", JStr "/out")])))
                      Scenes.no_settings_attribute) /\
    (iconSettings Scenes.no_settings_attribute = None ->
     m' = Scenes.no_settings_attribute /\
     getIconSettings Scenes.no_settings_attribute =
       (Raise RuntimeError, Scenes.no_settings_attribute)).
Proof.
  apply (saveIconSettings_swallows _ Scenes.no_settings_attribute Scenes.iconTemplate).
  reflexivity.
Defined.

(** X3.  [saveOutputPath] sets the key [outputPath] of the stored settings
    and keeps every other key: when the plug holds a JSON object, the
    settings read after the call have the value under [outputPath] and, under
    every other key, what they had before. *)
Theorem saveOutputPath_stored (m : maya) (t : dagnode) (blob : string)
  (settings : list (string * json)) (value : json) :
  template m = Some t ->
  iconSettings m = Some blob ->
  Json.loads blob = Ok (JObj settings) ->
  float_free (JObj settings) ->
  well_formed value ->
  float_free value ->
  exists m' settings',
    saveOutputPath value m = (Ok tt, m') /\
    m' = set_iconSettings (Some (Json.dumps (JObj settings'))) m /\
    getIconSettings m' = (Ok (JObj settings'), m') /\
    dict_lookup "outputPath" settings' = Some value /\
    (forall k, k <> "outputPath" -> dict_lookup k settings' = dict_lookup k settings).
Proof.
  intros Ht Hb Hl Hff Hwv Hfv.
  exists (set_iconSettings
            (Some (Json.dumps (JObj (dict_set "outputPath" value settings)))) m),
         (dict_set "outputPath" value settings).
  split; [apply (save_key_run "outputPath" m t blob settings value Ht Hb Hl)|].
  split; [reflexivity|]. split.
  - apply (stored_settings m t _ Ht).
    + apply dict_set_well_formed; [exact Hwv|]. apply loads_well_formed in Hl. exact Hl.
    + apply float_free_dict_set; assumption.
  - split.
    + rewrite dict_lookup_set, String.eqb_refl. reflexivity.
    + intros k Hk. rewrite dict_lookup_set.
      destruct (String.eqb_spec k "outputPath") as [E|_]; [contradiction | reflexivity].
Qed.

Lemma saveOutputPath_stored_animated :
  exists m' settings',
    saveOutputPath (JStr "/exports") Scenes.animated = (Ok tt, m') /\
    m' = set_iconSettings (Some (Json.dumps (JObj settings'))) Scenes.animated /\
    getIconSettings m' = (Ok (JObj settings'), m') /\
    dict_lookup "outputPath" settings' = Some (JStr "/exports") /\
    (forall k, k <> "outputPath" ->
               dict_lookup k settings' =
               dict_lookup k
                 [("outputPath", JStr "/out");
                  ("animationTakes",
                   JArr [take_json {| name := "idle"; startFrame := 1; endFrame := 2 |};
                         take_json {| name := "hover"; startFrame := 4; endFrame := 10 |}])]).
Proof.
  apply (saveOutputPath_stored Scenes.animated Scenes.iconTemplate Scenes.two_takes).
  - reflexivity.
  - reflexivity.
  - vm_compute. reflexivity.
  - cbn. repeat split.
  - exact I.
  - exact I.
Defined.

(** X4.  On a plug whose text is not JSON (the empty text of a new
    template, or anything [json.loads] refuses) [saveOutputPath] starts the
    settings anew: afterwards they hold [outputPath] and nothing else. *)
Theorem saveOutputPath_starts_settings (m : maya) (t : dagnode) (blob : string)
  (e : exn) (value : json) :
  template m = Some t ->
  iconSettings m = Some blob ->
  Json.loads blob = Raise e ->
  well_formed value ->
  float_free value ->
  exists m',
    saveOutputPath value m = (Ok tt, m') /\
    m' = set_iconSettings (Some (Json.dumps (JObj [("outputPath", value)]))) m /\
    getIconSettings m' = (Ok (JObj [("outputPath", value)]), m').
Proof.
  intros Ht Hb Hl Hwv Hfv. eexists. split; [|split; [reflexivity|]].
  - unfold saveOutputPath.
    rewrite bind_run, (iconTemplateExists_run m t Ht). cbn [negb].
    rewrite bind_run, (getIconSettings_template m t Ht), Hb, Hl.
    rewrite bind_run, lift_run. cbn [setitem dict_set].
    apply (saveIconSettings_run _ m t blob Ht Hb).
  - apply (stored_settings m t _ Ht).
    + apply well_formed_obj. split.
      * cbn. apply NoDup_singleton.
      * repeat constructor. exact Hwv.
    + apply float_free_obj. repeat constructor. exact Hfv.
Qed.

Lemma saveOutputPath_starts_settings_fresh :
  exists m',
    saveOutputPath (JStr "/exports") Scenes.fresh = (Ok tt, m') /\
    m' = set_iconSettings (Some (with_quotes "{'outputPath': '/exports'}")) Scenes.fresh /\
    getIconSettings m' = (Ok (JObj [("outputPath", JStr "/exports")]), m').
Proof.
  apply (saveOutputPath_starts_settings Scenes.fresh Scenes.iconTemplate "" ValueError).
  - reflexivity.
  - reflexivity.
  - reflexivity.
  - exact I.
  - exact I.
Defined.

(** X5.  The two paths of the settings are kept side by side:
    [saveOutputPath] and [saveSDKPath], called one after the other in either
    order, leave settings that hold both values and agree on every key. *)
Theorem output_and_sdk_paths (m : maya) (t : dagnode) (blob : string)
  (settings : list (string * json)) (outputPath sdkPath : json) :
  template m = Some t ->
  iconSettings m = Some blob ->
  Json.loads blob = Ok (JObj settings) ->
  float_free (JObj settings) ->
  well_formed outputPath -> float_free outputPath ->
  well_formed sdkPath -> float_free sdkPath ->
  exists m1 s1 m2 s2,
    (saveOutputPath outputPath ;; saveSDKPath sdkPath) m = (Ok tt, m1) /\
    getIconSettings m1 = (Ok (JObj s1), m1) /\
    (saveSDKPath sdkPath ;; saveOutputPath outputPath) m = (Ok tt, m2) /\
    getIconSettings m2 = (Ok (JObj s2), m2) /\
    dict_lookup "outputPath" s1 = Some outputPath /\
    dict_lookup "sdkPath" s1 = Some sdkPath /\
    (forall k, dict_lookup k s1 = dict_lookup k s2) /\
    (forall k, k <> "outputPath" -> k <> "sdkPath" ->
               dict_lookup k s1 = dict_lookup k settings).
Proof.
  intros Ht Hb Hl Hff Hwo Hfo Hws Hfs.
  assert (Hwf : well_formed (JObj settings)) by (apply loads_well_formed in Hl; exact Hl).
  assert (Hstep : forall key key' v v',
             well_formed v -> float_free v -> well_formed v' -> float_free v' ->
             ((exists_ ← iconTemplateExists;
               if negb exists_ then mret tt
               else
                 settingsData ← getIconSettings;
                 settingsData ← lift (setitem settingsData key v);
                 saveIconSettings settingsData) ;;
              (exists_ ← iconTemplateExists;
               if negb exists_ then mret tt
               else
                 settingsData ← getIconSettings;
                 settingsData ← lift (setitem settingsData key' v');
                 saveIconSettings settingsData)) m =
             (Ok tt,
              set_iconSettings
                (Some (Json.dumps (JObj (dict_set key' v' (dict_set key v settings))))) m)).
  { intros key key' v v' Hwv Hfv Hwv' Hfv'.
    rewrite bind_run, (save_key_run key m t blob settings v Ht Hb Hl).
    rewrite (save_key_run key' _ t (Json.dumps (JObj (dict_set key v settings)))
               (dict_set key v settings) v'); [reflexivity | exact Ht | reflexivity |].
    apply loads_dumps; [apply dict_set_well_formed | apply float_free_dict_set]; assumption. }
  exists (set_iconSettings
            (Some (Json.dumps (JObj (dict_set "sdkPath" sdkPath
                                       (dict_set "outputPath" outputPath settings))))) m),
         (dict_set "sdkPath" sdkPath (dict_set "outputPath" outputPath settings)),
         (set_iconSettings
            (Some (Json.dumps (JObj (dict_set "outputPath" outputPath
                                       (dict_set "sdkPath" sdkPath settings))))) m),
         (dict_set "outputPath" outputPath (dict_set "sdkPath" sdkPath settings)).
  split; [apply Hstep; assumption|]. split.
  { apply (stored_settings m t _ Ht);
      [repeat apply dict_set_well_formed | repeat apply float_free_dict_set]; assumption. }
  split; [apply Hstep; assumption|]. split.
  { apply (stored_settings m t _ Ht);
      [repeat apply dict_set_well_formed | repeat apply float_free_dict_set]; assumption. }
  split; [rewrite !dict_lookup_set; reflexivity|].
  split; [rewrite !dict_lookup_set; reflexivity|]. split.
  - intros k. rewrite !dict_lookup_set.
    destruct (String.eqb_spec k "sdkPath") as [->|_]; [reflexivity|].
    destruct (String.eqb k "outputPath"); reflexivity.
  - intros k Ho Hs. rewrite !dict_lookup_set.
    destruct (String.eqb_spec k "sdkPath") as [E|_]; [contradiction|].
    destruct (String.eqb_spec k "outputPath") as [E|_]; [contradiction | reflexivity].
Qed.

Lemma output_and_sdk_paths_animated :
  exists m1 s1 m2 s2,
    (saveOutputPath (JStr "/exports") ;; saveSDKPath (JStr "/mlsdk/v0.24"))
      Scenes.animated = (Ok tt, m1) /\
    getIconSettings m1 = (Ok (JObj s1), m1) /\
    (saveSDKPath (JStr "/mlsdk/v0.24") ;; saveOutputPath (JStr "/exports"))
      Scenes.animated = (Ok tt, m2) /\
    getIconSettings m2 = (Ok (JObj s2), m2) /\
    dict_lookup "outputPath" s1 = Some (JStr "/exports") /\
    dict_lookup "sdkPath" s1 = Some (JStr "/mlsdk/v0.24") /\
    (forall k, dict_lookup k s1 = dict_lookup k s2) /\
    (forall k, k <> "outputPath" -> k <> "sdkPath" ->
               dict_lookup k s1 =
               dict_lookup k
                 [("outputPath", JStr "/out");
                  ("animationTakes",
                   JArr [take_json {| name := "idle"; startFrame := 1; endFrame := 2 |};
                         take_json {| name := "hover"; startFrame := 4; endFrame := 10 |}])]).
Proof.
  apply (output_and_sdk_paths Scenes.animated Scenes.iconTemplate Scenes.two_takes).
  - reflexivity.
  - reflexivity.
  - vm_compute. reflexivity.
  - cbn. repeat split.
  - exact I.
  - exact I.
  - exact I.
  - exact I.
Defined.

End SettingsStore.

(** ** The icon directory and the validator *)

Module PathFacts.
Import Py PosixPath Observe Notions StringFacts Bundle.

Lemma split_slash_cons (s : string) : exists h t, split_slash s = h :: t.
Proof.
  induction s as [|c s (h & t & IH)]; [exists "", []; reflexivity|].
  cbn [split_slash]. rewrite IH. destruct (is_slash c); eauto.
Qed.

Lemma split_slash_app (a b : string) :
  split_slash (a +:+ "/" +:+ b) = split_slash a ++ split_slash b.
Proof.
  induction a as [|c a IH].
  - rewrite append_nil, append_cons, append_nil. cbn [split_slash].
    destruct (split_slash_cons b) as (h & t & ->). reflexivity.
  - rewrite append_cons. cbn [split_slash]. rewrite IH.
    destruct (split_slash_cons a) as (h & t & ->). cbn [app].
    destruct (is_slash c); reflexivity.
Qed.

Lemma split_slash_name (c : string) : no_slash c = true -> split_slash c = [c].
Proof.
  unfold no_slash. induction c as [|x c IH]; [reflexivity|].
  cbn [string_forallb split_slash]. intros H. apply andb_prop in H as [Hx Hc].
  rewrite (IH Hc). destruct (is_slash x); [discriminate Hx | reflexivity].
Qed.

Lemma norm_step_component (initial : nat) (stack : list string) (c : string) :
  component c -> norm_step initial stack c = c :: stack.
Proof.
  intros (_ & H0 & H1 & H2). unfold norm_step.
  destruct (String.eqb_spec c "") as [E|_]; [contradiction|].
  destruct (String.eqb_spec c ".") as [E|_]; [contradiction|].
  destruct (String.eqb_spec c "..") as [E|_]; [contradiction|].
  reflexivity.
Qed.

Lemma join_slash_snoc (l : list string) (c : string) :
  join_slash (l ++ [c]) =
  match l with
  | [] => c
  | _ => join_slash l +:+ "/" +:+ c
  end.
Proof.
  induction l as [|x l IH]; [reflexivity|].
  cbn [app]. destruct l as [|y l].
  - reflexivity.
  - change (join_slash (x :: (y :: l) ++ [c]))
      with (x +:+ "/" +:+ join_slash ((y :: l) ++ [c])).
    rewrite IH. change (join_slash (x :: y :: l)) with (x +:+ "/" +:+ join_slash (y :: l)).
    rewrite !append_assoc. reflexivity.
Qed.

Lemma repeat_slash_snoc (n : nat) : repeat_slash (S n) = repeat_slash n +:+ "/".
Proof.
  induction n as [|n IH]; [reflexivity|].
  change (String "/" (repeat_slash (S n)) = String "/" (repeat_slash n) +:+ "/").
  rewrite append_cons. f_equal. exact IH.
Qed.

Lemma dir_prefix_slashes (n : nat) : dir_prefix (repeat_slash n).
Proof.
  destruct n as [|n]; [left; reflexivity|]. right. exists (repeat_slash n).
  apply repeat_slash_snoc.
Qed.

Lemma append_not_empty (p c : string) : c <> "" -> String.eqb (p +:+ c) "" = false.
Proof.
  intros Hc. destruct p as [|x p]; [|reflexivity]. rewrite append_nil.
  destruct c; [contradiction | reflexivity].
Qed.

(** [normpath] keeps the last component of a path. *)
Lemma normpath_last (c y : string) :
  component c -> last_component c y ->
  exists p, dir_prefix p /\ normpath y = p +:+ c.
Proof.
  intros Hc Hy.
  assert (Hne : String.eqb y "" = false).
  { destruct Hy as [->|(w & ->)].
    - destruct Hc as (_ & H0 & _). destruct c; [contradiction | reflexivity].
    - destruct w; reflexivity. }
  assert (Hsplit : exists l, split_slash y = l ++ [c]).
  { destruct Hc as (Hns & _). destruct Hy as [->|(w & ->)].
    - exists []. apply split_slash_name, Hns.
    - exists (split_slash w). rewrite split_slash_app, (split_slash_name c Hns).
      reflexivity. }
  destruct Hsplit as (l & Hl).
  unfold normpath. rewrite Hne, Hl. cbv zeta.
  rewrite fold_left_app. cbn [fold_left]. rewrite (norm_step_component _ _ _ Hc).
  cbn [rev]. change (rev ?x ++ [c]) with (rev x ++ [c]).
  set (stack := fold_left (norm_step (initial_slashes y)) l []).
  set (i := initial_slashes y).
  rewrite join_slash_snoc.
  assert (Hc0 : c <> "") by (destruct Hc as (_ & H0 & _); exact H0).
  destruct (rev stack) as [|x comps] eqn:Hrev.
  - rewrite (append_not_empty _ _ Hc0). exists (repeat_slash i).
    split; [apply dir_prefix_slashes | reflexivity].
  - rewrite <- !append_assoc.
    rewrite (append_not_empty _ _ Hc0).
    exists ((repeat_slash i +:+ join_slash (x :: comps)) +:+ "/").
    split; [right; eexists; reflexivity | reflexivity].
Qed.

Lemma basename_after_prefix (p c : string) :
  dir_prefix p -> no_slash c = true -> basename (p +:+ c) = c.
Proof.
  intros [->|(q & ->)] Hc; unfold basename.
  - rewrite append_nil, (split_last_no_slash _ Hc). reflexivity.
  - rewrite append_assoc, (split_last_dir _ _ Hc). reflexivity.
Qed.

Lemma ends_with_slash_inv (a : string) :
  ends_with_slash a = true -> exists w, a = w +:+ "/".
Proof.
  induction a as [|x a IH]; [discriminate|]. cbn [ends_with_slash].
  destruct a as [|y a].
  - intros H. exists "". unfold is_slash in H. apply Ascii.eqb_eq in H. subst x.
    reflexivity.
  - intros H. destruct (IH H) as (w & ->). exists (String x w). reflexivity.
Qed.

Lemma last_component_join (c a x : string) :
  last_component c x -> last_component c (join a x).
Proof.
  intros Hx. unfold join. destruct (isabs x); [exact Hx|].
  assert (Hdir : forall w, last_component c (w +:+ "/" +:+ x)).
  { intros w. right. destruct Hx as [->|(w' & ->)].
    - exists w. reflexivity.
    - exists (w +:+ "/" +:+ w'). rewrite !append_assoc. reflexivity. }
  destruct (String.eqb_spec a "") as [->|_]; cbn [orb].
  - rewrite append_nil. exact Hx.
  - destruct (ends_with_slash a) eqn:He; [|apply Hdir].
    apply ends_with_slash_inv in He as (w & ->). rewrite append_assoc.
    apply Hdir.
Qed.

(** The last component of [abspath(join(p, c))] is [c]. *)
Lemma basename_abspath_join (cwd p c : string) :
  component c -> basename (abspath cwd (join p c)) = c.
Proof.
  intros Hc. unfold abspath.
  assert (Hy : last_component c (if isabs (join p c) then join p c
                                 else join cwd (join p c))).
  { assert (H : last_component c (join p c)) by (apply last_component_join; left; reflexivity).
    destruct (isabs (join p c)); [exact H | apply last_component_join, H]. }
  destruct (normpath_last c _ Hc Hy) as (q & Hq & ->).
  apply basename_after_prefix; [exact Hq|]. destruct Hc as (H & _). exact H.
Qed.

Lemma component_Icon : component "Icon".
Proof. repeat split; discriminate. Qed.

Lemma normpath_not_empty (path : string) : normpath path <> "".
Proof.
  unfold normpath. destruct (String.eqb path ""); [discriminate|]. cbv zeta.
  match goal with |- (if String.eqb ?p "" then _ else _) <> _ =>
    destruct (String.eqb_spec p "") as [_|H]; [discriminate | exact H] end.
Qed.

Lemma abspath_not_empty (cwd path : string) : abspath cwd path <> "".
Proof. apply normpath_not_empty. Qed.

End PathFacts.

Module IconDirectory.
Import Py Maya Core Utils Observe Notions MonadFacts SettingsFacts FrameFacts PathFacts.

(** The path [getIconDirectory] returns. *)
Lemma getIconDirectory_path (m m' : maya) (d : string) :
  getIconDirectory m = (Ok (Some d), m') ->
  m' = m /\
  exists settings p,
    getIconSettings m = (Ok settings, m) /\
    get settings "outputPath" JNull = Ok (JStr p) /\
    d = PosixPath.abspath (cwd m) (PosixPath.join p "Icon").
Proof.
  intros H.
  assert (m' = m) as -> by (apply (readonly_run _ _ _ _ readonly_getIconDirectory H)).
  split; [reflexivity|].
  unfold getIconDirectory in H.
  apply bind_inv in H as (settings & m1 & E1 & H).
  pose proof (getIconSettings_ok _ _ _ E1); subst m1.
  apply bind_inv in H as (outputPath & m1 & E2 & H).
  rewrite lift_run in E2. injection E2 as E2 <-.
  assert (Hp : exists p, outputPath = JStr p /\
                         d = PosixPath.abspath (cwd m) (PosixPath.join p "Icon")).
  { destruct outputPath; cbn in H; try discriminate H.
    eexists. split; [reflexivity|]. injection H as <-. reflexivity. }
  destruct Hp as (p & -> & ->).
  exists settings, p. auto.
Qed.

(** X6.  The icon directory is always a directory named [Icon]: whenever
    [getIconDirectory] returns a path, the settings hold a string under
    [outputPath], the path is that of [Icon] inside it, made absolute, and
    its last component is [Icon], whatever the output path is. *)
Theorem getIconDirectory_ends_in_Icon (m m' : maya) (d : string) :
  getIconDirectory m = (Ok (Some d), m') ->
  m' = m /\
  PosixPath.basename d = "Icon" /\
  exists settings p,
    getIconSettings m = (Ok settings, m) /\
    get settings "outputPath" JNull = Ok (JStr p) /\
    d = PosixPath.abspath (cwd m) (PosixPath.join p "Icon").
Proof.
  intros H. destruct (getIconDirectory_path _ _ _ H) as (-> & settings & p & Hs & Hp & ->).
  split; [reflexivity|].
  split; [apply basename_abspath_join, component_Icon|].
  exists settings, p. auto.
Qed.

Lemma getIconDirectory_ends_in_Icon_animated :
  Scenes.animated = Scenes.animated /\
  PosixPath.basename "/out/Icon" = "Icon" /\
  exists settings p,
    getIconSettings Scenes.animated = (Ok settings, Scenes.animated) /\
    get settings "outputPath" JNull = Ok (JStr p) /\
    "/out/Icon" = PosixPath.abspath (cwd Scenes.animated) (PosixPath.join p "Icon").
Proof.
  apply (getIconDirectory_ends_in_Icon Scenes.animated Scenes.animated "/out/Icon").
  vm_compute. reflexivity.
Defined.

Lemma report_errors (errors : list json) (m : maya) :
  Forall reportable errors ->
  for_each errors (fun err =>
    lift (getitem err "code") ;; lift (getitem err "message") ;; mret tt) m = (Ok tt, m).
Proof.
  induction 1 as [|err errors [[code Hc] [message Hm]] _ IH]; [reflexivity|].
  cbn [for_each]. rewrite bind_run, bind_run, lift_run, Hc. cbn beta iota.
  rewrite bind_run, lift_run, Hm. exact IH.
Qed.



End IconDirectory.

(** ** What the pipeline leaves in the log *)

Module PipelineFrame.
Import Py Maya Core Utils Observe Notions MonadFacts SettingsFacts FrameFacts PathFacts.

Lemma appending_try_except (P : cmd -> Prop) {A} (body handler : M A)
  (catches : exn -> bool) :
  appending P body -> appending P handler -> appending P (try_except body catches handler).
Proof.
  intros Hb Hh m r m' H. unfold try_except in H.
  destruct (body m) as [[a|e] m1] eqn:E.
  - injection H as <- <-. apply (Hb _ _ _ E).
  - destruct (catches e).
    + eapply appends_trans; [apply (Hb _ _ _ E) | apply (Hh _ _ _ H)].
    + injection H as <- <-. apply (Hb _ _ _ E).
Qed.

Lemma appending_run_body (P : cmd -> Prop) (body : list stmt) :
  Forall (fun st => forall x, appending P (st x)) body ->
  forall result m r e m', run_body body result m = (r, e, m') -> appends P m m'.
Proof.
  induction 1 as [|st body Hst _ IH]; intros result m r e m' H; cbn [run_body] in H.
  - injection H as <- <- <-. apply appends_refl.
  - destruct (st result m) as [[x|e'] m1] eqn:E.
    + eapply appends_trans; [apply (Hst _ _ _ _ E) | apply (IH _ _ _ _ _ H)].
    + injection H as <- <- <-. apply (Hst _ _ _ _ E).
Qed.

Lemma appending_openTempScene (P : cmd -> Prop) (filePath : string) (body : list stmt)
  (result : json) :
  P (External CopyAndOpenTempScene) -> P (External ReopenScene) ->
  Forall (fun st => forall x, appending P (st x)) body ->
  appending P (openTempScene filePath body result).
Proof.
  intros Hc Hr Hbody m r m' H. unfold openTempScene in H.
  destruct (external CopyAndOpenTempScene m) as [[[]|e] m1] eqn:E1.
  - destruct (run_body body result m1) as [[r1 e1] m2] eqn:E2.
    destruct (external ReopenScene m2) as [[[]|e2] m3] eqn:E3; injection H as <- <-;
      (eapply appends_trans; [apply (appending_external P _ Hc _ _ _ E1)|];
       eapply appends_trans; [apply (appending_run_body P body Hbody _ _ _ _ _ E2)|];
       apply (appending_external P _ Hr _ _ _ E3)).
  - destruct (external ReopenScene m1) as [[[]|e2] m2] eqn:E3; injection H as <- <-;
      (eapply appends_trans; [apply (appending_external P _ Hc _ _ _ E1)|];
       apply (appending_external P _ Hr _ _ _ E3)).
Qed.

Lemma appending_check_output (argv : list string) : appending any_cmd (check_output argv).
Proof.
  intros m r m' H. unfold check_output in H.
  destruct (validatorRun m); injection H as <- <-;
    (exists [RunProcess argv]; split; [reflexivity | repeat constructor]).
Qed.

Ltac frame :=
  repeat
    (lazymatch goal with
     | |- appending _ (mbind _ _) => apply appending_bind; [|intros ?]
     | |- appending _ (mret _) => apply appending_readonly, readonly_ret
     | |- appending _ (lift _) => apply appending_readonly, readonly_lift
     | |- appending _ (gets _) => apply appending_readonly, readonly_gets
     | |- appending _ (raise _) => apply appending_readonly, readonly_raise
     | |- appending _ (issue _) => apply appending_issue; exact I
     | |- appending _ (external _) => apply appending_external; exact I
     | |- appending _ (for_each _ _) => apply appending_for_each; intros ?
     | |- appending _ getIconSettings => apply appending_readonly, readonly_getIconSettings
     | |- appending _ getIconDirectory => apply appending_readonly, readonly_getIconDirectory
     | |- appending _ getIconTemplateNode => apply appending_readonly, readonly_gets
     | |- appending _ getModelComponentNode => apply appending_readonly, readonly_gets
     | |- appending _ getPortalComponentNode => apply appending_readonly, readonly_gets
     | |- appending _ (getChildren _ _ _) => apply appending_readonly, readonly_getChildren
     | |- appending _ (getMeshesRecursive _) =>
         apply appending_readonly, readonly_getMeshesRecursive
     | |- appending _ (getMaterialsForMeshes _) =>
         apply appending_readonly, readonly_getMaterialsForMeshes
     | |- appending _ (exportFBX _ _ _) =>
         eapply appending_weaken; [|apply appending_exportFBX]; intros ? _; exact I
     | |- appending _ (check_output _) => apply appending_check_output
     | |- appending _ (if ?b then _ else _) => destruct b
     | |- appending _ (match ?x with _ => _ end) => destruct x
     end).

Lemma readonly_unsupported_below (node : option dagnode) (types : list MFn) :
  readonly (unsupported_below node types).
Proof.
  induction types as [|ty types IH]; [apply readonly_ret|].
  cbn [unsupported_below]. apply readonly_bind; [apply readonly_getChildren|].
  intros a. apply readonly_bind; [exact IH|]. intros b. apply readonly_ret.
Qed.

Lemma readonly_getTexture (material : string) : readonly (getTexture material).
Proof. intros m. rewrite getTexture_run. reflexivity. Qed.

Lemma readonly_getTexturesFromMaterials (materials : list string) :
  readonly (getTexturesFromMaterials materials).
Proof.
  intros m. destruct (getTexturesFromMaterials_run materials m) as (x & ->). reflexivity.
Qed.

Lemma readonly_getFilePathsFromTextures (textures : list string) :
  readonly (getFilePathsFromTextures textures).
Proof.
  intros m. destruct (getFilePathsFromTextures_run textures m) as (x & ->). reflexivity.
Qed.

Lemma readonly_kmatMaterials (iconDirectory componentType : string)
  (materials : list string) :
  readonly (kmatMaterials iconDirectory componentType materials).
Proof.
  intros m.
  destruct (Manifest.kmatMaterials_run iconDirectory componentType materials m)
    as (x & -> & _). reflexivity.
Qed.

Lemma appending_bakeTransforms : appending any_cmd bakeTransforms.
Proof. unfold bakeTransforms. frame. Qed.

Lemma appending_bakeAnimation : appending any_cmd bakeAnimation.
Proof.
  unfold bakeAnimation. frame.
  - apply appending_readonly, readonly_unsupported_below.
  - unfold bake_take. frame.
Qed.

Lemma appending_exportIconComponent (componentType : string) :
  appending any_cmd (exportIconComponent componentType).
Proof.
  unfold exportIconComponent. frame.
  all: try (apply appending_readonly;
            first [apply readonly_getTexturesFromMaterials
                  | apply readonly_getFilePathsFromTextures
                  | apply readonly_kmatMaterials]).
Qed.

Lemma appending_validateIcon : appending any_cmd validateIcon.
Proof. unfold validateIcon. frame. Qed.

Lemma appending_export_body :
  Forall (fun st : stmt => forall x, appending any_cmd (st x))
    [(fun result => external ImportSceneReferences ;; mret result);
     (fun result => unlockNodes ;; mret result);
     (fun result => external StripNamespaces ;; mret result);
     (fun result => bakeTransforms ;; mret result);
     (fun result => bakeAnimation ;; mret result);
     (fun _ => exportIconComponent "Model");
     (fun _ => exportIconComponent "Portal")].
Proof.
  repeat constructor; intros x; unfold unlockNodes;
    first [apply appending_exportIconComponent
          | apply appending_bind;
            [first [apply appending_bakeTransforms | apply appending_bakeAnimation
                   | apply appending_external; exact I]
            | intros ?; apply appending_readonly, readonly_ret]].
Qed.

Lemma appending_exportIcon : appending any_cmd exportIcon.
Proof.
  unfold exportIcon. frame.
  all: apply appending_openTempScene; try exact I; apply appending_export_body.
Qed.

Lemma appending_buildIcon (validate export cleanup : bool) :
  appending any_cmd (buildIcon validate export cleanup).
Proof.
  unfold buildIcon. apply appending_try_except.
  - apply appending_bind; [apply appending_exportIcon|]. intros r.
    destruct validate; [apply appending_validateIcon | apply appending_readonly, readonly_ret].
  - apply appending_readonly, readonly_ret.
Qed.

Lemma getIconSettings_log (l : list cmd) (m : maya) :
  getIconSettings (set_issued l m) = (fst (getIconSettings m), set_issued l m).
Proof.
  unfold getIconSettings, getIconTemplateNode.
  rewrite !bind_run, !gets_run. unfold try_except. rewrite !bind_run.
  cbn [template set_issued]. destruct (template m) as [t|]; cbn [attach].
  - rewrite !bind_run. unfold iconSettings_asString. cbn [iconSettings set_issued].
    destruct (iconSettings m) as [s|]; [|reflexivity].
    rewrite !lift_run. destruct (Json.loads s) as [v|e]; [reflexivity|].
    destruct (is_ValueError e); reflexivity.
  - cbn [nullObjectError set_issued].
    destruct (is_ValueError (nullObjectError m)); reflexivity.
Qed.

End PipelineFrame.

Module ExportSteps.
Import Py Maya Core Utils Observe Notions MonadFacts SettingsFacts FrameFacts PathFacts
  PipelineFrame.

(** X8.  [exportIcon] saves the scene in every session: its test for a
    scene without a file never holds, because [abspath] of the empty name is
    the working directory, not the empty text.  Whatever the outcome, the
    session afterwards is the one before with commands added, the first of
    which is the save. *)
Theorem exportIcon_always_saves (m : maya) :
  PosixPath.abspath (cwd m) (sceneName m) <> "" /\
  exists l,
    snd (exportIcon m) = set_issued (issued m ++ External SaveScene :: l) m.
Proof.
  split; [apply abspath_not_empty|].
  unfold exportIcon. rewrite bind_run, gets_run.
  destruct (String.eqb_spec (PosixPath.abspath (cwd m) (sceneName m)) "") as [E|_];
    [exfalso; exact (abspath_not_empty _ _ E)|].
  rewrite bind_run. unfold external at 1. destruct (fails m SaveScene) as [e|].
  - exists []. reflexivity.
  - match goal with |- context [snd (?c (add_issued ?x m))] =>
      assert (Hc : appending any_cmd c);
      [|destruct (c (add_issued x m)) as [r m'] eqn:E]
    end.
    + frame.
      all: apply appending_openTempScene; try exact I; apply appending_export_body.
    + destruct (Hc _ _ _ E) as (l & -> & _). exists l. cbn [snd].
      unfold add_issued. cbn [issued set_issued]. rewrite <- app_assoc. reflexivity.
Qed.

(** X9.  Without an output path in the settings nothing is built:
    [exportIcon] saves the scene and raises [ValueError], and [buildIcon]
    returns [False] with the save as its only action: no temporary scene is
    opened, nothing is baked or exported, the validator is not started. *)
Theorem buildIcon_without_outputPath (m : maya) (settings : json)
  (validate export cleanup : bool) :
  fails m SaveScene = None ->
  getIconSettings m = (Ok settings, m) ->
  get settings "outputPath" JNull = Ok JNull ->
  exportIcon m = (Raise ValueError, add_issued (External SaveScene) m) /\
  buildIcon validate export cleanup m =
    (Ok (JBool false), add_issued (External SaveScene) m).
Proof.
  intros Hs Hg Ho.
  assert (He : exportIcon m = (Raise ValueError, add_issued (External SaveScene) m)).
  { unfold exportIcon. rewrite bind_run, gets_run.
    destruct (String.eqb_spec (PosixPath.abspath (cwd m) (sceneName m)) "") as [E|_];
      [exfalso; exact (abspath_not_empty _ _ E)|].
    rewrite bind_run. unfold external at 1. rewrite Hs.
    rewrite bind_run. unfold add_issued. rewrite getIconSettings_log, Hg. cbn [fst].
    rewrite bind_run, lift_run, Ho. reflexivity. }
  split; [exact He|].
  unfold buildIcon, try_except. rewrite bind_run, He. reflexivity.
Qed.

Lemma buildIcon_without_outputPath_fresh :
  exportIcon Scenes.fresh = (Raise ValueError, add_issued (External SaveScene) Scenes.fresh) /\
  buildIcon true true false Scenes.fresh =
    (Ok (JBool false), add_issued (External SaveScene) Scenes.fresh).
Proof.
  apply (buildIcon_without_outputPath Scenes.fresh (JObj [])); reflexivity.
Defined.

(** X10.  [openTempScene] always reopens the scene it was given, and an
    exception of the body of the [with] statement never leaves it: for a
    body that only sends commands, the commands of the session afterwards
    begin with the opening of the copy and end with the reopening of the
    original, whatever the body did or raised; and when the two openings
    succeed the statement ends normally. *)
Theorem openTempScene_reopens (filePath : string) (body : list stmt) (result : json)
  (m : maya) :
  Forall (fun st : stmt => forall x, appending any_cmd (st x)) body ->
  (exists l,
     snd (openTempScene filePath body result m) =
     set_issued
       (issued m ++ External CopyAndOpenTempScene :: l ++ [External ReopenScene]) m) /\
  (fails m CopyAndOpenTempScene = None -> fails m ReopenScene = None ->
   exists r, fst (openTempScene filePath body result m) = Ok r).
Proof.
  intros Hbody. unfold openTempScene, external.
  destruct (fails m CopyAndOpenTempScene) as [e|] eqn:Ec.
  - split; [|discriminate]. exists [].
    cbn [fails add_issued set_issued].
    destruct (fails m ReopenScene); cbn [snd]; unfold add_issued;
      cbn [issued set_issued]; rewrite <- app_assoc; reflexivity.
  - destruct (run_body body result (add_issued (External CopyAndOpenTempScene) m))
      as [[r e] m2] eqn:E.
    destruct (appending_run_body any_cmd body Hbody _ _ _ _ _ E) as (l & -> & _).
    cbn [fails add_issued set_issued issued]. split.
    + exists l. destruct (fails m ReopenScene); cbn [snd]; unfold add_issued;
        cbn [issued set_issued]; rewrite <- !app_assoc; reflexivity.
    + intros _ ->. exists r. reflexivity.
Qed.

Lemma openTempScene_reopens_failing_body :
  (exists l,
     snd (openTempScene "/projects/icon/scenes/icon.ma"
            [(fun result => external StripNamespaces ;; mret result);
             (fun _ => exportIconComponent "Model")]
            (JBool false) Scenes.nothing_exported) =
     set_issued
       (issued Scenes.nothing_exported ++
        External CopyAndOpenTempScene :: l ++ [External ReopenScene])
       Scenes.nothing_exported) /\
  (fails Scenes.nothing_exported CopyAndOpenTempScene = None ->
   fails Scenes.nothing_exported ReopenScene = None ->
   exists r,
     fst (openTempScene "/projects/icon/scenes/icon.ma"
            [(fun result => external StripNamespaces ;; mret result);
             (fun _ => exportIconComponent "Model")]
            (JBool false) Scenes.nothing_exported) = Ok r).
Proof.
  apply openTempScene_reopens.
  repeat constructor; intros x.
  - apply appending_bind; [apply appending_external; exact I|].
    intros ?. apply appending_readonly, readonly_ret.
  - apply appending_exportIconComponent.
Defined.

End ExportSteps.

(** ** The stored takes *)

Module ClipStore.
Import Py Maya Core Utils Observe Notions Encoding MonadFacts SettingsFacts DecoderFacts
  EncoderFacts ClipData SettingsStore.

Lemma find_clip_none (payload : json) (clip : string) (takes : list json) (n : nat) :
  getitem payload "name" = Ok (JStr clip) ->
  Forall (other_name clip) takes ->
  find_clip payload takes n = Ok None.
Proof.
  intros Hp H. revert n. induction H as [|take takes (x & Hx & Hne) _ IH]; intros n.
  - reflexivity.
  - cbn [find_clip]. unfold mbind, result_bind. rewrite Hx, Hp, Hne. apply IH.
Qed.

Lemma find_clip_first (payload : json) (clip : string) (l1 l2 : list json) (take : json)
  (n : nat) :
  getitem payload "name" = Ok (JStr clip) ->
  Forall (other_name clip) l1 ->
  named clip take ->
  find_clip payload (l1 ++ take :: l2) n = Ok (Some (n + length l1)%nat).
Proof.
  intros Hp H (x & Hx & He). revert n. induction H as [|y l1 (z & Hz & Hne) _ IH]; intros n.
  - cbn [app find_clip length]. unfold mbind, result_bind. rewrite Hx, Hp, He.
    rewrite Nat.add_0_r. reflexivity.
  - cbn [app find_clip length]. unfold mbind, result_bind. rewrite Hz, Hp, Hne.
    rewrite IH. do 2 f_equal. lia.
Qed.

(** The stored list of takes: what [get] gives for [animationTakes]. *)
Lemma stored_takes_well_formed (settings : list (string * json)) (takes : list json) :
  well_formed (JObj settings) ->
  get (JObj settings) "animationTakes" (JArr []) = Ok (JArr takes) ->
  Forall well_formed takes.
Proof.
  intros Hwf H. cbn [get] in H. injection H as H.
  destruct (dict_lookup "animationTakes" settings) as [v|] eqn:E; cbn in H.
  - subst v. apply well_formed_arr. apply (well_formed_field _ _ _ Hwf E).
  - injection H as <-. constructor.
Qed.

Lemma stored_takes_float_free (settings : list (string * json)) (takes : list json) :
  float_free (JObj settings) ->
  get (JObj settings) "animationTakes" (JArr []) = Ok (JArr takes) ->
  Forall float_free takes.
Proof.
  intros Hff H. cbn [get] in H. injection H as H.
  destruct (dict_lookup "animationTakes" settings) as [v|] eqn:E; cbn in H.
  - subst v. apply float_free_arr. apply float_free_obj in Hff.
    rewrite Forall_forall in Hff. apply (Hff (_, _) (dict_lookup_elem _ _ _ E)).
  - injection H as <-. constructor.
Qed.

(** The settings in which the list of takes has been replaced are read back
    as they were written. *)
Lemma takes_stored (m : maya) (t : dagnode) (settings : list (string * json))
  (takes' : list json) :
  template m = Some t ->
  well_formed (JObj settings) -> float_free (JObj settings) ->
  Forall well_formed takes' -> Forall float_free takes' ->
  getIconSettings
    (set_iconSettings
       (Some (Json.dumps (JObj (dict_set "animationTakes" (JArr takes') settings)))) m) =
  (Ok (JObj (dict_set "animationTakes" (JArr takes') settings)),
   set_iconSettings
     (Some (Json.dumps (JObj (dict_set "animationTakes" (JArr takes') settings)))) m).
Proof.
  intros Ht Hwf Hff Hwt Hft. apply (stored_settings m t _ Ht).
  - apply dict_set_well_formed; [apply well_formed_arr, Hwt | exact Hwf].
  - apply float_free_dict_set; [apply float_free_arr, Hft | exact Hff].
Qed.

(** [getAnimationData(asDict=False)] when the settings are an object. *)
Lemma getAnimationData_list (m : maya) (settings : list (string * json)) :
  getIconSettings m = (Ok (JObj settings), m) ->
  getAnimationData false m =
  (Ok (inl (default (JArr []) (dict_lookup "animationTakes" settings))), m).
Proof.
  intros H. unfold getAnimationData. rewrite bind_run, H, bind_run, lift_run. reflexivity.
Qed.

(** The take that [updateClipData] stores for a widget. *)
Lemma new_take (w : View.AnimationClipWidget) :
  well_formed (take_json {| name := View.clipName w; startFrame := View.startFrame w;
                            endFrame := View.endFrame w |}) /\
  float_free (take_json {| name := View.clipName w; startFrame := View.startFrame w;
                           endFrame := View.endFrame w |}).
Proof.
  split.
  - cbn. repeat split. apply (bool_decide_unpack _). vm_compute. exact I.
  - cbn. repeat split.
Qed.

(** An enabled clip without a stored take: the take is appended. *)
Lemma add_run (m : maya) (t : dagnode) (blob : string)
  (settings : list (string * json)) (takes : list json) (w : View.AnimationClipWidget) :
  template m = Some t ->
  iconSettings m = Some blob ->
  Json.loads blob = Ok (JObj settings) ->
  get (JObj settings) "animationTakes" (JArr []) = Ok (JArr takes) ->
  Forall (other_name (View.clipName w)) takes ->
  View.clipEnabled w = true ->
  updateClipData (View.payload w) m =
  (Ok tt,
   set_iconSettings
     (Some (Json.dumps
              (JObj (dict_set "animationTakes"
                       (JArr (takes ++
                              [take_json {| name := View.clipName w;
                                            startFrame := View.startFrame w;
                                            endFrame := View.endFrame w |}]))
                       settings)))) m).
Proof.
  intros Ht Hb Hl Hg Hn He. unfold updateClipData, View.payload.
  cbn [truthy negb].
  rewrite bind_run, (getIconSettings_template m t Ht), Hb, Hl.
  rewrite bind_run, lift_run, Hg. rewrite bind_run, lift_run. cbn [iter].
  rewrite bind_run, lift_run.
  rewrite (find_clip_none _ (View.clipName w)) by (reflexivity || exact Hn).
  rewrite bind_run, lift_run. cbn [getitem dict_lookup String.eqb Ascii.eqb Bool.eqb].
  rewrite He. cbn [truthy negb].
  rewrite !bind_run, !lift_run. cbn [py_append].
  rewrite bind_run, lift_run. cbn [setitem].
  apply (saveIconSettings_run _ m t blob Ht Hb).
Qed.

(** A disabled clip with a stored take: the first take of that name is
    taken out. *)
Lemma remove_run (m : maya) (t : dagnode) (blob : string)
  (settings : list (string * json)) (l1 l2 : list json) (take : json)
  (w : View.AnimationClipWidget) :
  template m = Some t ->
  iconSettings m = Some blob ->
  Json.loads blob = Ok (JObj settings) ->
  get (JObj settings) "animationTakes" (JArr []) = Ok (JArr (l1 ++ take :: l2)) ->
  Forall (other_name (View.clipName w)) l1 ->
  named (View.clipName w) take ->
  View.clipEnabled w = false ->
  updateClipData (View.payload w) m =
  (Ok tt,
   set_iconSettings
     (Some (Json.dumps (JObj (dict_set "animationTakes" (JArr (l1 ++ l2)) settings)))) m).
Proof.
  intros Ht Hb Hl Hg Hn Hk He. unfold updateClipData, View.payload.
  cbn [truthy negb].
  rewrite bind_run, (getIconSettings_template m t Ht), Hb, Hl.
  rewrite bind_run, lift_run, Hg. rewrite bind_run, lift_run. cbn [iter].
  rewrite bind_run, lift_run.
  rewrite (find_clip_first _ (View.clipName w)) by (reflexivity || assumption).
  rewrite bind_run, lift_run. cbn [getitem dict_lookup String.eqb Ascii.eqb Bool.eqb].
  rewrite He. cbn [truthy negb].
  rewrite bind_run, lift_run. cbn [py_pop Nat.add].
  assert (delete (length l1) (l1 ++ take :: l2) = l1 ++ l2) as ->.
  { clear. induction l1 as [|x l1 IH]; [reflexivity|]. cbn. f_equal. exact IH. }
  rewrite bind_run, lift_run. cbn [setitem].
  apply (saveIconSettings_run _ m t blob Ht Hb).
Qed.

Lemma takes_after_set (settings : list (string * json)) (takes : list json) :
  default (JArr []) (dict_lookup "animationTakes" (dict_set "animationTakes" (JArr takes) settings))
  = JArr takes.
Proof. rewrite dict_lookup_set, String.eqb_refl. reflexivity. Qed.

(** X11.  Enabling a clip that has no stored take appends one take to the
    stored list: the list read after [updateClipData] is the list before
    it followed by a take with the name and the frames of the widget, and
    without the key [enabled]; every other key of the settings is kept. *)
Theorem updateClipData_adds_take (m : maya) (t : dagnode) (blob : string)
  (settings : list (string * json)) (takes : list json) (w : View.AnimationClipWidget) :
  template m = Some t ->
  iconSettings m = Some blob ->
  Json.loads blob = Ok (JObj settings) ->
  float_free (JObj settings) ->
  get (JObj settings) "animationTakes" (JArr []) = Ok (JArr takes) ->
  Forall (other_name (View.clipName w)) takes ->
  View.clipEnabled w = true ->
  exists m' new settings',
    View.updateClipData (View.payload w) m = (Ok tt, m') /\
    getAnimationData false m' = (Ok (inl (JArr (takes ++ [new]))), m') /\
    getitem new "name" = Ok (JStr (View.clipName w)) /\
    getitem new "startFrame" = Ok (JInt (View.startFrame w)) /\
    getitem new "endFrame" = Ok (JInt (View.endFrame w)) /\
    contains "enabled" new = Ok false /\
    getIconSettings m' = (Ok (JObj settings'), m') /\
    (forall k, k <> "animationTakes" -> dict_lookup k settings' = dict_lookup k settings).
Proof.
  intros Ht Hb Hl Hff Hg Hn He.
  pose proof (loads_well_formed _ _ Hl) as Hwf.
  destruct (new_take w) as [Hwn Hfn].
  set (new := take_json {| name := View.clipName w; startFrame := View.startFrame w;
                           endFrame := View.endFrame w |}) in *.
  assert (Hread := takes_stored m t settings (takes ++ [new]) Ht Hwf Hff).
  eexists _, new, _. split; [apply (add_run m t blob settings takes w); assumption|].
  assert (Hr : getIconSettings
    (set_iconSettings
       (Some (Json.dumps (JObj (dict_set "animationTakes" (JArr (takes ++ [new])) settings)))) m) =
    (Ok (JObj (dict_set "animationTakes" (JArr (takes ++ [new])) settings)),
     set_iconSettings
       (Some (Json.dumps (JObj (dict_set "animationTakes" (JArr (takes ++ [new])) settings)))) m)).
  { apply Hread.
    - apply Forall_app. split; [apply (stored_takes_well_formed settings); assumption|].
      constructor; [exact Hwn | constructor].
    - apply Forall_app. split; [apply (stored_takes_float_free settings); assumption|].
      constructor; [exact Hfn | constructor]. }
  split; [fold new; rewrite (getAnimationData_list _ _ Hr), takes_after_set; reflexivity|].
  repeat (split; [reflexivity|]).
  split; [exact Hr|].
  intros k Hk. rewrite dict_lookup_set.
  destruct (String.eqb_spec k "animationTakes"); [contradiction | reflexivity].
Qed.

(** X12.  Disabling a clip removes its stored take and nothing else: when
    the stored list holds a take of the clip's name, the list read after
    [updateClipData] is the list before it without the first such take, in
    the same order. *)
Theorem updateClipData_removes_take (m : maya) (t : dagnode) (blob : string)
  (settings : list (string * json)) (l1 l2 : list json) (take : json)
  (w : View.AnimationClipWidget) :
  template m = Some t ->
  iconSettings m = Some blob ->
  Json.loads blob = Ok (JObj settings) ->
  float_free (JObj settings) ->
  get (JObj settings) "animationTakes" (JArr []) = Ok (JArr (l1 ++ take :: l2)) ->
  Forall (other_name (View.clipName w)) l1 ->
  named (View.clipName w) take ->
  View.clipEnabled w = false ->
  exists m' settings',
    View.updateClipData (View.payload w) m = (Ok tt, m') /\
    getAnimationData false m' = (Ok (inl (JArr (l1 ++ l2))), m') /\
    getIconSettings m' = (Ok (JObj settings'), m') /\
    (forall k, k <> "animationTakes" -> dict_lookup k settings' = dict_lookup k settings).
Proof.
  intros Ht Hb Hl Hff Hg Hn Hk He.
  pose proof (loads_well_formed _ _ Hl) as Hwf.
  pose proof (stored_takes_well_formed _ _ Hwf Hg) as Hwt.
  pose proof (stored_takes_float_free _ _ Hff Hg) as Hft.
  apply Forall_app in Hwt as [Hw1 Hw2]. apply Forall_cons in Hw2 as [_ Hw2].
  apply Forall_app in Hft as [Hf1 Hf2]. apply Forall_cons in Hf2 as [_ Hf2].
  assert (Hr := takes_stored m t settings (l1 ++ l2) Ht Hwf Hff
                  (proj2 (Forall_app _ _ _) (conj Hw1 Hw2))
                  (proj2 (Forall_app _ _ _) (conj Hf1 Hf2))).
  eexists _, _. split; [apply (remove_run m t blob settings l1 l2 take w); assumption|].
  split; [rewrite (getAnimationData_list _ _ Hr), takes_after_set; reflexivity|].
  split; [exact Hr|].
  intros k Hk'. rewrite dict_lookup_set.
  destruct (String.eqb_spec k "animationTakes"); [contradiction | reflexivity].
Qed.

(** X13.  Enabling a clip and disabling it again gives back the stored
    list of takes: for a clip without a stored take, [updateClipData] with
    the enabled widget and then with the same widget disabled leaves the
    list of takes as it was. *)
Theorem enable_then_disable (m : maya) (t : dagnode) (blob : string)
  (settings : list (string * json)) (takes : list json)
  (clip : string) (s e s' e' size size' : Z) :
  template m = Some t ->
  iconSettings m = Some blob ->
  Json.loads blob = Ok (JObj settings) ->
  float_free (JObj settings) ->
  get (JObj settings) "animationTakes" (JArr []) = Ok (JArr takes) ->
  Forall (other_name clip) takes ->
  exists m',
    (View.updateClipData
       (View.payload {| View.clipName := clip; View.clipEnabled := true;
                        View.startFrame := s; View.endFrame := e;
                        View.maxClipSize := size |}) ;;
     View.updateClipData
       (View.payload {| View.clipName := clip; View.clipEnabled := false;
                        View.startFrame := s'; View.endFrame := e';
                        View.maxClipSize := size' |})) m = (Ok tt, m') /\
    getAnimationData false m' = (Ok (inl (JArr takes)), m').
Proof.
  intros Ht Hb Hl Hff Hg Hn.
  pose proof (loads_well_formed _ _ Hl) as Hwf.
  pose proof (stored_takes_well_formed _ _ Hwf Hg) as Hwt.
  pose proof (stored_takes_float_free _ _ Hff Hg) as Hft.
  set (on := {| View.clipName := clip; View.clipEnabled := true;
                View.startFrame := s; View.endFrame := e; View.maxClipSize := size |}).
  set (off := {| View.clipName := clip; View.clipEnabled := false;
                 View.startFrame := s'; View.endFrame := e'; View.maxClipSize := size' |}).
  destruct (new_take on) as [Hwn Hfn].
  set (new := take_json {| name := View.clipName on; startFrame := View.startFrame on;
                           endFrame := View.endFrame on |}) in *.
  set (settings1 := dict_set "animationTakes" (JArr (takes ++ [new])) settings).
  set (m1 := set_iconSettings (Some (Json.dumps (JObj settings1))) m).
  assert (Hw1 : well_formed (JObj settings1)).
  { apply dict_set_well_formed; [|exact Hwf]. apply well_formed_arr, Forall_app.
    split; [exact Hwt | constructor; [exact Hwn | constructor]]. }
  assert (Hf1 : float_free (JObj settings1)).
  { apply float_free_dict_set; [|exact Hff]. apply float_free_arr, Forall_app.
    split; [exact Hft | constructor; [exact Hfn | constructor]]. }
  assert (Hadd : View.updateClipData (View.payload on) m = (Ok tt, m1)).
  { apply (add_run m t blob settings takes on); try assumption. reflexivity. }
  assert (Hrem : View.updateClipData (View.payload off) m1 =
                 (Ok tt,
                  set_iconSettings
                    (Some (Json.dumps
                             (JObj (dict_set "animationTakes" (JArr (takes ++ [])) settings1))))
                    m1)).
  { apply (remove_run m1 t (Json.dumps (JObj settings1)) settings1 takes [] new off).
    - exact Ht.
    - reflexivity.
    - apply loads_dumps; assumption.
    - cbn [get]. unfold settings1. rewrite dict_lookup_set, String.eqb_refl. reflexivity.
    - exact Hn.
    - exists (JStr clip). split; [reflexivity|]. cbn [py_eq]. apply String.eqb_refl.
    - reflexivity. }
  eexists. split.
  - rewrite bind_run, Hadd. exact Hrem.
  - rewrite app_nil_r.
    assert (Hr := takes_stored m1 t settings1 takes Ht Hw1 Hf1 Hwt Hft).
    rewrite (getAnimationData_list _ _ Hr), takes_after_set. reflexivity.
Qed.

Lemma updateClipData_adds_take_activate :
  exists m' new settings',
    View.updateClipData
      (View.payload {| View.clipName := "activate"; View.clipEnabled := true;
                       View.startFrame := 12; View.endFrame := 40;
                       View.maxClipSize := 90 |}) Scenes.animated = (Ok tt, m') /\
    getAnimationData false m' =
      (Ok (inl (JArr ([take_json {| name := "idle"; startFrame := 1; endFrame := 2 |};
                       take_json {| name := "hover"; startFrame := 4; endFrame := 10 |}]
                      ++ [new]))), m') /\
    getitem new "name" = Ok (JStr "activate") /\
    getitem new "startFrame" = Ok (JInt 12) /\
    getitem new "endFrame" = Ok (JInt 40) /\
    contains "enabled" new = Ok false /\
    getIconSettings m' = (Ok (JObj settings'), m') /\
    (forall k, k <> "animationTakes" ->
               dict_lookup k settings' =
               dict_lookup k
                 [("outputPath", JStr "/out");
                  ("animationTakes",
                   JArr [take_json {| name := "idle"; startFrame := 1; endFrame := 2 |};
                         take_json {| name := "hover"; startFrame := 4; endFrame := 10 |}])]).
Proof.
  apply (updateClipData_adds_take Scenes.animated Scenes.iconTemplate Scenes.two_takes
           _ _
           {| View.clipName := "activate"; View.clipEnabled := true;
              View.startFrame := 12; View.endFrame := 40; View.maxClipSize := 90 |}).
  - reflexivity.
  - reflexivity.
  - vm_compute. reflexivity.
  - cbn. repeat split.
  - reflexivity.
  - repeat constructor; eexists; (split; [reflexivity | reflexivity]).
  - reflexivity.
Defined.

Lemma updateClipData_removes_take_idle :
  exists m' settings',
    View.updateClipData
      (View.payload {| View.clipName := "idle"; View.clipEnabled := false;
                       View.startFrame := 1; View.endFrame := 2;
                       View.maxClipSize := 2 |}) Scenes.animated = (Ok tt, m') /\
    getAnimationData false m' =
      (Ok (inl (JArr ([] ++
                      [take_json {| name := "hover"; startFrame := 4; endFrame := 10 |}]))),
       m') /\
    getIconSettings m' = (Ok (JObj settings'), m') /\
    (forall k, k <> "animationTakes" ->
               dict_lookup k settings' =
               dict_lookup k
                 [("outputPath", JStr "/out");
                  ("animationTakes",
                   JArr [take_json {| name := "idle"; startFrame := 1; endFrame := 2 |};
                         take_json {| name := "hover"; startFrame := 4; endFrame := 10 |}])]).
Proof.
  apply (updateClipData_removes_take Scenes.animated Scenes.iconTemplate Scenes.two_takes
           _ [] _ (take_json {| name := "idle"; startFrame := 1; endFrame := 2 |})
           {| View.clipName := "idle"; View.clipEnabled := false;
              View.startFrame := 1; View.endFrame := 2; View.maxClipSize := 2 |}).
  - reflexivity.
  - reflexivity.
  - vm_compute. reflexivity.
  - cbn. repeat split.
  - reflexivity.
  - constructor.
  - eexists. split; reflexivity.
  - reflexivity.
Defined.

Lemma enable_then_disable_activate :
  exists m',
    (View.updateClipData
       (View.payload {| View.clipName := "activate"; View.clipEnabled := true;
                        View.startFrame := 12; View.endFrame := 40;
                        View.maxClipSize := 90 |}) ;;
     View.updateClipData
       (View.payload {| View.clipName := "activate"; View.clipEnabled := false;
                        View.startFrame := 12; View.endFrame := 40;
                        View.maxClipSize := 90 |})) Scenes.animated = (Ok tt, m') /\
    getAnimationData false m' =
      (Ok (inl (JArr [take_json {| name := "idle"; startFrame := 1; endFrame := 2 |};
                      take_json {| name := "hover"; startFrame := 4; endFrame := 10 |}])),
       m').
Proof.
  apply (enable_then_disable Scenes.animated Scenes.iconTemplate Scenes.two_takes
           [("outputPath", JStr "/out");
            ("animationTakes",
             JArr [take_json {| name := "idle"; startFrame := 1; endFrame := 2 |};
                   take_json {| name := "hover"; startFrame := 4; endFrame := 10 |}])]).
  - reflexivity.
  - reflexivity.
  - vm_compute. reflexivity.
  - cbn. repeat split.
  - reflexivity.
  - repeat constructor; eexists; (split; [reflexivity | reflexivity]).
Defined.

Lemma py_eq_str (a : json) (c : string) : py_eq a (JStr c) = true -> a = JStr c.
Proof.
  destruct a; cbn [py_eq]; try discriminate. intros H. apply String.eqb_eq in H.
  subst. reflexivity.
Qed.

Lemma str_py_eq (a : json) (c : string) : py_eq (JStr c) a = true -> a = JStr c.
Proof.
  destruct a; cbn [py_eq]; try discriminate. intros H. apply String.eqb_eq in H.
  subst. reflexivity.
Qed.

Lemma table_get_store (c : string) (v : json) (d : table) :
  table_get (JStr c) (table_store (JStr c) v d) = Some v.
Proof.
  induction d as [|[k' v'] d IH]; cbn [table_store table_get].
  - cbn [py_eq]. rewrite String.eqb_refl. reflexivity.
  - destruct (py_eq k' (JStr c)) eqn:E; cbn [table_get]; rewrite E; [reflexivity | exact IH].
Qed.

Lemma table_get_store_other (c : string) (k v : json) (d : table) :
  py_eq k (JStr c) = false ->
  table_get (JStr c) (table_store k v d) = table_get (JStr c) d.
Proof.
  intros Hk. induction d as [|[k' v'] d IH]; cbn [table_store table_get].
  - rewrite Hk. reflexivity.
  - destruct (py_eq k' k) eqn:E; cbn [table_get].
    + destruct (py_eq k' (JStr c)) eqn:E'; [|reflexivity].
      apply py_eq_str in E'. subst k'. apply str_py_eq in E. subst k.
      cbn [py_eq] in Hk. rewrite String.eqb_refl in Hk. discriminate Hk.
    + rewrite IH. reflexivity.
Qed.

Lemma animation_table_app (l1 l2 : list json) (acc : table) :
  animation_table (l1 ++ l2) acc =
  match animation_table l1 acc with
  | Ok acc' => animation_table l2 acc'
  | Raise e => Raise e
  end.
Proof.
  revert acc. induction l1 as [|item l1 IH]; intros acc; [reflexivity|].
  cbn [app animation_table]. unfold mbind, result_bind.
  destruct (getitem item "startFrame"); [|reflexivity].
  destruct (getitem item "endFrame"); [|reflexivity].
  destruct (getitem item "name"); [|reflexivity].
  destruct (table_set _ _ acc); [apply IH | reflexivity].
Qed.

(** Takes that can be read give a table. *)
Lemma animation_table_readable (items : list json) (acc : table) :
  Forall readable_take items -> exists tbl, animation_table items acc = Ok tbl.
Proof.
  intros H. revert acc.
  induction H as [|item items (n & s & e & Hn & Hh & Hs & He) _ IH]; intros acc.
  - exists acc. reflexivity.
  - cbn [animation_table]. unfold mbind, result_bind. rewrite Hs, He, Hn.
    unfold table_set. rewrite Hh. apply IH.
Qed.

(** Takes of other names leave the entry of a name as it is. *)
Lemma animation_table_others (clip : string) (items : list json) (acc tbl : table) :
  Forall (other_name clip) items ->
  animation_table items acc = Ok tbl ->
  table_get (JStr clip) tbl = table_get (JStr clip) acc.
Proof.
  intros H. revert acc. induction H as [|item items (n & Hn & Hne) _ IH]; intros acc.
  - intros E; injection E as <-. reflexivity.
  - cbn [animation_table]. unfold mbind, result_bind.
    destruct (getitem item "startFrame"); [|discriminate].
    destruct (getitem item "endFrame"); [|discriminate].
    rewrite Hn. unfold table_set. destruct (hashable n); [|discriminate].
    intros E. rewrite (IH _ E). apply table_get_store_other, Hne.
Qed.

(** X14.  In the table of [getAnimationData] the last take of a name
    wins: when the stored list holds takes that share a name, the table
    gives, under that name, the frames of the last of them (and
    [updateClipData] finds the first). *)
Theorem getAnimationData_last_take_wins (m : maya) (l1 l2 : list json) (take : json)
  (clip : string) (s e : json) :
  getAnimationData false m = (Ok (inl (JArr (l1 ++ take :: l2))), m) ->
  Forall readable_take (l1 ++ take :: l2) ->
  getitem take "name" = Ok (JStr clip) ->
  getitem take "startFrame" = Ok s ->
  getitem take "endFrame" = Ok e ->
  Forall (other_name clip) l2 ->
  exists tbl,
    getAnimationData true m = (Ok (inr tbl), m) /\
    table_get (JStr clip) tbl = Some (JObj [("startFrame", s); ("endFrame", e)]).
Proof.
  intros Hlist Hread Hn Hs He Hl2.
  unfold getAnimationData in Hlist.
  apply bind_inv in Hlist as (sd & m1 & Hsd & Hlist).
  pose proof (getIconSettings_ok _ _ _ Hsd); subst m1.
  apply bind_inv in Hlist as (animData & m1 & Hg & Hlist).
  rewrite lift_run in Hg. injection Hg as Hg <-.
  cbn [negb] in Hlist. injection Hlist as ->.
  destruct (animation_table_readable _ [] Hread) as (tbl & Htbl).
  exists tbl. split.
  - unfold getAnimationData.
    rewrite bind_run, Hsd, bind_run, lift_run, Hg. cbn [negb].
    rewrite bind_run, lift_run. cbn [iter]. rewrite bind_run, lift_run, Htbl. reflexivity.
  - rewrite animation_table_app in Htbl.
    destruct (animation_table l1 []) as [acc1|]; [|discriminate].
    cbn [animation_table] in Htbl. unfold mbind, result_bind in Htbl.
    rewrite Hs, He, Hn in Htbl. cbn [table_set hashable] in Htbl.
    rewrite (animation_table_others clip l2 _ tbl Hl2 Htbl). apply table_get_store.
Qed.

Lemma getAnimationData_last_take_wins_animated :
  exists tbl,
    getAnimationData true Scenes.animated = (Ok (inr tbl), Scenes.animated) /\
    table_get (JStr "hover") tbl =
    Some (JObj [("startFrame", JInt 4); ("endFrame", JInt 10)]).
Proof.
  apply (getAnimationData_last_take_wins Scenes.animated
           [take_json {| name := "idle"; startFrame := 1; endFrame := 2 |}] []
           (take_json {| name := "hover"; startFrame := 4; endFrame := 10 |})).
  - vm_compute. reflexivity.
  - repeat constructor; do 3 eexists; repeat split; reflexivity.
  - reflexivity.
  - reflexivity.
  - reflexivity.
  - constructor.
Defined.

End ClipStore.

(** ** The materials and animation steps *)

Module MaterialsStep.
Import Py Maya Constants Core Observe Notions MonadFacts FrameFacts IconMaterialsWidget.

(** The texture of a material as [getTexture] finds it. *)
Lemma getTexturesFromMaterials_omap (materials : list string) (m : maya) :
  getTexturesFromMaterials materials m =
  (Ok (omap (fun material =>
               if objExists (network m) material
               then head (colorFileNodes (network m) material) else None) materials), m).
Proof.
  induction materials as [|mat materials IH]; cbn [getTexturesFromMaterials]; [reflexivity|].
  rewrite bind_run, getTexture_run, bind_run, IH. cbn [omap list_omap].
  destruct (objExists (network m) mat); [|reflexivity].
  destruct (head _); reflexivity.
Qed.

Lemma check_textures_run (textures : list string) (checked : bool) (m : maya) :
  check_textures textures checked m =
  (Ok (forallb (fun t => negb (String.eqb (fileTextureName (network m) t) "")) textures
       && checked), m).
Proof.
  induction textures as [|t textures IH]; cbn [check_textures forallb]; [reflexivity|].
  unfold getFilePathFromTexture. rewrite !bind_run, gets_run.
  change ((mret (fileTextureName (network m) t) : M string) m)
    with (Ok (fileTextureName (network m) t), m).
  cbn beta iota.
  destruct (String.eqb (fileTextureName (network m) t) ""); [reflexivity | exact IH].
Qed.

Lemma omap_length_le {A B} (f : A -> option B) (l : list A) :
  (length (omap f l) <= length l)%nat.
Proof.
  induction l as [|x l IH]; [reflexivity|]. cbn [omap list_omap length].
  destruct (f x); cbn [length]; lia.
Qed.

(** Every element has an image that passes [g], exactly when no element is
    dropped and every image passes [g]. *)
Lemma omap_all {A B} (f : A -> option B) (g : B -> bool) (l : list A) :
  length (omap f l) = length l /\ forallb g (omap f l) = true <->
  Forall (fun x => exists y, f x = Some y /\ g y = true) l.
Proof.
  induction l as [|x l IH].
  - split; [constructor | split; reflexivity].
  - cbn [omap list_omap length]. destruct (f x) as [y|] eqn:E.
    + cbn [length forallb]. rewrite Forall_cons, <- IH, andb_true_iff. split.
      * intros (Hlen & Hg & Hall). split; [exists y; auto|]. split; [lia | exact Hall].
      * intros ((y' & Hy & Hg) & Hlen & Hall). rewrite E in Hy. injection Hy as <-.
        split; [lia | split; assumption].
    + split.
      * intros (Hlen & _). pose proof (omap_length_le f l). lia.
      * intros H. apply Forall_cons in H as ((y & Hy & _) & _). rewrite E in Hy.
        discriminate Hy.
Qed.

Lemma textured_iff (m : maya) (material : string) :
  textured m material <->
  exists t,
    (if objExists (network m) material
     then head (colorFileNodes (network m) material) else None) = Some t /\
    negb (String.eqb (fileTextureName (network m) t) "") = true.
Proof.
  unfold textured. split.
  - intros (t & path & Ht & Hp & Hne). rewrite getTexture_run in Ht.
    injection Ht as Ht. exists t. split; [exact Ht|].
    change (getFilePathFromTexture t m) with (Ok (fileTextureName (network m) t), m) in Hp.
    injection Hp as <-. apply negb_true_iff, String.eqb_neq, Hne.
  - intros (t & Ht & Hne). exists t, (fileTextureName (network m) t).
    rewrite getTexture_run, Ht. split; [reflexivity|]. split; [reflexivity|].
    apply String.eqb_neq, negb_true_iff, Hne.
Qed.

(** X15.  The materials step is complete exactly when the icon has between
    one and five materials, every one of them takes its colour from a file
    texture with a file path, and no mesh has a material of an unsupported
    type.  [check] reads the scene and changes nothing. *)
Theorem materials_check (self : widget) (m : maya) :
  exists checked,
    check self m = (Ok checked, m) /\
    (checked = true <->
     (1 <= length (_materials self) <= 5)%nat /\
     Forall (textured m) (_materials self) /\
     _unsupportedMaterials self = []).
Proof.
  unfold check. rewrite bind_run, getTexturesFromMaterials_omap, bind_run, check_textures_run.
  eexists. split; [reflexivity|].
  set (f := fun material => if objExists (network m) material
                            then head (colorFileNodes (network m) material) else None).
  set (g := fun t => negb (String.eqb (fileTextureName (network m) t) "")).
  assert (Hall : Forall (textured m) (_materials self) <->
                 length (omap f (_materials self)) = length (_materials self) /\
                 forallb g (omap f (_materials self)) = true).
  { rewrite omap_all. apply Forall_proper; [|reflexivity]. intros mat.
    apply textured_iff. }
  rewrite Hall. unfold materialCountMax, materialCount, maxMaterialsForIcon,
    portalSkySphereMaterialCount.
  destruct (_unsupportedMaterials self) as [|u us].
  - destruct (Nat.leb_spec (5 + 1) (length (_materials self))) as [Hm|Hm];
      destruct (Nat.eqb_spec (length (_materials self)) 0) as [H0|H0];
      destruct (Nat.eqb_spec (length (omap f (_materials self)))
                  (length (_materials self))) as [Hl|Hl];
      cbn [negb orb]; rewrite ?andb_false_r, ?andb_true_r;
      try (split; [discriminate |
                   intros ((? & ?) & (? & ?) & _); first [lia | contradiction]]).
    split.
    + intros Hg. split; [lia|]. split; [split; assumption | reflexivity].
    + intros (_ & (_ & Hg) & _). exact Hg.
  - split; [discriminate | intros (_ & _ & H); discriminate H].
Qed.

Lemma engine_step_partition (net : shading) (engines : list string)
  (result unsupported : list string) :
  Forall (fun material => valid_material net material = false) unsupported ->
  fold_left (engine_step net) engines (result, unsupported) =
  (result ++ filter (fun material => valid_material net material = true)
                    (concat (map (surfaceShader net) engines)),
   unsupported ++ filter (fun material => valid_material net material = false)
                         (concat (map (surfaceShader net) engines))).
Proof.
  revert result unsupported.
  induction engines as [|engine engines IH]; intros result unsupported Hu.
  - cbn. rewrite !app_nil_r. reflexivity.
  - cbn [fold_left map concat]. unfold engine_step at 2.
    set (connected := surfaceShader net engine).
    set (unsupported' := unsupported ++ filter _ connected).
    assert (Hu' : Forall (fun material => valid_material net material = false) unsupported').
    { apply Forall_app. split; [exact Hu|]. apply Forall_forall. intros x Hx.
      apply list_elem_of_filter in Hx as [Hx _]. exact Hx. }
    rewrite (IH _ _ Hu'). rewrite !filter_app, !app_assoc. f_equal.
    f_equal. f_equal.
    (* what is kept of [connected] is what has a valid type *)
    assert (Hin : forall x, x ∈ connected ->
                   (str_in x unsupported' = false <-> valid_material net x = true)).
    { intros x Hx. split.
      - intros Hn. destruct (valid_material net x) eqn:Ev; [reflexivity|]. exfalso.
        assert (x ∈ unsupported').
        { apply elem_of_app. right. apply list_elem_of_filter. split; assumption. }
        assert (str_in x unsupported' = true); [|congruence].
        unfold str_in. apply existsb_exists. exists x.
        split; [apply list_elem_of_In; assumption | apply String.eqb_refl].
      - intros Hv. destruct (str_in x unsupported') eqn:Es; [|reflexivity]. exfalso.
        unfold str_in in Es. apply existsb_exists in Es as (y & Hy & Hxy).
        apply String.eqb_eq in Hxy. subst y. apply list_elem_of_In in Hy.
        rewrite Forall_forall in Hu'. rewrite (Hu' _ Hy) in Hv. discriminate Hv. }
    clearbody connected unsupported'. clear -Hin.
    induction connected as [|x connected IHc]; [reflexivity|].
    rewrite !filter_cons.
    assert (Hx := Hin x ltac:(left)).
    assert (IHc' := IHc (fun y Hy => Hin y ltac:(right; exact Hy))).
    destruct (decide (str_in x unsupported' = false)) as [H1|H1];
      destruct (decide (valid_material net x = true)) as [H2|H2].
    + f_equal. exact IHc'.
    + exfalso. apply H2, Hx, H1.
    + exfalso. apply H1, Hx, H2.
    + exact IHc'.
Qed.

(** X16.  [getMaterialsForMesh] sorts the materials of a mesh by type: for a
    mesh of the scene it returns, of the materials connected to the shading
    engines of the mesh, those of a valid type (blinn, lambert, phong) as
    the materials and all the others as unsupported, each list in the order
    of the connections. *)
Theorem getMaterialsForMesh_partition (mesh : dagnode) (m : maya) :
  objExists (network m) (getNodePath mesh) = true ->
  getMaterialsForMesh mesh m =
  (Ok (Some
         (filter (fun material => valid_material (network m) material = true)
                 (connected_materials (network m) (getNodePath mesh)),
          filter (fun material => valid_material (network m) material = false)
                 (connected_materials (network m) (getNodePath mesh)))), m).
Proof.
  intros He. unfold getMaterialsForMesh. rewrite bind_run, gets_run, He. cbn [negb].
  change ((mret ?x : M _) m) with (Ok x, m).
  rewrite engine_step_partition by constructor. reflexivity.
Qed.

Lemma getMaterialsForMesh_partition_body :
  getMaterialsForMesh (Scenes.meshShape "|IconTemplate|Model|body|shape") Scenes.animated =
  (Ok (Some (["lambert1"], [])), Scenes.animated).
Proof.
  apply (getMaterialsForMesh_partition
           (Scenes.meshShape "|IconTemplate|Model|body|shape") Scenes.animated).
  reflexivity.
Defined.

Lemma getMaterialsForMeshes_run (meshes : list dagnode) (m : maya) :
  exists r, getMaterialsForMeshes meshes m = (r, m).
Proof.
  destruct (getMaterialsForMeshes meshes m) as [r m'] eqn:E. exists r.
  pose proof (readonly_getMaterialsForMeshes meshes m) as H. rewrite E in H.
  cbn [snd] in H. subst m'. reflexivity.
Qed.

Lemma getMaterialsForMesh_exists (mesh : dagnode) (m : maya) :
  objExists (network m) (getNodePath mesh) = true ->
  exists r, getMaterialsForMesh mesh m = (Ok (Some r), m).
Proof.
  intros He. unfold getMaterialsForMesh. rewrite bind_run, gets_run, He. cbn [negb].
  eexists. reflexivity.
Qed.

(** X17.  A mesh that is not in the scene stops [getMaterialsForMeshes]:
    [getMaterialsForMesh] returns a bare empty list for it, which cannot be
    unpacked into materials and unsupported materials, and the call raises
    [ValueError], whatever the other meshes are. *)
Theorem getMaterialsForMeshes_missing_mesh (meshes : list dagnode) (m : maya) :
  Exists (fun mesh => objExists (network m) (getNodePath mesh) = false) meshes ->
  getMaterialsForMeshes meshes m = (Raise ValueError, m).
Proof.
  induction meshes as [|mesh meshes IH]; intros H; [inversion H|].
  cbn [getMaterialsForMeshes]. rewrite bind_run.
  destruct (objExists (network m) (getNodePath mesh)) eqn:E.
  - destruct (getMaterialsForMesh_exists mesh m E) as ([mats unsupported] & ->).
    apply Exists_cons in H as [H|H]; [congruence|].
    rewrite bind_run, (IH H). reflexivity.
  - unfold getMaterialsForMesh. rewrite bind_run, gets_run, E. reflexivity.
Qed.

Lemma getMaterialsForMeshes_missing_mesh_lid :
  getMaterialsForMeshes
    [Scenes.meshShape "|IconTemplate|Model|body|shape";
     Scenes.meshShape "|IconTemplate|Model|lid|shape"] lid_deleted =
  (Raise ValueError, lid_deleted).
Proof.
  apply (getMaterialsForMeshes_missing_mesh
           [Scenes.meshShape "|IconTemplate|Model|body|shape";
            Scenes.meshShape "|IconTemplate|Model|lid|shape"] lid_deleted).
  apply Exists_cons_tl, Exists_cons_hd. reflexivity.
Defined.

End MaterialsStep.

Module AnimationStep.
Import Py Maya Constants Core Observe Notions MonadFacts FrameFacts View.

Lemma check_joints_true (keys : string -> Z -> bool) (paths : list string)
  (startFrame endFrame : Z) (checked : bool) :
  check_joints keys paths startFrame endFrame checked = true <->
  (paths = [] /\ checked = true) \/
  (paths <> [] /\
   Forall (fun p => keys p startFrame = true /\ keys p endFrame = true) paths).
Proof.
  revert checked. induction paths as [|p paths IH]; intros checked; cbn [check_joints].
  - split; [intros ->; left; auto | intros [[_ H]|[H _]]; [exact H | contradiction]].
  - destruct (keys p endFrame) eqn:Ee; destruct (keys p startFrame) eqn:Es; cbn [andb].
    2-4: split; [discriminate|];
         intros [[H _]|[_ H]]; [discriminate H|];
         apply Forall_cons in H as [[H1 H2] _]; congruence.
    rewrite IH. split.
    + intros [[-> _]|[_ H]]; right; (split; [discriminate|]).
      * repeat constructor; assumption.
      * constructor; [split; assumption | exact H].
    + intros [[H _]|[_ H]]; [discriminate H|]. apply Forall_cons in H as [_ H].
      destruct paths; [left; auto | right; split; [discriminate | exact H]].
Qed.

(** What [checkTakeForAnimation] does in a session: the frames matter only
    to the value it returns. *)
Lemma checkTakeForAnimation_run (startFrame endFrame : Z) (m : maya) :
  checkTakeForAnimation startFrame endFrame m =
  (match template m with
   | None => Ok false
   | Some _ =>
       match modelComponent m with
       | None => Raise (nullObjectError m)
       | Some node =>
           Ok (check_joints (trsKeys m) (map getNodePath (children_of true kJoint node))
                 startFrame endFrame false)
       end
   end, m).
Proof.
  unfold checkTakeForAnimation, iconTemplateExists, getModelComponentNode, getChildren.
  rewrite bind_run, gets_run. destruct (template m) as [t|] eqn:Ht; cbn [negb]; [|reflexivity].
  rewrite bind_run, gets_run, Ht, bind_run, bind_run.
  destruct (modelComponent m); reflexivity.
Qed.

(** X18.  A take passes [checkTakeForAnimation] exactly when the Model
    component has at least one joint and every joint below it has a key at
    the start frame and at the end frame: a model without joints never
    passes. *)
Theorem checkTakeForAnimation_verdict (m : maya) (t model : dagnode)
  (startFrame endFrame : Z) :
  template m = Some t ->
  modelComponent m = Some model ->
  exists checked,
    checkTakeForAnimation startFrame endFrame m = (Ok checked, m) /\
    (checked = true <->
     children_of true kJoint model <> [] /\
     Forall (keyed m startFrame endFrame) (children_of true kJoint model)).
Proof.
  intros Ht Hm. rewrite checkTakeForAnimation_run, Ht, Hm. eexists. split; [reflexivity|].
  rewrite check_joints_true. rewrite Forall_fmap. unfold keyed. split.
  - intros [[_ H]|[Hne H]]; [discriminate H|]. split; [|exact H].
    intros E. rewrite E in Hne. apply Hne. reflexivity.
  - intros [Hne H]. right. split; [|exact H].
    destruct (children_of true kJoint model); [contradiction | discriminate].
Qed.

Lemma checkTakeForAnimation_verdict_animated :
  exists checked,
    checkTakeForAnimation 4 10 Scenes.animated = (Ok checked, Scenes.animated) /\
    (checked = true <->
     children_of true kJoint Scenes.modelGroup <> [] /\
     Forall (keyed Scenes.animated 4 10) (children_of true kJoint Scenes.modelGroup)).
Proof.
  apply (checkTakeForAnimation_verdict Scenes.animated Scenes.iconTemplate Scenes.modelGroup).
  - reflexivity.
  - reflexivity.
Defined.

Lemma check_clip_run (checked : bool) (w : AnimationClipWidget) (m : maya) :
  exists r, check_clip checked w m = (r, m) /\
            (clipEnabled w = false -> r = Ok checked) /\
            (clipEnabled w = true -> forall checked', check_clip checked' w m = (r, m)) /\
            (forall e, r = Raise e ->
                       forall checked' w', clipEnabled w' = true ->
                                           check_clip checked' w' m = (Raise e, m)).
Proof.
  unfold check_clip. destruct (clipEnabled w) eqn:Ew; cbn [negb].
  - rewrite bind_run, checkTakeForAnimation_run.
    destruct (template m) as [t|] eqn:Ht.
    + destruct (modelComponent m) as [node|] eqn:Hm.
      * eexists. split; [reflexivity|]. split; [discriminate|]. split.
        -- intros _ checked'. reflexivity.
        -- intros e He. discriminate He.
      * eexists. split; [reflexivity|]. split; [discriminate|]. split.
        -- intros _ checked'. reflexivity.
        -- intros e He checked' w' Hw'. injection He as <-. rewrite Hw'. cbn [negb].
           rewrite bind_run, checkTakeForAnimation_run, Ht, Hm. reflexivity.
    + eexists. split; [reflexivity|]. split; [discriminate|]. split.
      * intros _ checked'. reflexivity.
      * intros e He. discriminate He.
  - exists (Ok checked). split; [reflexivity|]. split; [reflexivity|]. split.
    + discriminate.
    + intros e He. discriminate He.
Qed.

Lemma check_from_disabled (checked : bool) (data : list AnimationClipWidget) (m : maya) :
  Forall (fun w => clipEnabled w = false) data ->
  check_from checked data m = (Ok checked, m).
Proof.
  induction 1 as [|w data Hw _ IH]; [reflexivity|].
  cbn [check_from]. rewrite bind_run. unfold check_clip. rewrite Hw. cbn [negb].
  exact IH.
Qed.

Lemma check_from_last (w : AnimationClipWidget) (data1 data2 : list AnimationClipWidget)
  (m : maya) :
  clipEnabled w = true ->
  Forall (fun w' => clipEnabled w' = false) data2 ->
  forall checked checked',
    check_from checked (data1 ++ w :: data2) m = check_clip checked' w m.
Proof.
  intros Hw H2. induction data1 as [|x data1 IH]; intros checked checked'.
  - cbn [app check_from]. rewrite bind_run.
    destruct (check_clip_run checked w m) as (r & Hr & _ & Hsame & _).
    rewrite Hr, (Hsame Hw checked').
    destruct r as [b|e]; [|reflexivity]. apply check_from_disabled, H2.
  - cbn [app check_from]. rewrite bind_run.
    destruct (check_clip_run checked x m) as (r & Hr & Hoff & _ & Hraise).
    rewrite Hr. destruct r as [b|e].
    + apply IH.
    + destruct (clipEnabled x) eqn:Ex.
      * symmetry. apply (Hraise e eq_refl checked' w Hw).
      * specialize (Hoff eq_refl). discriminate Hoff.
Qed.

(** X19.  The verdict of the animation step is that of the last enabled
    clip alone, in the order in which [check] visits the widgets: [check]
    gives what it gives for that clip by itself, whatever the clips before
    it are and whether they pass or not; with no clip enabled the step is
    not complete. *)
Theorem check_last_enabled (m : maya) (data1 data2 : list AnimationClipWidget)
  (w : AnimationClipWidget) :
  clipEnabled w = true ->
  Forall (fun w' => clipEnabled w' = false) data2 ->
  check (data1 ++ w :: data2) m = check [w] m /\
  check data2 m = (Ok false, m).
Proof.
  intros Hw H2. split.
  - unfold check.
    rewrite (check_from_last w data1 data2 m Hw H2 false false).
    change [w] with ([] ++ w :: []).
    rewrite (check_from_last w [] [] m Hw (List.Forall_nil _) false false). reflexivity.
  - apply check_from_disabled, H2.
Qed.

Lemma check_last_enabled_hover :
  check (clipWidgets ICON_ANIMATION_CLIPS 1 [("idle", (1, 9)); ("hover", (4, 10))])
        Scenes.animated =
  check [{| clipName := "hover"; clipEnabled := true; startFrame := 4; endFrame := 10;
            maxClipSize := 600 |}] Scenes.animated /\
  check [newClipWidget "activate" 605 694; newClipWidget "menu" 696 1295;
         newClipWidget "loading" 1297 1596] Scenes.animated =
  (Ok false, Scenes.animated).
Proof.
  apply (check_last_enabled Scenes.animated
           [{| clipName := "idle"; clipEnabled := true; startFrame := 1; endFrame := 9;
               maxClipSize := 2 |}]
           [newClipWidget "activate" 605 694; newClipWidget "menu" 696 1295;
            newClipWidget "loading" 1297 1596]
           {| clipName := "hover"; clipEnabled := true; startFrame := 4; endFrame := 10;
              maxClipSize := 600 |}).
  - reflexivity.
  - repeat constructor.
Defined.

End AnimationStep.

(** ** Texts, meta types and the device bridge *)

Module TextFacts.
Import Py Text Observe Notions StringFacts.

Lemma split_cons (sep : ascii) (s : string) : exists h t, split sep s = h :: t.
Proof.
  induction s as [|c s (h & t & IH)]; [exists "", []; reflexivity|].
  cbn [split]. rewrite IH. destruct (Ascii.eqb c sep); eauto.
Qed.

Lemma split_app (sep : ascii) (a b : string) :
  split sep (a +:+ String sep b) = split sep a ++ split sep b.
Proof.
  induction a as [|c a IH].
  - rewrite append_nil. cbn [split]. rewrite Ascii.eqb_refl.
    destruct (split_cons sep b) as (h & t & ->). reflexivity.
  - rewrite append_cons. cbn [split]. rewrite IH.
    destruct (split_cons sep a) as (h & t & ->). cbn [app].
    destruct (Ascii.eqb c sep); reflexivity.
Qed.

Lemma split_without (sep : ascii) (s : string) :
  without sep s = true -> split sep s = [s].
Proof.
  unfold without. induction s as [|c s IH]; [reflexivity|].
  cbn [string_forallb split]. intros H. apply andb_prop in H as [Hc Hs].
  rewrite (IH Hs). apply negb_true_iff in Hc. rewrite Hc. reflexivity.
Qed.

(** The pieces of a split do not hold the separator. *)
Lemma split_pieces (sep : ascii) (s : string) :
  Forall (fun piece => without sep piece = true) (split sep s).
Proof.
  induction s as [|c s IH]; [repeat constructor|].
  cbn [split]. destruct (split_cons sep s) as (h & t & E). rewrite E in IH |- *.
  apply Forall_cons in IH as [Hh Ht].
  destruct (Ascii.eqb c sep) eqn:Ec.
  - constructor; [reflexivity|]. constructor; assumption.
  - constructor; [|exact Ht]. unfold without in *. cbn [string_forallb].
    rewrite Ec, Hh. reflexivity.
Qed.

Lemma usplitlines_line (l rest : string) :
  one_line l = true ->
  usplitlines (l +:+ String "010" rest) = l :: usplitlines rest.
Proof.
  unfold one_line. induction l as [|c l IH]; intros H.
  - rewrite append_nil. reflexivity.
  - cbn [string_forallb] in H. apply andb_prop in H as [Hc Hl].
    rewrite append_cons. cbn [usplitlines]. rewrite (IH Hl).
    apply negb_true_iff in Hc. apply orb_false_iff in Hc as [Hc H226].
    apply orb_false_iff in Hc as [Hc H194]. apply orb_false_iff in Hc as [H13 Hbr].
    rewrite H13, Hbr, H194, H226. reflexivity.
Qed.

End TextFacts.

Module MetaTypes.
Import Py Utils Text Observe Notions StringFacts TextFacts.

Lemma existsb_eqb (x : string) (l : list string) :
  existsb (String.eqb x) l = true <-> x ∈ l.
Proof.
  rewrite existsb_exists. split.
  - intros (y & Hy & E). apply String.eqb_eq in E. subst y. apply list_elem_of_In, Hy.
  - intros H. exists x. split; [apply list_elem_of_In, H | apply String.eqb_refl].
Qed.

(** What [setMetaType] leaves in the attribute of the node. *)
Lemma setMetaType_lookup (nodePath metaType : string) (attrs : attributes) :
  setMetaType nodePath metaType attrs !! nodePath =
  Some (Some (match attrs !! nodePath with
              | Some (Some data) =>
                  if String.eqb data "" then metaType else data +:+ ":" +:+ metaType
              | _ => metaType
              end)).
Proof.
  unfold setMetaType, attributes in *. cbv zeta. rewrite lookup_insert_eq. do 2 f_equal.
  destruct (attrs !! nodePath) as [[data|]|] eqn:E.
  - rewrite bool_decide_true by eauto. cbn [negb]. rewrite E. cbn [default from_option id].
    destruct (String.eqb data ""); reflexivity.
  - rewrite bool_decide_true by eauto. cbn [negb]. rewrite E. reflexivity.
  - rewrite bool_decide_false by (intros [x Hx]; discriminate Hx). cbn [negb].
    rewrite lookup_insert_eq. reflexivity.
Qed.

Lemma setMetaType_lookup_other (nodePath metaType other : string) (attrs : attributes) :
  other <> nodePath ->
  setMetaType nodePath metaType attrs !! other = attrs !! other.
Proof.
  intros Hne. unfold setMetaType, attributes in *. cbv zeta.
  rewrite lookup_insert_ne by congruence.
  destruct (negb _); [rewrite lookup_insert_ne by congruence|]; reflexivity.
Qed.

(** X20.  A meta type given to a node is found on it: after
    [setMetaType], [hasMetaType] answers [True] for the meta type (a
    non-empty text without a colon), still answers [True] for every meta
    type it answered [True] for before, and answers for other nodes as it
    did before. *)
Theorem setMetaType_hasMetaType (nodePath metaType : string) (attrs : attributes) :
  without ":" metaType = true ->
  metaType <> "" ->
  hasMetaType nodePath metaType (setMetaType nodePath metaType attrs) = Ok true /\
  (forall earlier,
     earlier <> "" ->
     hasMetaType nodePath earlier attrs = Ok true ->
     hasMetaType nodePath earlier (setMetaType nodePath metaType attrs) = Ok true) /\
  (forall other queried,
     other <> nodePath ->
     hasMetaType other queried (setMetaType nodePath metaType attrs) =
     hasMetaType other queried attrs).
Proof.
  intros Hc Hne. split; [|split].
  - unfold hasMetaType. rewrite setMetaType_lookup.
    destruct (attrs !! nodePath) as [[data|]|].
    + destruct (String.eqb data "").
      * rewrite (split_without _ _ Hc). cbn [existsb]. rewrite String.eqb_refl. reflexivity.
      * change (data +:+ ":" +:+ metaType) with (data +:+ String ":" metaType).
        rewrite split_app, (split_without _ _ Hc). f_equal. apply existsb_eqb.
        apply elem_of_app. right. left.
    + rewrite (split_without _ _ Hc). cbn [existsb]. rewrite String.eqb_refl. reflexivity.
    + rewrite (split_without _ _ Hc). cbn [existsb]. rewrite String.eqb_refl. reflexivity.
  - intros earlier He. unfold hasMetaType. rewrite setMetaType_lookup.
    destruct (attrs !! nodePath) as [[data|]|]; try discriminate.
    intros H. injection H as H. apply existsb_eqb in H. f_equal. apply existsb_eqb.
    destruct (String.eqb_spec data "") as [->|_].
    + cbn [split] in H. apply list_elem_of_singleton in H. contradiction.
    + change (data +:+ ":" +:+ metaType) with (data +:+ String ":" metaType).
      rewrite split_app. apply elem_of_app. left. exact H.
  - intros other queried Ho. unfold hasMetaType.
    rewrite (setMetaType_lookup_other _ _ _ _ Ho). reflexivity.
Qed.

Lemma setMetaType_hasMetaType_template :
  hasMetaType "|IconTemplate" "iconComponent"
    (setMetaType "|IconTemplate" "iconComponent"
       (<["|IconTemplate" := Some "iconTemplate"]> ∅)) = Ok true /\
  (forall earlier,
     earlier <> "" ->
     hasMetaType "|IconTemplate" earlier (<["|IconTemplate" := Some "iconTemplate"]> ∅) =
     Ok true ->
     hasMetaType "|IconTemplate" earlier
       (setMetaType "|IconTemplate" "iconComponent"
          (<["|IconTemplate" := Some "iconTemplate"]> ∅)) = Ok true) /\
  (forall other queried,
     other <> "|IconTemplate" ->
     hasMetaType other queried
       (setMetaType "|IconTemplate" "iconComponent"
          (<["|IconTemplate" := Some "iconTemplate"]> ∅)) =
     hasMetaType other queried (<["|IconTemplate" := Some "iconTemplate"]> ∅)).
Proof.
  apply (setMetaType_hasMetaType "|IconTemplate" "iconComponent"
           (<["|IconTemplate" := Some "iconTemplate"]> ∅)).
  - reflexivity.
  - discriminate.
Defined.

(** X21.  A meta type that holds a colon is never found: [hasMetaType]
    compares the meta type with the pieces between the colons of the
    attribute, so that right after [setMetaType] has stored such a meta type
    on a node, [hasMetaType] answers [False] for it. *)
Theorem hasMetaType_colon (nodePath metaType : string) (attrs : attributes) :
  without ":" metaType = false ->
  hasMetaType nodePath metaType (setMetaType nodePath metaType attrs) = Ok false.
Proof.
  intros Hc. unfold hasMetaType. rewrite setMetaType_lookup. f_equal.
  destruct (existsb _ _) eqn:E; [|reflexivity]. exfalso.
  apply existsb_eqb in E.
  pose proof (split_pieces ":" (match attrs !! nodePath with
                                | Some (Some data) =>
                                    if String.eqb data "" then metaType
                                    else data +:+ ":" +:+ metaType
                                | _ => metaType
                                end)) as H.
  rewrite Forall_forall in H. rewrite (H _ E) in Hc. discriminate Hc.
Qed.

Lemma hasMetaType_colon_template :
  hasMetaType "|IconTemplate" "icon:template"
    (setMetaType "|IconTemplate" "icon:template" ∅) = Ok false.
Proof.
  apply (hasMetaType_colon "|IconTemplate" "icon:template" ∅). reflexivity.
Defined.

End MetaTypes.

Module DeviceBridge.
Import Py Text Mldb Core Observe Notions StringFacts TextFacts MetaTypes ClipStore.

Lemma one_line_app (a b : string) :
  one_line (a +:+ b) = one_line a && one_line b.
Proof.
  unfold one_line. induction a as [|c a IH]; [reflexivity|].
  rewrite append_cons. cbn [string_forallb]. rewrite IH, andb_assoc. reflexivity.
Qed.

Lemma device_entry_line (device : string * string) :
  device_entry device = true ->
  one_line (device_line device) = true /\
  device_line device <> "" /\
  first_of (split "009" (device_line device)) = fst device.
Proof.
  unfold device_entry, device_line. intros H.
  apply andb_prop in H as [H Hs]. apply andb_prop in H as [Hl Ht]. split; [|split].
  - rewrite one_line_app, Hl. cbn [andb]. unfold one_line in *. cbn [string_forallb].
    rewrite Hs. reflexivity.
  - destruct (fst device); discriminate.
  - rewrite split_app, (split_without _ _ Ht). reflexivity.
Qed.

Lemma usplitlines_device_lines (devices : list (string * string)) :
  Forall (fun d => device_entry d = true) devices ->
  usplitlines (device_lines devices) = map device_line devices /\
  usplitlines (device_lines devices +:+ String "010" "") = map device_line devices ++ [""].
Proof.
  induction 1 as [|d devices Hd _ [IH1 IH2]]; [split; reflexivity|].
  destruct (device_entry_line d Hd) as (Hl & _ & _).
  cbn [device_lines map app]. split.
  - rewrite (usplitlines_line _ _ Hl), IH1. reflexivity.
  - rewrite append_assoc. rewrite append_cons. rewrite (usplitlines_line _ _ Hl), IH2.
    reflexivity.
Qed.

Lemma list_remove_last (l : list string) :
  Forall (fun x => x <> "") l -> list_remove "" (l ++ [""]) = Ok l.
Proof.
  induction 1 as [|x l Hx _ IH]; [reflexivity|].
  cbn [app list_remove]. destruct (String.eqb_spec x "") as [E|_]; [contradiction|].
  unfold mbind, result_bind. rewrite IH. reflexivity.
Qed.

Lemma list_remove_absent (l : list string) :
  Forall (fun x => x <> "") l -> list_remove "" l = Raise ValueError.
Proof.
  induction 1 as [|x l Hx _ IH]; [reflexivity|].
  cbn [list_remove]. destruct (String.eqb_spec x "") as [E|_]; [contradiction|].
  unfold mbind, result_bind. rewrite IH. reflexivity.
Qed.

(** X22.  [fetch_devices] gives the serial numbers of the output of
    [mldb devices] in the order of its lines, and relies on the empty line
    at its end: from a header, one line per device and an empty line it
    returns the serial numbers, none for no device; from the same output
    without the final empty line it raises [ValueError]. *)
Theorem fetch_devices_serials (header : string) (devices : list (string * string)) :
  one_line header = true ->
  Forall (fun d => device_entry d = true) devices ->
  fetch_devices (devices_output header devices) =
    Ok (JObj [("devices", JArr (map (fun d => JStr (fst d)) devices))]) /\
  fetch_devices (header +:+ String "010" (device_lines devices)) = Raise ValueError.
Proof.
  intros Hh Hd. destruct (usplitlines_device_lines devices Hd) as [H1 H2].
  assert (Hne : Forall (fun x => x <> "") (map device_line devices)).
  { apply Forall_fmap. eapply Forall_impl; [exact Hd|]. intros d Hd'.
    apply (device_entry_line d Hd'). }
  unfold fetch_devices, devices_output. split.
  - rewrite (usplitlines_line _ _ Hh), H2. cbn [tail].
    rewrite (list_remove_last _ Hne). unfold mbind, result_bind, mret, result_ret.
    do 5 f_equal. rewrite <- list_fmap_compose. apply Forall_fmap_ext_1.
    eapply Forall_impl; [exact Hd|]. intros d Hd'. cbn. f_equal.
    apply (device_entry_line d Hd').
  - rewrite (usplitlines_line _ _ Hh), H1. cbn [tail].
    rewrite (list_remove_absent _ Hne). reflexivity.
Qed.

Lemma fetch_devices_serials_two :
  fetch_devices
    (devices_output "List of devices attached"
       [("G1A2B3", "device"); ("G9Z8Y7", "unauthorized")]) =
    Ok (JObj [("devices",
               JArr (map (fun d : string * string => JStr (fst d))
                         [("G1A2B3", "device"); ("G9Z8Y7", "unauthorized")]))]) /\
  fetch_devices
    ("List of devices attached" +:+
     String "010" (device_lines [("G1A2B3", "device"); ("G9Z8Y7", "unauthorized")])) =
    Raise ValueError.
Proof.
  apply (fetch_devices_serials "List of devices attached"
           [("G1A2B3", "device"); ("G9Z8Y7", "unauthorized")]).
  - reflexivity.
  - repeat constructor.
Defined.

Lemma first_ip_skip (before rest : list string) :
  Forall (fun word => startswith "IpAddr=" word = false) before ->
  first_ip (before ++ rest) = first_ip rest.
Proof.
  induction 1 as [|w before Hw _ IH]; [reflexivity|].
  cbn [app first_ip]. rewrite Hw. exact IH.
Qed.

Lemma last_of_app (l : list string) (x : string) : last_of (l ++ [x]) = x.
Proof. unfold last_of. apply last_last. Qed.

(** X23.  [fetch_device_ip] gives the address of the first word of the
    output that starts with [IpAddr=]: the text after the sign [=] (the
    words being what single blanks separate), whatever words follow, a
    second address among them. *)
Theorem fetch_device_ip_first (decoded_data ip : string) (before after : list string) :
  split " " decoded_data = before ++ ("IpAddr=" +:+ ip) :: after ->
  Forall (fun word => startswith "IpAddr=" word = false) before ->
  without "=" ip = true ->
  fetch_device_ip decoded_data = Some ip.
Proof.
  intros Hs Hb Hip. unfold fetch_device_ip. rewrite Hs, (first_ip_skip _ _ Hb).
  cbn [first_ip]. change ("IpAddr=" +:+ ip) with ("IpAddr" +:+ String "=" ip).
  assert (startswith "IpAddr=" ("IpAddr" +:+ String "=" ip) = true) as ->.
  { unfold startswith. cbn. destruct ip; reflexivity. }
  rewrite split_app, (split_without _ _ Hip).
  change (split "=" "IpAddr") with ["IpAddr"]. reflexivity.
Qed.

Lemma fetch_device_ip_first_status :
  fetch_device_ip "Wifi: connected IpAddr=192.168.1.20 IpAddr=10.0.0.1 Ssid=lab" =
  Some "192.168.1.20".
Proof.
  apply (fetch_device_ip_first _ "192.168.1.20" ["Wifi:"; "connected"]
           ["IpAddr=10.0.0.1"; "Ssid=lab"]).
  - reflexivity.
  - repeat constructor.
  - reflexivity.
Defined.

Lemma running_verdict (packageId : string) (items : list json) :
  Forall process_entry items ->
  exists answer,
    running items packageId = Ok answer /\
    (answer = true <-> Exists (running_entry packageId) items).
Proof.
  induction 1 as [|item items [[package Hp] [state Hs]] _ (answer & IH & Hiff)].
  - exists false. split; [reflexivity|]. split; [discriminate | intros H; inversion H].
  - cbn [running]. unfold mbind, result_bind. rewrite Hp.
    destruct (py_eq package (JStr packageId)) eqn:Ep.
    + apply py_eq_str in Ep. subst package. rewrite Hs.
      destruct (py_eq state (JStr "Running")) eqn:Es.
      * apply py_eq_str in Es. subst state. exists true. split; [reflexivity|].
        split; [|reflexivity]. intros _. left. split; assumption.
      * exists answer. split; [exact IH|]. rewrite Hiff, Exists_cons. split; [auto|].
        intros [[_ Hr]|H]; [|exact H]. rewrite Hs in Hr. injection Hr as ->.
        cbn [py_eq] in Es. rewrite String.eqb_refl in Es. discriminate Es.
    + exists answer. split; [exact IH|]. rewrite Hiff, Exists_cons. split; [auto|].
      intros [[Hr _]|H]; [|exact H]. rewrite Hp in Hr. injection Hr as ->.
      cbn [py_eq] in Ep. rewrite String.eqb_refl in Ep. discriminate Ep.
Qed.

(** X24.  [is_app_running] answers [True] exactly when the process list
    has an entry of the package whose state is [Running]: for an output of
    [mldb ps -j] that decodes into a list of entries with a package and a
    state, entries of other packages and entries of the package in another
    state do not count. *)
Theorem is_app_running_verdict (rawData packageId : string) (items : list json) :
  Json.loads rawData = Ok (JArr items) ->
  Forall process_entry items ->
  exists answer,
    is_app_running rawData packageId = Ok answer /\
    (answer = true <-> Exists (running_entry packageId) items).
Proof.
  intros Hl Hi. unfold is_app_running. unfold mbind, result_bind. rewrite Hl. cbn [iter].
  apply running_verdict, Hi.
Qed.

Lemma is_app_running_verdict_previewer :
  exists answer,
    is_app_running
      (with_quotes
         "[{'package': 'com.magicleap.iconreview', 'state': 'Paused'}, {'package': 'com.magicleap.home', 'state': 'Running'}]")
      "com.magicleap.iconreview" = Ok answer /\
    (answer = true <->
     Exists (running_entry "com.magicleap.iconreview")
       [JObj [("package", JStr "com.magicleap.iconreview"); ("state", JStr "Paused")];
        JObj [("package", JStr "com.magicleap.home"); ("state", JStr "Running")]]).
Proof.
  apply (is_app_running_verdict _ "com.magicleap.iconreview").
  - vm_compute. reflexivity.
  - repeat constructor; eexists; reflexivity.
Defined.

End DeviceBridge.

(** ** The FBX file, frozen transforms and the list of materials *)

Module FbxFile.
Import Py Maya Utils Core Observe Notions MonadFacts SettingsFacts FbxFacts FrameFacts
  BakeWindow.

Lemma formatPathForWindowsMEL_plain (path : string) :
  without "\" path = true -> formatPathForWindowsMEL path = path.
Proof.
  unfold without. induction path as [|c path IH]; [reflexivity|].
  cbn [string_forallb formatPathForWindowsMEL]. intros H. apply andb_prop in H as [Hc Hp].
  apply negb_true_iff in Hc. rewrite Hc, (IH Hp). reflexivity.
Qed.

(** X25.  [formatPathForWindowsMEL] leaves no backslash in a path, keeps
    its length, changes nothing in a path without a backslash, and so
    changes nothing when it is applied a second time. *)
Theorem formatPathForWindowsMEL_slashes (path : string) :
  without "\" (formatPathForWindowsMEL path) = true /\
  String.length (formatPathForWindowsMEL path) = String.length path /\
  (without "\" path = true -> formatPathForWindowsMEL path = path) /\
  formatPathForWindowsMEL (formatPathForWindowsMEL path) = formatPathForWindowsMEL path.
Proof.
  assert (H : without "\" (formatPathForWindowsMEL path) = true).
  { unfold without. induction path as [|c path IH]; [reflexivity|].
    cbn [formatPathForWindowsMEL string_forallb]. rewrite IH, andb_true_r.
    destruct (Ascii.eqb c "\") eqn:E; [reflexivity|]. rewrite E. reflexivity. }
  split; [exact H|]. split; [|split].
  - clear H. induction path as [|c path IH]; [reflexivity|].
    cbn [formatPathForWindowsMEL String.length]. rewrite IH. reflexivity.
  - apply formatPathForWindowsMEL_plain.
  - apply formatPathForWindowsMEL_plain, H.
Qed.

(** The settings of the animation, whichever way they are made. *)
Lemma appending_mel_settings (l : list mel) :
  Forall (fun c => writes_fbx (MelEval c) = false) l ->
  appending (fun c => writes_fbx c = false) (mels l).
Proof.
  intros Hl. unfold mels. induction Hl as [|c l Hc _ IH]; cbn [for_each].
  - apply appending_readonly, readonly_ret.
  - apply appending_bind; [apply appending_issue, Hc | intros _; exact IH].
Qed.

Lemma appending_fbx_takes (takes : json) :
  appending (fun c => writes_fbx c = false)
    (if truthy takes then
       xs ← lift (iter takes);
       starts ← lift (fields "startFrame" xs);
       startFrame ← lift (py_min starts);
       ends ← lift (fields "endFrame" xs);
       endFrame ← lift (py_max ends);
       mels (fbx_animation startFrame endFrame) ;;
       for_each xs split_take ;;
       mels [Mel "FBXExportSplitAnimationIntoTakes -q"]
     else
       mels fbx_no_takes).
Proof.
  destruct (truthy takes); [|apply appending_mel_settings; repeat constructor].
  repeat (apply appending_bind; [apply appending_readonly, readonly_lift | intros ?]).
  apply appending_bind; [apply appending_mel_settings; repeat constructor | intros _].
  apply appending_bind; [|intros _; apply appending_mel_settings; repeat constructor].
  apply appending_for_each. intros take. unfold split_take.
  repeat (apply appending_bind; [apply appending_readonly, readonly_lift | intros ?]).
  apply appending_issue. reflexivity.
Qed.

(** What [exportFBX] has sent and how it ends. *)
Lemma exportFBX_log (outputPath : string) (selectionOnly : bool)
  (takes : json) (m : maya) :
  exists l,
    snd (exportFBX outputPath selectionOnly takes m) = set_issued (issued m ++ l) m /\
    match fst (exportFBX outputPath selectionOnly takes m) with
    | Ok _ =>
        exists settings,
          l = settings ++ [MelEval (FBXExport outputPath selectionOnly)] /\
          Forall (fun c => writes_fbx c = false) settings
    | Raise _ => Forall (fun c => writes_fbx c = false) l
    end.
Proof.
  unfold exportFBX. rewrite bind_run, mels_run, bind_run.
  set (m0 := set_issued (issued m ++ map MelEval fbx_base) m).
  match goal with |- context [match ?c m0 with _ => _ end] =>
    destruct (c m0) as [[[]|e] m1] eqn:E;
    pose proof (appending_fbx_takes takes m0 _ _ E) as (l1 & -> & Hl1)
  end.
  - rewrite mels_run. cbn [fst snd issued set_issued m0].
    exists (map MelEval fbx_base ++ l1 ++ map MelEval (fbx_export outputPath selectionOnly)).
    split; [rewrite <- !app_assoc; reflexivity|].
    exists (map MelEval fbx_base ++ l1 ++
            map MelEval (removelast (fbx_export outputPath selectionOnly))). split.
    + rewrite <- !app_assoc. reflexivity.
    + apply Forall_app. split; [repeat constructor|].
      apply Forall_app. split; [exact Hl1 | repeat constructor].
  - cbn [fst snd issued set_issued m0]. exists (map MelEval fbx_base ++ l1).
    split; [rewrite <- app_assoc; reflexivity|].
    apply Forall_app. split; [repeat constructor | exact Hl1].
Qed.

Lemma fields_raise (key : string) (xs : list json) (e : exn) :
  fields key xs = Raise e -> exists take, take ∈ xs /\ getitem take key = Raise e.
Proof.
  induction xs as [|x xs IH]; [discriminate|]. cbn [fields]. unfold mbind, result_bind.
  destruct (getitem x key) as [v|e'] eqn:Ex.
  - destruct (fields key xs) as [vs|e'] eqn:Ef; [discriminate|].
    intros H. injection H as ->. destruct (IH eq_refl) as (take & Hin & Ht).
    exists take. split; [right; exact Hin | exact Ht].
  - intros H. injection H as ->. exists x. split; [left | exact Ex].
Qed.

(** The frames read from takes with integer frames are integers. *)
Lemma fields_integers (key : string) (xs : list json) (vs : list json) :
  Forall (fun take => integer_frame take key = true) xs ->
  fields key xs = Ok vs ->
  exists zs, vs = map JInt zs /\ length zs = length xs.
Proof.
  intros H. revert vs. induction H as [|x xs Hx _ IH]; intros vs.
  - intros E. injection E as <-. exists []. split; reflexivity.
  - cbn [fields]. unfold mbind, result_bind, integer_frame in *.
    destruct (getitem x key) as [v|]; [|discriminate].
    destruct (fields key xs) as [vs'|]; [|discriminate].
    intros E. injection E as <-. destruct (IH vs' eq_refl) as (zs & -> & Hlen).
    destruct v; try discriminate Hx. eexists (_ :: zs). split; [reflexivity|].
    cbn [length]. rewrite Hlen. reflexivity.
Qed.

Lemma ints_integers (zs : list Z) : ints (map JInt zs) = Ok zs.
Proof.
  induction zs as [|z zs IH]; [reflexivity|]. cbn [map ints as_int].
  unfold mbind, result_bind. rewrite IH. reflexivity.
Qed.

Lemma py_min_integers (zs : list Z) :
  zs <> [] -> exists v, py_min (map JInt zs) = Ok v.
Proof.
  intros Hne. unfold py_min, mbind, result_bind. rewrite ints_integers.
  destruct zs; [contradiction | eauto].
Qed.

Lemma py_max_integers (zs : list Z) :
  zs <> [] -> exists v, py_max (map JInt zs) = Ok v.
Proof.
  intros Hne. unfold py_max, mbind, result_bind. rewrite ints_integers.
  destruct zs; [contradiction | eauto].
Qed.

Lemma split_take_raises (take : json) (m m' : maya) (e : exn) :
  split_take take m = (Raise e, m') ->
  exists key, key ∈ ["startFrame"; "endFrame"; "name"] /\ getitem take key = Raise e.
Proof.
  unfold split_take. rewrite !bind_run, !lift_run.
  destruct (getitem take "name") as [n|e1] eqn:En.
  - rewrite !bind_run, !lift_run.
    destruct (getitem take "startFrame") as [a|e1] eqn:Es.
    + rewrite !bind_run, !lift_run.
      destruct (getitem take "endFrame") as [b|e1] eqn:Ee; [discriminate|].
      intros H. injection H as -> _. exists "endFrame".
      split; [right; left | exact Ee].
    + intros H. injection H as -> _. exists "startFrame". split; [left | exact Es].
  - intros H. injection H as -> _. exists "name". split; [right; right; left | exact En].
Qed.

Lemma for_each_split_raises (xs : list json) (e : exn) :
  forall m m',
    for_each xs split_take m = (Raise e, m') ->
    exists take key,
      take ∈ xs /\ key ∈ ["startFrame"; "endFrame"; "name"] /\ getitem take key = Raise e.
Proof.
  induction xs as [|x xs IH]; intros m m' H; [discriminate H|].
  cbn [for_each] in H. rewrite bind_run in H.
  destruct (split_take x m) as [[[]|e1] m1] eqn:Ex.
  - destruct (IH _ _ H) as (take & key & Hin & Hk & Hg).
    exists take, key. split; [right; exact Hin | auto].
  - injection H as -> _. destruct (split_take_raises _ _ _ _ Ex) as (key & Hk & Hg).
    exists x, key. split; [left | auto].
Qed.

(** With integer frames [exportFBX] raises only on takes that cannot be
    read. *)
Lemma exportFBX_raises (outputPath : string) (selectionOnly : bool)
  (takes : json) (m : maya) (e : exn) :
  integer_frames takes = true ->
  fst (exportFBX outputPath selectionOnly takes m) = Raise e ->
  unreadable takes e.
Proof.
  intros Hint. unfold exportFBX. rewrite bind_run, mels_run, bind_run.
  set (m0 := set_issued (issued m ++ map MelEval fbx_base) m).
  destruct (truthy takes) eqn:Htr.
  2:{ rewrite mels_run, mels_run. discriminate. }
  unfold unreadable. rewrite bind_run, lift_run.
  unfold integer_frames in Hint.
  destruct (iter takes) as [xs|e0] eqn:Hi.
  2:{ intros H. injection H as ->. split; [exact Htr | left; reflexivity]. }
  assert (Hne : xs <> []) by (apply (truthy_iter takes xs Htr Hi)).
  assert (Hframes : Forall (fun take => integer_frame take "startFrame" = true) xs /\
                    Forall (fun take => integer_frame take "endFrame" = true) xs).
  { clear -Hint. induction xs as [|x xs IH]; [split; constructor|].
    cbn [forallb] in Hint. apply andb_prop in Hint as [Hx Hr].
    apply andb_prop in Hx as [H1 H2]. destruct (IH Hr) as [IH1 IH2].
    split; constructor; assumption. }
  destruct Hframes as [Hs He].
  rewrite bind_run, lift_run.
  destruct (fields "startFrame" xs) as [starts|e0] eqn:Hfs.
  2:{ intros H. injection H as ->. split; [exact Htr|]. right.
      destruct (fields_raise _ _ _ Hfs) as (take & Hin & Hg).
      exists xs, take, "startFrame". repeat split; [exact Hin | left | exact Hg]. }
  destruct (fields_integers _ _ _ Hs Hfs) as (zs & -> & Hlen).
  assert (Hzs : zs <> []) by (destruct zs; [destruct xs; [contradiction | discriminate Hlen] | discriminate]).
  destruct (py_min_integers zs Hzs) as (lo & Hlo).
  rewrite bind_run, lift_run, Hlo, bind_run, lift_run.
  destruct (fields "endFrame" xs) as [ends|e0] eqn:Hfe.
  2:{ intros H. injection H as ->. split; [exact Htr|]. right.
      destruct (fields_raise _ _ _ Hfe) as (take & Hin & Hg).
      exists xs, take, "endFrame". repeat split; [exact Hin | right; left | exact Hg]. }
  destruct (fields_integers _ _ _ He Hfe) as (zs' & -> & Hlen').
  assert (Hzs' : zs' <> []) by (destruct zs'; [destruct xs; [contradiction | discriminate Hlen'] | discriminate]).
  destruct (py_max_integers zs' Hzs') as (hi & Hhi).
  rewrite bind_run, lift_run, Hhi, bind_run, mels_run, bind_run.
  match goal with |- context [for_each xs split_take ?m1] =>
    destruct (for_each xs split_take m1) as [[[]|e0] m2] eqn:Ef
  end.
  - rewrite mels_run, mels_run. discriminate.
  - intros H. injection H as ->. split; [exact Htr|]. right.
    destruct (for_each_split_raises _ _ _ _ Ef) as (take & key & Hin & Hk & Hg).
    exists xs, take, key. auto.
Qed.



End FbxFile.

Module FreezeTransforms.
Import Py Maya Core Utils Observe Notions MonadFacts SettingsFacts BakeFacts Bundle
  TransformBaking.

Lemma MakeIdentity_bake_commands (p : string) (n : dagnode) :
  MakeIdentity p ∈ bake_commands n <->
  getNodePath n = p /\ hasFn n kJoint = false /\ getMeshes n = [].
Proof.
  unfold bake_commands. destruct (hasFn n kJoint).
  - split; [intros H; inversion H | intros (_ & H & _); discriminate H].
  - destruct (getMeshes n) as [|x xs].
    + split.
      * intros H. apply elem_of_cons in H as [H|H]; [discriminate H|].
        apply elem_of_cons in H as [H|H].
        -- injection H as ->. auto.
        -- apply list_elem_of_singleton in H. discriminate H.
      * intros (<- & _ & _). right. left.
    + split; [intros H; inversion H | intros (_ & _ & H); discriminate H].
Qed.

(** X27.  [bakeTransforms] freezes the transforms below the Icon Template
    that are neither joints nor carry a mesh, and no other node: in a
    scene with an Icon Template it returns, and the commands it has sent
    hold [makeIdentity] for a node exactly when the node is such a
    transform. *)
Theorem bakeTransforms_freezes (m : maya) (t : dagnode) :
  template m = Some t ->
  exists l,
    bakeTransforms m = (Ok tt, set_issued (issued m ++ l) m) /\
    forall p,
      MakeIdentity p ∈ l <->
      exists n, n ∈ children_of true kTransform t /\ getNodePath n = p /\
                hasFn n kJoint = false /\ getMeshes n = [].
Proof.
  intros Ht. eexists. split; [apply (bakeTransforms_commands m t Ht)|].
  intros p. rewrite elem_of_concat. split.
  - intros (cmds & Hp & Hc). apply list_elem_of_fmap in Hc as (n & -> & Hn).
    exists n. split; [exact Hn|]. apply MakeIdentity_bake_commands, Hp.
  - intros (n & Hn & Hp). exists (bake_commands n).
    split; [apply MakeIdentity_bake_commands, Hp|].
    apply list_elem_of_fmap. exists n. split; [reflexivity | exact Hn].
Qed.

Lemma bakeTransforms_freezes_animated :
  exists l,
    bakeTransforms Scenes.animated =
      (Ok tt, set_issued (issued Scenes.animated ++ l) Scenes.animated) /\
    forall p,
      MakeIdentity p ∈ l <->
      exists n, n ∈ children_of true kTransform Scenes.iconTemplate /\ getNodePath n = p /\
                hasFn n kJoint = false /\ getMeshes n = [].
Proof.
  apply (bakeTransforms_freezes Scenes.animated Scenes.iconTemplate). reflexivity.
Defined.

End FreezeTransforms.

Module MaterialList.
Import Py Maya Constants Core Observe Notions MonadFacts BakeFacts FrameFacts Manifest
  IconMaterialsWidget.

Lemma getMaterialsForMeshes_split (a b : list dagnode) (m : maya)
  (mats uns : list string) :
  getMaterialsForMeshes (a ++ b) m = (Ok (mats, uns), m) ->
  exists mats1 uns1 mats2 uns2,
    getMaterialsForMeshes a m = (Ok (mats1, uns1), m) /\
    getMaterialsForMeshes b m = (Ok (mats2, uns2), m) /\
    mats = mats1 ++ mats2 /\ uns = uns1 ++ uns2.
Proof.
  revert mats uns. induction a as [|mesh a IH]; intros mats uns H.
  - exists [], [], mats, uns. auto.
  - cbn [app getMaterialsForMeshes] in H |- *. rewrite bind_run in H |- *.
    destruct (getMaterialsForMesh mesh m) as [[[[ms us]|]|e] m1] eqn:E; try discriminate H.
    pose proof (readonly_getMaterialsForMesh mesh m) as Hm. rewrite E in Hm.
    cbn [snd] in Hm. subst m1.
    rewrite bind_run in H |- *.
    destruct (getMaterialsForMeshes (a ++ b) m) as [[[ma ua]|e] m1] eqn:Ea;
      try discriminate H.
    pose proof (readonly_getMaterialsForMeshes (a ++ b) m) as Hm. rewrite Ea in Hm.
    cbn [snd] in Hm. subst m1.
    injection H as <- <-.
    destruct (IH ma ua eq_refl) as (mats1 & uns1 & mats2 & uns2 & H1 & H2 & -> & ->).
    exists (ms ++ mats1), (us ++ uns1), mats2, uns2. rewrite H1.
    repeat split; [exact H2 | apply app_assoc | apply app_assoc].
Qed.

(** X28.  [loadMaterials] lists every material once: when the scene has
    both components and all their meshes exist, the widget holds the
    materials of the meshes of the Model and of the Portal, each of them
    once however many meshes use it, and likewise the unsupported
    materials; the scene is not changed. *)
Theorem loadMaterials_unique (self : widget) (m : maya) (t model portal : dagnode)
  (mats unsupported : list string) :
  template m = Some t ->
  modelComponent m = Some model ->
  portalComponent m = Some portal ->
  getMaterialsForMeshes (component_meshes model ++ component_meshes portal) m =
    (Ok (mats, unsupported), m) ->
  exists self',
    loadMaterials self m = (Ok self', m) /\
    NoDup (_materials self') /\
    NoDup (_unsupportedMaterials self') /\
    (forall x, x ∈ _materials self' <-> x ∈ mats) /\
    (forall x, x ∈ _unsupportedMaterials self' <-> x ∈ unsupported).
Proof.
  intros Ht Hm Hp H.
  apply getMaterialsForMeshes_split in H
    as (mats1 & uns1 & mats2 & uns2 & H1 & H2 & -> & ->).
  exists {| _materials := unique (mats1 ++ mats2 ++ []);
            _unsupportedMaterials := unique (uns1 ++ uns2 ++ []) |}.
  split.
  - unfold loadMaterials, getModelComponentNode, getPortalComponentNode.
    rewrite bind_run, gets_run, Ht, Hm, bind_run, gets_run, Ht, Hp.
    cbn [component_materials]. unfold getMeshesRecursive.
    rewrite !bind_run, !getChildren_some.
    change ((mret ?x : M _) m) with (Ok x, m). cbn beta iota.
    fold (component_meshes model). rewrite bind_run, H1. cbn beta iota.
    rewrite !bind_run, !getChildren_some.
    change ((mret ?x : M _) m) with (Ok x, m). cbn beta iota.
    fold (component_meshes portal). rewrite bind_run, H2. reflexivity.
  - cbn [_materials _unsupportedMaterials]. rewrite !app_nil_r.
    split; [apply unique_NoDup|]. split; [apply unique_NoDup|].
    split; intros x; apply unique_elem.
Qed.

Lemma loadMaterials_unique_animated :
  exists self',
    loadMaterials {| _materials := []; _unsupportedMaterials := [] |} Scenes.animated =
      (Ok self', Scenes.animated) /\
    NoDup (_materials self') /\
    NoDup (_unsupportedMaterials self') /\
    (forall x, x ∈ _materials self' <-> x ∈ ["lambert1"; "lambert1"; "skyMat"]) /\
    (forall x, x ∈ _unsupportedMaterials self' <-> x ∈ []).
Proof.
  apply (loadMaterials_unique _ Scenes.animated Scenes.iconTemplate Scenes.modelGroup
           Scenes.portalGroup).
  - reflexivity.
  - reflexivity.
  - reflexivity.
  - reflexivity.
Defined.

End MaterialList.
